(** * Accountability Agent: verification and daily-log reconciliation

    A shallow embedding of the core of the repository:

    - [app/utils/time_utils.py]       (time window resolver),
    - [app/models/user.py], [app/models/daily_log.py] (record store),
    - [app/services/github_service.py] (activity aggregator),
    - [app/services/verification_service.py] (verification engine),
    - [app/api/replies.py]            (reply ingestion),
    - [cron/send_daily_checkins.py]   (check-in job),

    followed by the properties established about them.

    Conventions.  Python integers are [Z].  A calendar [date] is the number
    of days since 1970-01-01.  A [datetime] is a wall-clock reading in
    microseconds since 1970-01-01T00:00:00 on the local clock, paired with
    the UTC offset of its tzinfo.  Strings are [string]; every [ascii] is
    read as the code point of the same number.  Python exceptions are the
    constructors of [exn]; code that can raise returns a [result]; code
    that also touches the SQLAlchemy session is a function from [Session]
    to a new [Session] and a [result], so that a raise keeps whatever the
    session held at that point, as in Python. *)

From Stdlib Require Import ZArith List String Ascii Bool Lia.
Import ListNotations.
Open Scope string_scope.
Open Scope list_scope.
Open Scope Z_scope.

Set Implicit Arguments.

(* ================================================================= *)
(** ** Python exceptions and results *)

Inductive exn : Type :=
| GithubException (msg : string)      (* github.GithubException and subclasses *)
| IntegrityError (msg : string)       (* sqlalchemy.exc.IntegrityError *)
| OperationalError (msg : string)     (* sqlalchemy.exc.OperationalError *)
| DBAPIError (msg : string)           (* any other sqlalchemy.exc.DBAPIError *)
| AttributeError (msg : string)
| IndexError (msg : string)
| KeyError (key : string)             (* [str(e)] is the repr of the key *)
| TypeError (msg : string)
| ConnectionError (msg : string)      (* requests.exceptions.ConnectionError *)
| HTTPException (status_code : Z) (detail : string).

Definition is_GithubException (e : exn) : bool :=
  match e with GithubException _ => true | _ => false end.

Definition is_HTTPException (e : exn) : bool :=
  match e with HTTPException _ _ => true | _ => false end.

(** [str(e)] *)
Definition exn_str (e : exn) : string :=
  match e with
  | GithubException m | IntegrityError m | OperationalError m | DBAPIError m
  | AttributeError m | IndexError m | KeyError m | TypeError m
  | ConnectionError m => m
  | HTTPException _ d => d
  end.

Inductive result (A : Type) : Type :=
| Ok (a : A)
| Raise (e : exn).

Arguments Ok {A} a.
Arguments Raise {A} e.

Definition is_Ok {A} (r : result A) : bool :=
  match r with Ok _ => true | Raise _ => false end.

(* ================================================================= *)
(** ** Python strings: [str.strip] and truthiness *)

(** [str.isspace] on one character, for code points below 256. *)
Definition is_space (c : ascii) : bool :=
  let n := nat_of_ascii c in
  ((9 <=? n) && (n <=? 13) || (28 <=? n) && (n <=? 32)
   || (n =? 133) || (n =? 160))%nat.

Fixpoint lstrip (s : string) : string :=
  match s with
  | EmptyString => EmptyString
  | String c r => if is_space c then lstrip r else s
  end.

Fixpoint rstrip (s : string) : string :=
  match s with
  | EmptyString => EmptyString
  | String c r =>
      match rstrip r with
      | EmptyString => if is_space c then EmptyString else String c EmptyString
      | r' => String c r'
      end
  end.

Definition strip (s : string) : string := lstrip (rstrip s).

(** [bool(s)] for a [str]. *)
Definition str_truthy (s : string) : bool :=
  match s with EmptyString => false | _ => true end.

(** [bool(x)] for an [Optional[str]]. *)
Definition opt_str_truthy (o : option string) : bool :=
  match o with Some s => str_truthy s | None => false end.

(** [len(s)] *)
Definition len_str (s : string) : Z := Z.of_nat (String.length s).

(** [len(l)] *)
Definition len {A} (l : list A) : Z := Z.of_nat (List.length l).

(* ================================================================= *)
(** ** app/utils/time_utils.py *)

Definition date : Type := Z.

Definition MICROS_PER_DAY : Z := 86400000000.

(** A pytz zone: the UTC offset (microseconds east of UTC) in force at a
    UTC instant, used by [datetime.now(tz)], and the offset [tz.localize]
    picks for a naive wall-clock reading. *)
Record tzinfo : Type := {
  zone : string;
  utcoffset_at_instant : Z -> Z;
  utcoffset_at_wall : Z -> Z
}.

Record datetime : Type := {
  wall : Z;
  utcoffset : Z
}.

(** The absolute instant of an aware datetime, in microseconds UTC. *)
Definition instant (d : datetime) : Z := wall d - utcoffset d.

(** [d.date()] *)
Definition date_of (d : datetime) : date := wall d / MICROS_PER_DAY.

(** [a < b] on aware datetimes compares instants. *)
Definition datetime_ltb (a b : datetime) : bool := instant a <? instant b.

(** [datetime.now(tz)] when the clock reads [now] (microseconds UTC). *)
Definition datetime_now (tz : tzinfo) (now : Z) : datetime :=
  {| wall := now + utcoffset_at_instant tz now;
     utcoffset := utcoffset_at_instant tz now |}.

(** [tz.localize(naive)] *)
Definition localize (tz : tzinfo) (naive : Z) : datetime :=
  {| wall := naive; utcoffset := utcoffset_at_wall tz naive |}.

(** [datetime.combine(d, datetime.min.time())] and
    [datetime.combine(d, datetime.max.time())], as naive readings. *)
Definition combine_min (d : date) : Z := d * MICROS_PER_DAY.
Definition combine_max (d : date) : Z := d * MICROS_PER_DAY + (MICROS_PER_DAY - 1).

Definition UTC : tzinfo :=
  {| zone := "UTC"; utcoffset_at_instant := fun _ => 0;
     utcoffset_at_wall := fun _ => 0 |}.

(** What the module reads from its surroundings: [settings.timezone] and
    the zone database behind [pytz.timezone]. *)
Record Config : Type := {
  settings_timezone : string;
  pytz_timezone : string -> option tzinfo
}.

Definition get_timezone (cfg : Config) (tz_name : option string) : tzinfo :=
  let tz_name := match tz_name with
                 | None => settings_timezone cfg
                 | Some n => n
                 end in
  match pytz_timezone cfg tz_name with
  | Some tz => tz
  | None => UTC                      (* except pytz.UnknownTimeZoneError *)
  end.

Definition get_current_datetime (cfg : Config) (now : Z)
           (tz_name : option string) : datetime :=
  let tz := get_timezone cfg tz_name in
  datetime_now tz now.

Definition get_current_date (cfg : Config) (now : Z)
           (tz_name : option string) : date :=
  date_of (get_current_datetime cfg now tz_name).

Definition get_start_of_day (cfg : Config) (now : Z)
           (target_date : option date) (tz_name : option string) : datetime :=
  let target_date := match target_date with
                     | None => get_current_date cfg now tz_name
                     | Some d => d
                     end in
  let tz := get_timezone cfg tz_name in
  let naive_dt := combine_min target_date in
  localize tz naive_dt.

Definition get_end_of_day (cfg : Config) (now : Z)
           (target_date : option date) (tz_name : option string) : datetime :=
  let target_date := match target_date with
                     | None => get_current_date cfg now tz_name
                     | Some d => d
                     end in
  let tz := get_timezone cfg tz_name in
  let naive_dt := combine_max target_date in
  localize tz naive_dt.

(* ================================================================= *)
(** ** The GitHub API as the aggregator sees it

    PyGithub objects, reduced to the attributes the service reads.  A
    [PaginatedList] is fetched lazily while it is iterated: it yields
    [items] and then either ends or raises [failure]. *)

Record paginated (A : Type) : Type := {
  items : list A;
  failure : option exn
}.

Module Commit.
Record t : Type := {
  sha : string;
  message : string;             (* commit.commit.message *)
  author_date : datetime;       (* commit.commit.author.date *)
  html_url : string;
  author_name : string          (* commit.commit.author.name *)
}.
End Commit.

Module PullRequest.
Record t : Type := {
  number : Z;
  title : string;
  state : string;
  created_at : datetime;
  updated_at : datetime;
  html_url : string;
  user_login : string           (* pr.user.login *)
}.
End PullRequest.

Module Issue.
Record t : Type := {
  number : Z;
  title : string;
  state : string;
  created_at : datetime;
  updated_at : datetime;
  html_url : string;
  user_login : string;          (* issue.user.login *)
  pull_request : bool           (* issue.pull_request is not None *)
}.
End Issue.

Module Repository.
Record t : Type := {
  full_name : string;
  (* repo.get_commits(author=, since=, until=) *)
  get_commits : string -> datetime -> datetime -> paginated Commit.t;
  (* repo.get_pulls(state=, sort="updated", direction="desc") *)
  get_pulls : string -> paginated PullRequest.t;
  (* repo.get_issues(state=, sort="updated", direction="desc", creator=) *)
  get_issues : string -> string -> paginated Issue.t
}.
End Repository.

(** The client behind [Github(token)]: the login of the authenticated user
    (or the exception [get_user] raises) and, for the n-th call of
    [user.get_repos] made by the service, the listed repositories (or the
    exception raised while listing them). *)
Record GitHubClient : Type := {
  get_user : result string;
  get_repos : nat -> result (list Repository.t)
}.

(** The dictionaries built by the service.  The [isoformat()] strings are
    kept as the datetimes and dates they render. *)
Module CommitData.
Record t : Type := {
  sha : string;
  message : string;
  repository : string;
  date : datetime;
  url : string;
  author : string
}.
End CommitData.

Module PRData.
Record t : Type := {
  number : Z;
  title : string;
  repository : string;
  state : string;
  created_at : datetime;
  updated_at : datetime;
  url : string;
  author : string
}.
End PRData.

Module IssueData.
Record t : Type := {
  number : Z;
  title : string;
  repository : string;
  state : string;
  created_at : datetime;
  updated_at : datetime;
  url : string;
  author : string
}.
End IssueData.

(** The [activity_data] dictionary of [get_daily_activity]. *)
Module Activity.
Record t : Type := {
  date : date;
  commits : list CommitData.t;
  commits_count : Z;
  pull_requests : list PRData.t;
  prs_count : Z;
  issues : list IssueData.t;
  issues_count : Z;
  repositories : list string;
  total_activity : Z
}.
End Activity.

(* ================================================================= *)
(** ** app/models/user.py and app/models/daily_log.py *)

Module User.
Record t : Type := {
  id : Z;
  email : string;
  github_username : string;
  github_token : string;
  is_active : bool;
  time_zone : string
}.

(** [getattr(user, name)] for the attributes holding a [str].  The mapped
    class has the columns above and nothing more, so any other name
    raises [AttributeError], as Python does. *)
Definition getattr_str (user : t) (name : string) : result string :=
  if String.eqb name "email" then Ok (email user)
  else if String.eqb name "github_username" then Ok (github_username user)
  else if String.eqb name "github_token" then Ok (github_token user)
  else if String.eqb name "time_zone" then Ok (time_zone user)
  else Raise (AttributeError
                ("'User' object has no attribute '" ++ name ++ "'")%string).
End User.

Module DailyLog.
Record t : Type := {
  id : Z;
  user_id : Z;
  log_date : date;
  checkin_sent_at : option datetime;
  user_response : option string;
  user_responded_at : option datetime;
  verification_completed_at : option datetime;
  commits_count : Z;
  prs_count : Z;
  issues_count : Z;
  verification_passed : option bool;
  verification_details : option Activity.t;
  summary_sent_at : option datetime
}.
End DailyLog.

(** Attribute assignment [log.field = v] on the in-memory object. *)
Definition set_user_response (v : option string) (log : DailyLog.t) : DailyLog.t :=
  {| DailyLog.id := DailyLog.id log;
     DailyLog.user_id := DailyLog.user_id log;
     DailyLog.log_date := DailyLog.log_date log;
     DailyLog.checkin_sent_at := DailyLog.checkin_sent_at log;
     DailyLog.user_response := v;
     DailyLog.user_responded_at := DailyLog.user_responded_at log;
     DailyLog.verification_completed_at := DailyLog.verification_completed_at log;
     DailyLog.commits_count := DailyLog.commits_count log;
     DailyLog.prs_count := DailyLog.prs_count log;
     DailyLog.issues_count := DailyLog.issues_count log;
     DailyLog.verification_passed := DailyLog.verification_passed log;
     DailyLog.verification_details := DailyLog.verification_details log;
     DailyLog.summary_sent_at := DailyLog.summary_sent_at log |}.

Definition set_user_responded_at (v : option datetime) (log : DailyLog.t) : DailyLog.t :=
  {| DailyLog.id := DailyLog.id log;
     DailyLog.user_id := DailyLog.user_id log;
     DailyLog.log_date := DailyLog.log_date log;
     DailyLog.checkin_sent_at := DailyLog.checkin_sent_at log;
     DailyLog.user_response := DailyLog.user_response log;
     DailyLog.user_responded_at := v;
     DailyLog.verification_completed_at := DailyLog.verification_completed_at log;
     DailyLog.commits_count := DailyLog.commits_count log;
     DailyLog.prs_count := DailyLog.prs_count log;
     DailyLog.issues_count := DailyLog.issues_count log;
     DailyLog.verification_passed := DailyLog.verification_passed log;
     DailyLog.verification_details := DailyLog.verification_details log;
     DailyLog.summary_sent_at := DailyLog.summary_sent_at log |}.

Definition set_verification_completed_at (v : option datetime) (log : DailyLog.t) : DailyLog.t :=
  {| DailyLog.id := DailyLog.id log;
     DailyLog.user_id := DailyLog.user_id log;
     DailyLog.log_date := DailyLog.log_date log;
     DailyLog.checkin_sent_at := DailyLog.checkin_sent_at log;
     DailyLog.user_response := DailyLog.user_response log;
     DailyLog.user_responded_at := DailyLog.user_responded_at log;
     DailyLog.verification_completed_at := v;
     DailyLog.commits_count := DailyLog.commits_count log;
     DailyLog.prs_count := DailyLog.prs_count log;
     DailyLog.issues_count := DailyLog.issues_count log;
     DailyLog.verification_passed := DailyLog.verification_passed log;
     DailyLog.verification_details := DailyLog.verification_details log;
     DailyLog.summary_sent_at := DailyLog.summary_sent_at log |}.

Definition set_commits_count (v : Z) (log : DailyLog.t) : DailyLog.t :=
  {| DailyLog.id := DailyLog.id log;
     DailyLog.user_id := DailyLog.user_id log;
     DailyLog.log_date := DailyLog.log_date log;
     DailyLog.checkin_sent_at := DailyLog.checkin_sent_at log;
     DailyLog.user_response := DailyLog.user_response log;
     DailyLog.user_responded_at := DailyLog.user_responded_at log;
     DailyLog.verification_completed_at := DailyLog.verification_completed_at log;
     DailyLog.commits_count := v;
     DailyLog.prs_count := DailyLog.prs_count log;
     DailyLog.issues_count := DailyLog.issues_count log;
     DailyLog.verification_passed := DailyLog.verification_passed log;
     DailyLog.verification_details := DailyLog.verification_details log;
     DailyLog.summary_sent_at := DailyLog.summary_sent_at log |}.

Definition set_prs_count (v : Z) (log : DailyLog.t) : DailyLog.t :=
  {| DailyLog.id := DailyLog.id log;
     DailyLog.user_id := DailyLog.user_id log;
     DailyLog.log_date := DailyLog.log_date log;
     DailyLog.checkin_sent_at := DailyLog.checkin_sent_at log;
     DailyLog.user_response := DailyLog.user_response log;
     DailyLog.user_responded_at := DailyLog.user_responded_at log;
     DailyLog.verification_completed_at := DailyLog.verification_completed_at log;
     DailyLog.commits_count := DailyLog.commits_count log;
     DailyLog.prs_count := v;
     DailyLog.issues_count := DailyLog.issues_count log;
     DailyLog.verification_passed := DailyLog.verification_passed log;
     DailyLog.verification_details := DailyLog.verification_details log;
     DailyLog.summary_sent_at := DailyLog.summary_sent_at log |}.

Definition set_issues_count (v : Z) (log : DailyLog.t) : DailyLog.t :=
  {| DailyLog.id := DailyLog.id log;
     DailyLog.user_id := DailyLog.user_id log;
     DailyLog.log_date := DailyLog.log_date log;
     DailyLog.checkin_sent_at := DailyLog.checkin_sent_at log;
     DailyLog.user_response := DailyLog.user_response log;
     DailyLog.user_responded_at := DailyLog.user_responded_at log;
     DailyLog.verification_completed_at := DailyLog.verification_completed_at log;
     DailyLog.commits_count := DailyLog.commits_count log;
     DailyLog.prs_count := DailyLog.prs_count log;
     DailyLog.issues_count := v;
     DailyLog.verification_passed := DailyLog.verification_passed log;
     DailyLog.verification_details := DailyLog.verification_details log;
     DailyLog.summary_sent_at := DailyLog.summary_sent_at log |}.

Definition set_verification_passed (v : option bool) (log : DailyLog.t) : DailyLog.t :=
  {| DailyLog.id := DailyLog.id log;
     DailyLog.user_id := DailyLog.user_id log;
     DailyLog.log_date := DailyLog.log_date log;
     DailyLog.checkin_sent_at := DailyLog.checkin_sent_at log;
     DailyLog.user_response := DailyLog.user_response log;
     DailyLog.user_responded_at := DailyLog.user_responded_at log;
     DailyLog.verification_completed_at := DailyLog.verification_completed_at log;
     DailyLog.commits_count := DailyLog.commits_count log;
     DailyLog.prs_count := DailyLog.prs_count log;
     DailyLog.issues_count := DailyLog.issues_count log;
     DailyLog.verification_passed := v;
     DailyLog.verification_details := DailyLog.verification_details log;
     DailyLog.summary_sent_at := DailyLog.summary_sent_at log |}.

Definition set_verification_details (v : option Activity.t) (log : DailyLog.t) : DailyLog.t :=
  {| DailyLog.id := DailyLog.id log;
     DailyLog.user_id := DailyLog.user_id log;
     DailyLog.log_date := DailyLog.log_date log;
     DailyLog.checkin_sent_at := DailyLog.checkin_sent_at log;
     DailyLog.user_response := DailyLog.user_response log;
     DailyLog.user_responded_at := DailyLog.user_responded_at log;
     DailyLog.verification_completed_at := DailyLog.verification_completed_at log;
     DailyLog.commits_count := DailyLog.commits_count log;
     DailyLog.prs_count := DailyLog.prs_count log;
     DailyLog.issues_count := DailyLog.issues_count log;
     DailyLog.verification_passed := DailyLog.verification_passed log;
     DailyLog.verification_details := v;
     DailyLog.summary_sent_at := DailyLog.summary_sent_at log |}.

Definition set_summary_sent_at (v : option datetime) (log : DailyLog.t) : DailyLog.t :=
  {| DailyLog.id := DailyLog.id log;
     DailyLog.user_id := DailyLog.user_id log;
     DailyLog.log_date := DailyLog.log_date log;
     DailyLog.checkin_sent_at := DailyLog.checkin_sent_at log;
     DailyLog.user_response := DailyLog.user_response log;
     DailyLog.user_responded_at := DailyLog.user_responded_at log;
     DailyLog.verification_completed_at := DailyLog.verification_completed_at log;
     DailyLog.commits_count := DailyLog.commits_count log;
     DailyLog.prs_count := DailyLog.prs_count log;
     DailyLog.issues_count := DailyLog.issues_count log;
     DailyLog.verification_passed := DailyLog.verification_passed log;
     DailyLog.verification_details := DailyLog.verification_details log;
     DailyLog.summary_sent_at := v |}.

Definition set_id (v : Z) (log : DailyLog.t) : DailyLog.t :=
  {| DailyLog.id := v;
     DailyLog.user_id := DailyLog.user_id log;
     DailyLog.log_date := DailyLog.log_date log;
     DailyLog.checkin_sent_at := DailyLog.checkin_sent_at log;
     DailyLog.user_response := DailyLog.user_response log;
     DailyLog.user_responded_at := DailyLog.user_responded_at log;
     DailyLog.verification_completed_at := DailyLog.verification_completed_at log;
     DailyLog.commits_count := DailyLog.commits_count log;
     DailyLog.prs_count := DailyLog.prs_count log;
     DailyLog.issues_count := DailyLog.issues_count log;
     DailyLog.verification_passed := DailyLog.verification_passed log;
     DailyLog.verification_details := DailyLog.verification_details log;
     DailyLog.summary_sent_at := DailyLog.summary_sent_at log |}.

(** [DailyLog(user_id=..., log_date=...)]: nullable columns unset, counts at
    their column default 0, primary key not yet assigned. *)
Definition new_DailyLog (user_id : Z) (log_date : date) : DailyLog.t :=
  {| DailyLog.id := 0;
     DailyLog.user_id := user_id;
     DailyLog.log_date := log_date;
     DailyLog.checkin_sent_at := None;
     DailyLog.user_response := None;
     DailyLog.user_responded_at := None;
     DailyLog.verification_completed_at := None;
     DailyLog.commits_count := 0;
     DailyLog.prs_count := 0;
     DailyLog.issues_count := 0;
     DailyLog.verification_passed := None;
     DailyLog.verification_details := None;
     DailyLog.summary_sent_at := None |}.

(* ================================================================= *)
(** ** The SQLAlchemy session over the two tables

    [users] and [daily_logs] are the committed rows.  [pending] holds the
    objects passed to [db.add] and not yet inserted; [dirty] holds loaded
    objects whose attributes were assigned and not yet flushed.  [commit]
    writes both in one transaction; [rollback] drops both. *)

Record Session : Type := {
  users : list User.t;
  daily_logs : list DailyLog.t;
  next_log_id : Z;
  pending : list DailyLog.t;
  dirty : list DailyLog.t
}.

(** Computations over the session that may raise. *)
Definition M (A : Type) : Type := Session -> Session * result A.

Definition ret {A} (a : A) : M A := fun s => (s, Ok a).

Definition raise {A} (e : exn) : M A := fun s => (s, Raise e).

Definition bind {A B} (m : M A) (k : A -> M B) : M B :=
  fun s => match m s with
           | (s', Ok a) => k a s'
           | (s', Raise e) => (s', Raise e)
           end.

(** [try: m  except Exception as e: h e] *)
Definition try_except {A} (m : M A) (h : exn -> M A) : M A :=
  fun s => match m s with
           | (s', Ok a) => (s', Ok a)
           | (s', Raise e) => h e s'
           end.

(** A call that raises without touching the session. *)
Definition lift {A} (r : result A) : M A := fun s => (s, r).

Notation "x <- m ;; k" := (bind m (fun x => k))
  (at level 61, m at next level, right associativity).
Notation "m ;;; k" := (bind m (fun _ => k))
  (at level 61, right associativity).

(** The unique constraint [uix_user_log_date] compares these two columns. *)
Definition same_key (user_id : Z) (log_date : date) (log : DailyLog.t) : bool :=
  (DailyLog.user_id log =? user_id) && (DailyLog.log_date log =? log_date).

Definition same_id (id : Z) (log : DailyLog.t) : bool :=
  DailyLog.id log =? id.

(** The identity map: a row already loaded and modified in this session is
    seen with its in-memory attributes. *)
Definition identity (s : Session) (row : DailyLog.t) : DailyLog.t :=
  match find (same_id (DailyLog.id row)) (dirty s) with
  | Some obj => obj
  | None => row
  end.

(** [db.query(DailyLog).filter(user_id == .., log_date == ..).first()];
    [fault] is the error the database raises on this statement, if any. *)
Definition query_first (fault : option exn) (user_id : Z) (log_date : date)
  : M (option DailyLog.t) :=
  fun s => match fault with
           | Some e => (s, Raise e)
           | None =>
               (s, Ok (option_map (identity s)
                         (find (same_key user_id log_date) (daily_logs s))))
           end.

(** [db.add(log)] *)
Definition db_add (log : DailyLog.t) : M unit :=
  fun s => ({| users := users s; daily_logs := daily_logs s;
               next_log_id := next_log_id s;
               pending := pending s ++ [log]; dirty := dirty s |}, Ok tt).

(** [log.field = v]: the object changes in memory and the session records
    it as modified. *)
Definition assign (f : DailyLog.t -> DailyLog.t) (log : DailyLog.t)
  : M DailyLog.t :=
  fun s =>
    let log' := f log in
    ({| users := users s; daily_logs := daily_logs s;
        next_log_id := next_log_id s; pending := pending s;
        dirty := log' :: filter (fun o => negb (same_id (DailyLog.id log') o))
                                (dirty s) |},
     Ok log').

(** INSERT of the pending objects, in order, under the unique constraint. *)
Fixpoint insert_all (new : list DailyLog.t) (rows : list DailyLog.t) (next : Z)
  : option (list DailyLog.t * Z) :=
  match new with
  | [] => Some (rows, next)
  | log :: rest =>
      if existsb (same_key (DailyLog.user_id log) (DailyLog.log_date log)) rows
      then None
      else insert_all rest (rows ++ [set_id next log]) (next + 1)
  end.

(** UPDATE of the modified objects, by primary key. *)
Definition update_all (objs : list DailyLog.t) (rows : list DailyLog.t)
  : list DailyLog.t :=
  map (fun row => match find (same_id (DailyLog.id row)) objs with
                  | Some obj => obj
                  | None => row
                  end) rows.

Arguments update_all : simpl never.

(** [db.commit()]: one transaction; on any error nothing is written and the
    session keeps its unflushed state until it is rolled back. *)
Definition commit (fault : option exn) : M unit :=
  fun s =>
    match fault with
    | Some e => (s, Raise e)
    | None =>
        match insert_all (pending s) (update_all (dirty s) (daily_logs s))
                         (next_log_id s) with
        | None => (s, Raise (IntegrityError
                     "duplicate key value violates unique constraint uix_user_log_date"))
        | Some (rows, next) =>
            ({| users := users s; daily_logs := rows; next_log_id := next;
                pending := []; dirty := [] |}, Ok tt)
        end
    end.

(** [db.rollback()] *)
Definition rollback (fault : option exn) : M unit :=
  fun s =>
    match fault with
    | Some e => (s, Raise e)
    | None =>
        ({| users := users s; daily_logs := daily_logs s;
            next_log_id := next_log_id s; pending := []; dirty := [] |}, Ok tt)
    end.

(** [db.refresh(log)]: reload the object from its row with a SELECT;
    [fault] is the error the database raises on that statement, if any.  The
    row is found by the columns of the unique constraint, which identify it
    as the primary key does. *)
Definition refresh (fault : option exn) (log : DailyLog.t) : M DailyLog.t :=
  fun s =>
    match fault with
    | Some e => (s, Raise e)
    | None =>
        match find (same_key (DailyLog.user_id log) (DailyLog.log_date log))
                   (daily_logs s) with
        | Some row => (s, Ok row)
        | None => (s, Raise (OperationalError "Could not refresh instance"))
        end
    end.

(** Another caller's [get_or_create] for the same key committing its INSERT
    (a row with empty fields) on its own connection. *)
Definition other_caller_creates (user_id : Z) (log_date : date) : M unit :=
  fun s =>
    if existsb (same_key user_id log_date) (daily_logs s) then (s, Ok tt)
    else
      ({| users := users s;
          daily_logs := daily_logs s
                        ++ [set_id (next_log_id s) (new_DailyLog user_id log_date)];
          next_log_id := next_log_id s + 1;
          pending := pending s; dirty := dirty s |}, Ok tt).

(** What the database does to one call of [get_or_create]. *)
Record CreateEnv : Type := {
  lookup_fault : option exn;       (* error on the SELECT *)
  concurrent_create : bool;        (* another caller inserts between the
                                      SELECT and the INSERT *)
  insert_fault : option exn;       (* error on the commit, other than the
                                      unique constraint *)
  insert_refresh_fault : option exn (* error on the refresh after the commit *)
}.

(** [DailyLog.get_or_create] *)
Definition get_or_create (ce : CreateEnv) (user_id : Z) (log_date : date)
  : M DailyLog.t :=
  log <- query_first (lookup_fault ce) user_id log_date ;;
  match log with
  | Some log => ret log
  | None =>
      let log := new_DailyLog user_id log_date in
      db_add log ;;;
      (if concurrent_create ce then other_caller_creates user_id log_date
       else ret tt) ;;;
      commit (insert_fault ce) ;;;
      refresh (insert_refresh_fault ce) log
  end.

(** [DailyLog.get_by_date] *)
Definition get_by_date (fault : option exn) (user_id : Z) (log_date : date)
  : M (option DailyLog.t) :=
  query_first fault user_id log_date.

(** [User.get_by_email] *)
Definition get_by_email (s : Session) (email : string) : option User.t :=
  find (fun u => String.eqb (User.email u) email) (users s).

(** [User.get_active_users]: the rows the query returns. *)
Definition get_active_users (s : Session) : list User.t :=
  filter (fun u => User.is_active u) (users s).

(** [User.get_active_users(db)] as a statement sent to the database;
    [fault] is the error the database raises on it, if any. *)
Definition query_active_users (fault : option exn) : M (list User.t) :=
  fun s =>
    match fault with
    | Some e => (s, Raise e)
    | None => (s, Ok (get_active_users s))
    end.

(* ================================================================= *)
(** ** app/services/github_service.py *)

(** [GitHubService.test_connection] *)
Definition test_connection (gh : GitHubClient) : result bool :=
  match get_user gh with
  | Ok _ => Ok true
  | Raise e => if is_GithubException e then Ok false else Raise e
  end.

(** [GitHubService.get_user_repos]; [call] counts the earlier calls of
    [user.get_repos] on this client. *)
Definition get_user_repos (gh : GitHubClient) (call : nat)
  : result (list Repository.t) :=
  match get_user gh with
  | Raise e => if is_GithubException e then Ok [] else Raise e
  | Ok _ =>
      match get_repos gh call with
      | Ok repos => Ok repos
      | Raise e => if is_GithubException e then Ok [] else Raise e
      end
  end.

(** [username = self.user.login if username is None] *)
Definition resolve_username (gh : GitHubClient) (username : option string)
  : result string :=
  match username with
  | None => get_user gh
  | Some u => Ok u
  end.

(** [for repo in repos: try: body  except GithubException: continue].
    The body returns the list built so far together with the exception that
    interrupted it, if any: items appended before the exception stay. *)
Fixpoint for_each_repo {A} (body : Repository.t -> list A -> list A * option exn)
         (repos : list Repository.t) (acc : list A) : result (list A) :=
  match repos with
  | [] => Ok acc
  | repo :: rest =>
      match body repo acc with
      | (acc', None) => for_each_repo body rest acc'
      | (acc', Some e) =>
          if is_GithubException e then for_each_repo body rest acc'
          else Raise e
      end
  end.

Definition commit_data (repo : Repository.t) (commit : Commit.t) : CommitData.t :=
  {| CommitData.sha := Commit.sha commit;
     CommitData.message := Commit.message commit;
     CommitData.repository := Repository.full_name repo;
     CommitData.date := Commit.author_date commit;
     CommitData.url := Commit.html_url commit;
     CommitData.author := Commit.author_name commit |}.

(** The body of the loop of [get_commits_for_date] for one repository. *)
Definition commits_of_repo (username : string) (start_dt end_dt : datetime)
           (repo : Repository.t) (commits_data : list CommitData.t)
  : list CommitData.t * option exn :=
  let commits := Repository.get_commits repo username start_dt end_dt in
  (commits_data ++ map (commit_data repo) (items commits), failure commits).

(** [GitHubService.get_commits_for_date] *)
Definition get_commits_for_date (cfg : Config) (now : Z) (gh : GitHubClient)
           (call : nat) (target_date : date) (username : option string)
  : result (list CommitData.t) :=
  match resolve_username gh username with
  | Raise e => Raise e
  | Ok username =>
      let start_dt := get_start_of_day cfg now (Some target_date) None in
      let end_dt := get_end_of_day cfg now (Some target_date) None in
      match get_user_repos gh call with
      | Raise e => Raise e
      | Ok repos =>
          for_each_repo (commits_of_repo username start_dt end_dt) repos []
      end
  end.

Definition pr_data (repo : Repository.t) (pr : PullRequest.t) : PRData.t :=
  {| PRData.number := PullRequest.number pr;
     PRData.title := PullRequest.title pr;
     PRData.repository := Repository.full_name repo;
     PRData.state := PullRequest.state pr;
     PRData.created_at := PullRequest.created_at pr;
     PRData.updated_at := PullRequest.updated_at pr;
     PRData.url := PullRequest.html_url pr;
     PRData.author := PullRequest.user_login pr |}.

(** [for pr in prs: ...] over a list that ends with [tail]; a [break]
    leaves the rest of the list, and its failure, unread. *)
Fixpoint scan_pulls (target_date : date) (username : string)
         (start_dt : datetime) (repo : Repository.t)
         (prs : list PullRequest.t) (tail : option exn)
         (prs_data : list PRData.t) : list PRData.t * option exn :=
  match prs with
  | [] => (prs_data, tail)
  | pr :: rest =>
      let pr_created := date_of (PullRequest.created_at pr) =? target_date in
      let pr_updated := date_of (PullRequest.updated_at pr) =? target_date in
      let pr_by_user := String.eqb (PullRequest.user_login pr) username in
      let prs_data :=
        if pr_by_user && (pr_created || pr_updated)
        then prs_data ++ [pr_data repo pr] else prs_data in
      if datetime_ltb (PullRequest.updated_at pr) start_dt
      then (prs_data, None)
      else scan_pulls target_date username start_dt repo rest tail prs_data
  end.

(** [for state in ["open", "closed"]: ...] for one repository. *)
Fixpoint pulls_of_states (target_date : date) (username : string)
         (start_dt : datetime) (states : list string) (repo : Repository.t)
         (prs_data : list PRData.t) : list PRData.t * option exn :=
  match states with
  | [] => (prs_data, None)
  | state :: rest =>
      let prs := Repository.get_pulls repo state in
      match scan_pulls target_date username start_dt repo
                       (items prs) (failure prs) prs_data with
      | (prs_data, None) =>
          pulls_of_states target_date username start_dt rest repo prs_data
      | (prs_data, Some e) => (prs_data, Some e)
      end
  end.

(** [GitHubService.get_pull_requests_for_date] *)
Definition get_pull_requests_for_date (cfg : Config) (now : Z)
           (gh : GitHubClient) (call : nat) (target_date : date)
           (username : option string) : result (list PRData.t) :=
  match resolve_username gh username with
  | Raise e => Raise e
  | Ok username =>
      let start_dt := get_start_of_day cfg now (Some target_date) None in
      match get_user_repos gh call with
      | Raise e => Raise e
      | Ok repos =>
          for_each_repo
            (pulls_of_states target_date username start_dt ["open"; "closed"])
            repos []
      end
  end.

Definition issue_data (repo : Repository.t) (issue : Issue.t) : IssueData.t :=
  {| IssueData.number := Issue.number issue;
     IssueData.title := Issue.title issue;
     IssueData.repository := Repository.full_name repo;
     IssueData.state := Issue.state issue;
     IssueData.created_at := Issue.created_at issue;
     IssueData.updated_at := Issue.updated_at issue;
     IssueData.url := Issue.html_url issue;
     IssueData.author := Issue.user_login issue |}.

Fixpoint scan_issues (target_date : date) (start_dt : datetime)
         (repo : Repository.t) (issues : list Issue.t) (tail : option exn)
         (issues_data : list IssueData.t) : list IssueData.t * option exn :=
  match issues with
  | [] => (issues_data, tail)
  | issue :: rest =>
      if Issue.pull_request issue
      then scan_issues target_date start_dt repo rest tail issues_data
      else
        let issue_created := date_of (Issue.created_at issue) =? target_date in
        let issue_updated := date_of (Issue.updated_at issue) =? target_date in
        let issues_data :=
          if issue_created || issue_updated
          then issues_data ++ [issue_data repo issue] else issues_data in
        if datetime_ltb (Issue.updated_at issue) start_dt
        then (issues_data, None)
        else scan_issues target_date start_dt repo rest tail issues_data
  end.

Fixpoint issues_of_states (target_date : date) (username : string)
         (start_dt : datetime) (states : list string) (repo : Repository.t)
         (issues_data : list IssueData.t) : list IssueData.t * option exn :=
  match states with
  | [] => (issues_data, None)
  | state :: rest =>
      let issues := Repository.get_issues repo state username in
      match scan_issues target_date start_dt repo
                        (items issues) (failure issues) issues_data with
      | (issues_data, None) =>
          issues_of_states target_date username start_dt rest repo issues_data
      | (issues_data, Some e) => (issues_data, Some e)
      end
  end.

(** [GitHubService.get_issues_for_date] *)
Definition get_issues_for_date (cfg : Config) (now : Z)
           (gh : GitHubClient) (call : nat) (target_date : date)
           (username : option string) : result (list IssueData.t) :=
  match resolve_username gh username with
  | Raise e => Raise e
  | Ok username =>
      let start_dt := get_start_of_day cfg now (Some target_date) None in
      match get_user_repos gh call with
      | Raise e => Raise e
      | Ok repos =>
          for_each_repo
            (issues_of_states target_date username start_dt ["open"; "closed"])
            repos []
      end
  end.

(** [repos.add(name)] followed by [sorted(list(repos))]: the distinct names
    in increasing order. *)
Fixpoint insert_sorted (x : string) (l : list string) : list string :=
  match l with
  | [] => [x]
  | y :: rest =>
      match String.compare x y with
      | Lt => x :: l
      | Eq => l
      | Gt => y :: insert_sorted x rest
      end
  end.

Definition sorted_set (names : list string) : list string :=
  fold_left (fun acc x => insert_sorted x acc) names [].

(** [GitHubService.get_daily_activity] *)
Definition get_daily_activity (cfg : Config) (now : Z) (gh : GitHubClient)
           (target_date : date) (username : option string)
  : result Activity.t :=
  match get_commits_for_date cfg now gh 0 target_date username with
  | Raise e => Raise e
  | Ok commits =>
  match get_pull_requests_for_date cfg now gh 1 target_date username with
  | Raise e => Raise e
  | Ok prs =>
  match get_issues_for_date cfg now gh 2 target_date username with
  | Raise e => Raise e
  | Ok issues =>
      let repos := map CommitData.repository commits
                   ++ map PRData.repository prs
                   ++ map IssueData.repository issues in
      Ok {| Activity.date := target_date;
            Activity.commits := commits;
            Activity.commits_count := len commits;
            Activity.pull_requests := prs;
            Activity.prs_count := len prs;
            Activity.issues := issues;
            Activity.issues_count := len issues;
            Activity.repositories := sorted_set repos;
            Activity.total_activity := len commits + len prs + len issues |}
  end end end.

(* ================================================================= *)
(** ** app/services/verification_service.py *)

(** The result dictionary of [verify_user_day]; keys that one of the two
    shapes lacks are [None]. *)
Module VerifyResult.
Record t : Type := {
  success : bool;
  passed : bool;
  error : option string;
  date : option date;
  commits_count : Z;
  prs_count : Z;
  issues_count : Z;
  repositories : option (list string);
  total_activity : Z;
  user_response : option string;
  details : option Activity.t
}.
End VerifyResult.

(** [VerificationService._create_error_result] *)
Definition _create_error_result (error_message : string) : VerifyResult.t :=
  {| VerifyResult.success := false;
     VerifyResult.passed := false;
     VerifyResult.error := Some error_message;
     VerifyResult.date := None;
     VerifyResult.commits_count := 0;
     VerifyResult.prs_count := 0;
     VerifyResult.issues_count := 0;
     VerifyResult.repositories := None;
     VerifyResult.total_activity := 0;
     VerifyResult.user_response := None;
     VerifyResult.details := None |}.

(** Everything outside the process that one user's verification run meets:
    the clock, the database's behaviour at each statement, the GitHub
    client built from a token, and the mail service. *)
Record Env : Type := {
  now : Z;
  create_env : CreateEnv;
  github : string -> GitHubClient;
  update_fault : option exn;            (* on the commit of the results *)
  update_refresh_fault : option exn;    (* on the refresh after that commit *)
  rollback_fault : option exn;          (* on the rollback of the handler *)
  send_verification_summary : result bool;
  summary_lookup_fault : option exn;    (* on the lookup after the mail *)
  summary_commit_fault : option exn;    (* on the commit of summary_sent_at *)
  batch_lookup_fault : option exn       (* on the lookup in the batch loop *)
}.

(** [datetime.now(timezone.utc)] and [datetime.utcnow()] *)
Definition utc_datetime (now : Z) : datetime := {| wall := now; utcoffset := 0 |}.

Definition default_min_commits : Z := 1.

(** [target_date = get_current_date(user.timezone)] when no date is given. *)
Definition default_target_date (cfg : Config) (now : Z) (user : User.t)
           (target_date : option date) : result date :=
  match target_date with
  | Some d => Ok d
  | None =>
      match User.getattr_str user "timezone" with
      | Ok tz => Ok (get_current_date cfg now (Some tz))
      | Raise e => Raise e
      end
  end.

(** The [try] block of [verify_user_day] (lines 66-117). *)
Definition verify_user_day_try (cfg : Config) (env : Env) (user : User.t)
           (target_date : date) (min_commits : Z) : M VerifyResult.t :=
  daily_log <- get_or_create (create_env env) (User.id user) target_date ;;
  let github_service := github env (User.github_token user) in
  connected <- lift (test_connection github_service) ;;
  if negb connected then
    ret (_create_error_result
           "GitHub connection failed. Please check your token.")
  else
    activity <- lift (get_daily_activity cfg (now env) github_service
                        target_date (Some (User.github_username user))) ;;
    daily_log <- assign (set_commits_count (Activity.commits_count activity))
                        daily_log ;;
    daily_log <- assign (set_prs_count (Activity.prs_count activity))
                        daily_log ;;
    daily_log <- assign (set_issues_count (Activity.issues_count activity))
                        daily_log ;;
    daily_log <- assign (set_verification_details (Some activity))
                        daily_log ;;
    daily_log <- assign (set_verification_completed_at
                           (Some (utc_datetime (now env)))) daily_log ;;
    let passed := Activity.total_activity activity >=? min_commits in
    daily_log <- assign (set_verification_passed (Some passed)) daily_log ;;
    commit (update_fault env) ;;;
    daily_log <- refresh (update_refresh_fault env) daily_log ;;
    ret {| VerifyResult.success := true;
           VerifyResult.passed := passed;
           VerifyResult.error := None;
           VerifyResult.date := Some target_date;
           VerifyResult.commits_count := Activity.commits_count activity;
           VerifyResult.prs_count := Activity.prs_count activity;
           VerifyResult.issues_count := Activity.issues_count activity;
           VerifyResult.repositories := Some (Activity.repositories activity);
           VerifyResult.total_activity := Activity.total_activity activity;
           VerifyResult.user_response := DailyLog.user_response daily_log;
           VerifyResult.details := Some activity |}.

(** [VerificationService.verify_user_day] *)
Definition verify_user_day (cfg : Config) (env : Env) (user : User.t)
           (target_date : option date) (min_commits : Z) : M VerifyResult.t :=
  target_date <- lift (default_target_date cfg (now env) user target_date) ;;
  try_except
    (verify_user_day_try cfg env user target_date min_commits)
    (fun e =>
       rollback (rollback_fault env) ;;;
       ret (_create_error_result (exn_str e))).

(** [VerificationService.verify_and_notify] *)
Definition verify_and_notify (cfg : Config) (env : Env) (user : User.t)
           (target_date : option date) : M bool :=
  target_date <- lift (default_target_date cfg (now env) user target_date) ;;
  result <- verify_user_day cfg env user (Some target_date)
                            default_min_commits ;;
  if negb (VerifyResult.success result) then ret false
  else
    try_except
      (email_sent <- lift (send_verification_summary env) ;;
       if (email_sent : bool) then
         daily_log <- get_by_date (summary_lookup_fault env)
                                  (User.id user) target_date ;;
         match daily_log with
         | Some daily_log =>
             assign (set_summary_sent_at (Some (utc_datetime (now env))))
                    daily_log ;;;
             commit (summary_commit_fault env)
         | None => ret tt
         end ;;;
         ret true
       else ret false)
      (fun _ => ret false).

Module UserResult.
Record t : Type := {
  user_email : string;
  success : bool;
  error : option string
}.
End UserResult.

(** The [results] dictionary of [verify_all_users]. *)
Module BatchResults.
Record t : Type := {
  date : date;
  total_users : Z;
  successful : Z;
  failed : Z;
  passed : Z;
  not_passed : Z;
  user_results : list UserResult.t
}.
End BatchResults.

Definition add_successful (r : BatchResults.t) : BatchResults.t :=
  {| BatchResults.date := BatchResults.date r;
     BatchResults.total_users := BatchResults.total_users r;
     BatchResults.successful := BatchResults.successful r + 1;
     BatchResults.failed := BatchResults.failed r;
     BatchResults.passed := BatchResults.passed r;
     BatchResults.not_passed := BatchResults.not_passed r;
     BatchResults.user_results := BatchResults.user_results r |}.

Definition add_failed (r : BatchResults.t) : BatchResults.t :=
  {| BatchResults.date := BatchResults.date r;
     BatchResults.total_users := BatchResults.total_users r;
     BatchResults.successful := BatchResults.successful r;
     BatchResults.failed := BatchResults.failed r + 1;
     BatchResults.passed := BatchResults.passed r;
     BatchResults.not_passed := BatchResults.not_passed r;
     BatchResults.user_results := BatchResults.user_results r |}.

Definition add_passed (r : BatchResults.t) : BatchResults.t :=
  {| BatchResults.date := BatchResults.date r;
     BatchResults.total_users := BatchResults.total_users r;
     BatchResults.successful := BatchResults.successful r;
     BatchResults.failed := BatchResults.failed r;
     BatchResults.passed := BatchResults.passed r + 1;
     BatchResults.not_passed := BatchResults.not_passed r;
     BatchResults.user_results := BatchResults.user_results r |}.

Definition add_not_passed (r : BatchResults.t) : BatchResults.t :=
  {| BatchResults.date := BatchResults.date r;
     BatchResults.total_users := BatchResults.total_users r;
     BatchResults.successful := BatchResults.successful r;
     BatchResults.failed := BatchResults.failed r;
     BatchResults.passed := BatchResults.passed r;
     BatchResults.not_passed := BatchResults.not_passed r + 1;
     BatchResults.user_results := BatchResults.user_results r |}.

Definition append_user_result (u : UserResult.t) (r : BatchResults.t)
  : BatchResults.t :=
  {| BatchResults.date := BatchResults.date r;
     BatchResults.total_users := BatchResults.total_users r;
     BatchResults.successful := BatchResults.successful r;
     BatchResults.failed := BatchResults.failed r;
     BatchResults.passed := BatchResults.passed r;
     BatchResults.not_passed := BatchResults.not_passed r;
     BatchResults.user_results := BatchResults.user_results r ++ [u] |}.

(** [daily_log and daily_log.verification_passed] *)
Definition log_passed (daily_log : option DailyLog.t) : bool :=
  match daily_log with
  | Some log => match DailyLog.verification_passed log with
                | Some b => b
                | None => false
                end
  | None => false
  end.

(** The [except] branch of the batch loop. *)
Definition batch_except (user : User.t) (e : exn) (results : BatchResults.t)
  : BatchResults.t :=
  append_user_result
    {| UserResult.user_email := User.email user;
       UserResult.success := false;
       UserResult.error := Some (exn_str e) |}
    (add_failed results).

(** One iteration of the loop of [verify_all_users].  [results] is mutated
    in place, so what the [try] block did to it before an exception stays. *)
Definition batch_body (cfg : Config) (env : Env) (target_date : date)
           (user : User.t) (results : BatchResults.t)
  : Session -> Session * BatchResults.t :=
  fun s =>
    match verify_and_notify cfg env user (Some target_date) s with
    | (s, Raise e) => (s, batch_except user e results)
    | (s, Ok success) =>
        let entry := {| UserResult.user_email := User.email user;
                        UserResult.success := success;
                        UserResult.error := None |} in
        if success then
          let results := add_successful results in
          match get_by_date (batch_lookup_fault env)
                            (User.id user) target_date s with
          | (s, Raise e) => (s, batch_except user e results)
          | (s, Ok daily_log) =>
              let results := if log_passed daily_log
                             then add_passed results
                             else add_not_passed results in
              (s, append_user_result entry results)
          end
        else
          let results := add_failed results in
          (s, append_user_result entry results)
    end.

Fixpoint batch_loop (cfg : Config) (envs : User.t -> Env) (target_date : date)
         (users : list User.t) (results : BatchResults.t)
  : Session -> Session * BatchResults.t :=
  fun s =>
    match users with
    | [] => (s, results)
    | user :: rest =>
        let (s, results) := batch_body cfg (envs user) target_date user results s in
        batch_loop cfg envs target_date rest results s
    end.

(** [VerificationService.verify_all_users] from the point where the query
    for the active users (line 197) has returned its rows; [now] is the
    clock at entry and [envs] gives the surroundings of each user's run. *)
Definition verify_all_users (cfg : Config) (now : Z) (envs : User.t -> Env)
           (target_date : option date) : Session -> Session * BatchResults.t :=
  fun s =>
    let target_date := match target_date with
                       | None => get_current_date cfg now None
                       | Some d => d
                       end in
    let users := get_active_users s in
    let results := {| BatchResults.date := target_date;
                      BatchResults.total_users := len users;
                      BatchResults.successful := 0;
                      BatchResults.failed := 0;
                      BatchResults.passed := 0;
                      BatchResults.not_passed := 0;
                      BatchResults.user_results := [] |} in
    batch_loop cfg envs target_date users results s.

(** The whole call.  The query for the active users is outside every
    [try]: an error of the database there leaves [verify_all_users] before
    [results] exists and before any user is processed. *)
Definition verify_all_users_call (users_fault : option exn) (cfg : Config)
           (now : Z) (envs : User.t -> Env) (target_date : option date)
  : M BatchResults.t :=
  _ <- query_active_users users_fault ;;
  fun s => let (s', results) := verify_all_users cfg now envs target_date s in
           (s', Ok results).

(* ================================================================= *)
(** ** app/api/replies.py *)

(** The values [request.json()] returns: [None], booleans, numbers, strings,
    lists and dictionaries.  A dictionary is the list of its items; a key is
    looked up from the front.  Of a float the handler can only observe
    whether it is zero. *)
#[warnings="-register-all"]
Inductive pyval : Type :=
| PyNone
| PyBool (b : bool)
| PyInt (n : Z)
| PyFloat (nonzero : bool)
| PyStr (s : string)
| PyList (l : list pyval)
| PyDict (items : list (string * pyval)).

(** [type(v).__name__] *)
Definition type_name (v : pyval) : string :=
  match v with
  | PyNone => "NoneType"
  | PyBool _ => "bool"
  | PyInt _ => "int"
  | PyFloat _ => "float"
  | PyStr _ => "str"
  | PyList _ => "list"
  | PyDict _ => "dict"
  end.

(** [bool(v)] *)
Definition py_truthy (v : pyval) : bool :=
  match v with
  | PyNone => false
  | PyBool b => b
  | PyInt n => negb (n =? 0)
  | PyFloat nonzero => nonzero
  | PyStr s => str_truthy s
  | PyList l => match l with [] => false | _ :: _ => true end
  | PyDict items => match items with [] => false | _ :: _ => true end
  end.

(** The exception of [v.name] for a [v] without that attribute. *)
Definition no_attribute (v : pyval) (name : string) : exn :=
  AttributeError ("'" ++ type_name v ++ "' object has no attribute '"
                  ++ name ++ "'")%string.

Definition dict_lookup (key : string) (items : list (string * pyval))
  : option pyval :=
  option_map snd (find (fun kv => String.eqb (fst kv) key) items).

Arguments dict_lookup : simpl never.

(** [v.keys()] *)
Definition py_keys (v : pyval) : result (list string) :=
  match v with
  | PyDict items => Ok (map fst items)
  | _ => Raise (no_attribute v "keys")
  end.

(** [v.get(key, default)] *)
Definition py_get (v : pyval) (key : string) (default : pyval) : result pyval :=
  match v with
  | PyDict items =>
      Ok (match dict_lookup key items with
          | Some x => x
          | None => default
          end)
  | _ => Raise (no_attribute v "get")
  end.

(** [v[0]] *)
Definition py_first (v : pyval) : result pyval :=
  match v with
  | PyList [] => Raise (IndexError "list index out of range")
  | PyList (x :: _) => Ok x
  | PyStr EmptyString => Raise (IndexError "string index out of range")
  | PyStr (String c _) => Ok (PyStr (String c EmptyString))
  | PyDict _ => Raise (KeyError "0")
  | _ => Raise (TypeError ("'" ++ type_name v
                           ++ "' object is not subscriptable")%string)
  end.

(** The JSON body of the webhook, as parsed. *)
Module Payload.
Definition t : Type := pyval.
End Payload.

Module ReplyResponse.
Record t : Type := {
  status : string;
  message : string;
  user_email : string;
  log_date : date;
  response_length : Z
}.
End ReplyResponse.

(** The surroundings of one webhook request. *)
Record ReplyEnv : Type := {
  arrival : Z;                          (* the clock, microseconds UTC *)
  sender_lookup_fault : option string;  (* message of the error the database
                                           raises on the sender lookup *)
  sender_bind_error : string;           (* message of the error raised when
                                           the address is not a string *)
  reply_create_env : CreateEnv;
  reply_commit_fault : option exn;
  reply_refresh_fault : option exn      (* on the refresh after the commit *)
}.

(** [User.get_by_email(db, from_email)] as a statement sent to the
    database, which can fail. *)
Definition query_by_email (env : ReplyEnv) (address : string)
  : M (option User.t) :=
  fun s =>
    match sender_lookup_fault env with
    | Some msg => (s, Raise (DBAPIError msg))
    | None => (s, Ok (get_by_email s address))
    end.

(** Lines 107-128 of the handler: store the reply in the log of [today]. *)
Definition store_reply (env : ReplyEnv) (user : User.t) (today : date)
           (user_response : string) : M ReplyResponse.t :=
  daily_log <- get_or_create (reply_create_env env) (User.id user) today ;;
  daily_log <- assign (set_user_response (Some (strip user_response)))
                      daily_log ;;
  daily_log <- assign (set_user_responded_at
                         (Some (utc_datetime (arrival env)))) daily_log ;;
  commit (reply_commit_fault env) ;;;
  daily_log <- refresh (reply_refresh_fault env) daily_log ;;
  ret {| ReplyResponse.status := "success";
         ReplyResponse.message := "Email reply processed successfully";
         ReplyResponse.user_email := User.email user;
         ReplyResponse.log_date := today;
         ReplyResponse.response_length := len_str user_response |}.

(** The [try] block of [handle_email_reply], after the request body was
    parsed and the webhook secret checked.  The address reaches the lookup
    as it came: when it is not a string, the comparison with the VARCHAR
    column is refused by PostgreSQL, the only database [config.py] accepts.
    A body that is not a string has no [strip]. *)
Definition handle_email_reply_try (cfg : Config) (env : ReplyEnv)
           (payload : Payload.t) : M ReplyResponse.t :=
  keys <- lift (py_keys payload) ;;
  from <- lift (py_get payload "from" (PyDict [])) ;;
  from_email <- lift (py_get from "email" PyNone) ;;
  to <- lift (py_get payload "to" (PyList [PyDict []])) ;;
  to_0 <- lift (py_first to) ;;
  to_email <- lift (py_get to_0 "email" PyNone) ;;
  subject <- lift (py_get payload "subject" (PyStr "")) ;;
  text_content <- lift (py_get payload "text" (PyStr "")) ;;
  html_content <- lift (py_get payload "html" (PyStr "")) ;;
  let user_response :=
    if py_truthy text_content then text_content else html_content in
  if negb (py_truthy from_email) || negb (py_truthy user_response)
  then raise (HTTPException 400
                "Invalid email data: missing from_email or content")
  else
    match from_email with
    | PyStr address =>
        user <- query_by_email env address ;;
        match user with
        | None =>
            raise (HTTPException 404 ("User not found: " ++ address)%string)
        | Some user =>
            tz <- lift (User.getattr_str user "timezone") ;;
            let today := get_current_date cfg (arrival env) (Some tz) in
            match user_response with
            | PyStr body => store_reply env user today body
            | _ =>
                get_or_create (reply_create_env env) (User.id user) today ;;;
                raise (no_attribute user_response "strip")
            end
        end
    | _ => raise (DBAPIError (sender_bind_error env))
    end.

(** [handle_email_reply]: [except HTTPException: raise], and any other
    exception becomes a 500. *)
Definition handle_email_reply (cfg : Config) (env : ReplyEnv)
           (payload : Payload.t) : M ReplyResponse.t :=
  try_except
    (handle_email_reply_try cfg env payload)
    (fun e =>
       if is_HTTPException e then raise e
       else raise (HTTPException 500
                     ("Internal server error: " ++ exn_str e)%string)).

(* ================================================================= *)
(** ** Notions used to state the properties *)

(** The session holds nothing unflushed: the state of a fresh session and
    of a session after a commit or a rollback. *)
Definition clean (s : Session) : Prop := pending s = [] /\ dirty s = [].

(** The committed Daily Record of a user and date. *)
Definition record_of (s : Session) (user_id : Z) (log_date : date)
  : option DailyLog.t :=
  find (same_key user_id log_date) (daily_logs s).


(** The four things a verification run writes, read off a record. *)
Definition verification_fields (log : DailyLog.t)
  : Z * Z * Z * option bool * option Activity.t * option datetime :=
  (DailyLog.commits_count log, DailyLog.prs_count log,
   DailyLog.issues_count log, DailyLog.verification_passed log,
   DailyLog.verification_details log,
   DailyLog.verification_completed_at log).

(** The record of (user, date) carries the same verification fields in [s']
    as in [s]; a record that did not exist in [s] is absent or still empty. *)
Definition verification_untouched (s s' : Session) (user_id : Z)
           (log_date : date) : Prop :=
  match record_of s user_id log_date with
  | Some row => record_of s' user_id log_date = Some row
  | None =>
      match record_of s' user_id log_date with
      | None => True
      | Some row' =>
          verification_fields row'
          = verification_fields (new_DailyLog user_id log_date)
      end
  end.

(** The record a successful run leaves: the record it started from with the
    six assignments of [verify_user_day] applied. *)
Definition verified_log (activity : Activity.t) (now : Z) (min_commits : Z)
           (log : DailyLog.t) : DailyLog.t :=
  set_verification_passed
    (Some (Activity.total_activity activity >=? min_commits))
    (set_verification_completed_at (Some (utc_datetime now))
       (set_verification_details (Some activity)
          (set_issues_count (Activity.issues_count activity)
             (set_prs_count (Activity.prs_count activity)
                (set_commits_count (Activity.commits_count activity) log))))).


(** The fresh row a caller of [get_or_create] inserts into [s]. *)
Definition fresh_row (s : Session) (uid : Z) (d : date) : DailyLog.t :=
  set_id (next_log_id s) (new_DailyLog uid d).

(** The start and end of a civil date in a zone. *)
Definition day_window (tz : tzinfo) (d : date) : datetime * datetime :=
  (localize tz (combine_min d), localize tz (combine_max d)).

(** The zone named by [settings.timezone], UTC when the name is unknown. *)
Definition server_zone (cfg : Config) : tzinfo :=
  match pytz_timezone cfg (settings_timezone cfg) with
  | Some tz => tz
  | None => UTC
  end.

(** The zone named by the user's [time_zone] column. *)
Definition user_zone (cfg : Config) (user : User.t) : tzinfo :=
  match pytz_timezone cfg (User.time_zone user) with
  | Some tz => tz
  | None => UTC
  end.

(** Did the per-user verification of the batch, the call of
    [verify_and_notify] for [user] started in session [s], raise an
    exception or return non-success? *)
Definition verification_failed (cfg : Config) (target_date : date)
           (env : Env) (user : User.t) (s : Session) : bool :=
  match snd (verify_and_notify cfg env user (Some target_date) s) with
  | Ok true => false
  | Ok false => true
  | Raise _ => true
  end.

(** Did that call return success, and the lookup of the record that the
    loop makes next raise? *)
Definition lookup_failed (cfg : Config) (target_date : date)
           (env : Env) (user : User.t) (s : Session) : bool :=
  match verify_and_notify cfg env user (Some target_date) s with
  | (s1, Ok true) =>
      negb (is_Ok (snd (get_by_date (batch_lookup_fault env) (User.id user)
                          target_date s1)))
  | _ => false
  end.

(** The number of users that meet [test] when [users] are processed in
    order from [s], each in the session the one before left. *)
Fixpoint count_users
         (test : Config -> date -> Env -> User.t -> Session -> bool)
         (cfg : Config) (envs : User.t -> Env) (target_date : date)
         (users : list User.t) (s : Session) : Z :=
  match users with
  | [] => 0
  | user :: rest =>
      (if test cfg target_date (envs user) user s then 1 else 0)
      + count_users test cfg envs target_date rest
          (fst (verify_and_notify cfg (envs user) user (Some target_date) s))
  end.

(* ================================================================= *)
(** ** Sample data for the concrete runs *)

Definition HOUR : Z := 3600000000.

Definition fixed_zone (name : string) (hours : Z) : tzinfo :=
  {| zone := name;
     utcoffset_at_instant := fun _ => hours * HOUR;
     utcoffset_at_wall := fun _ => hours * HOUR |}.

Definition sample_zones (name : string) : option tzinfo :=
  if String.eqb name "UTC" then Some UTC
  else if String.eqb name "Africa/Douala" then Some (fixed_zone name 1)
  else if String.eqb name "Asia/Tokyo" then Some (fixed_zone name 9)
  else None.

Definition sample_cfg : Config :=
  {| settings_timezone := "UTC"; pytz_timezone := sample_zones |}.

(** 2024-01-15 *)
Definition jan15 : date := 19737.

(** 2024-01-15T20:00:00Z, when it is already 2024-01-16 in Tokyo. *)
Definition jan15_evening : Z := jan15 * MICROS_PER_DAY + 20 * HOUR.

Definition alice : User.t :=
  {| User.id := 1; User.email := "alice@example.com";
     User.github_username := "alice"; User.github_token := "token-a";
     User.is_active := true; User.time_zone := "Asia/Tokyo" |}.

Definition bob : User.t :=
  {| User.id := 2; User.email := "bob@example.com";
     User.github_username := "bob"; User.github_token := "token-b";
     User.is_active := true; User.time_zone := "Africa/Douala" |}.

Definition carol : User.t :=
  {| User.id := 3; User.email := "carol@example.com";
     User.github_username := "carol"; User.github_token := "token-c";
     User.is_active := false; User.time_zone := "UTC" |}.

Definition empty_session (us : list User.t) : Session :=
  {| users := us; daily_logs := []; next_log_id := 1;
     pending := []; dirty := [] |}.

Definition quiet_db : CreateEnv :=
  {| lookup_fault := None; concurrent_create := false; insert_fault := None;
     insert_refresh_fault := None |}.

Definition racing_db : CreateEnv :=
  {| lookup_fault := None; concurrent_create := true; insert_fault := None;
     insert_refresh_fault := None |}.

Definition no_items {A} : paginated A := {| items := []; failure := None |}.

Definition sample_commit (sha : string) (at_ : datetime) : Commit.t :=
  {| Commit.sha := sha; Commit.message := "work";
     Commit.author_date := at_; Commit.html_url := "";
     Commit.author_name := "alice" |}.

(** A repository holding the given commits and nothing else. *)
Definition repo_with_commits (name : string) (cs : paginated Commit.t)
  : Repository.t :=
  {| Repository.full_name := name;
     Repository.get_commits := fun _ _ _ => cs;
     Repository.get_pulls := fun _ => no_items;
     Repository.get_issues := fun _ _ => no_items |}.

(** A repository that answers a commit query with one commit stamped with
    the [since] bound it was asked for. *)
Definition probe_repo : Repository.t :=
  {| Repository.full_name := "alice/probe";
     Repository.get_commits := fun _ since _ =>
       {| items := [sample_commit "since" since]; failure := None |};
     Repository.get_pulls := fun _ => no_items;
     Repository.get_issues := fun _ _ => no_items |}.

Definition client_with (repos : list Repository.t) : GitHubClient :=
  {| get_user := Ok "alice"; get_repos := fun _ => Ok repos |}.

Definition env_with (gh : GitHubClient) : Env :=
  {| now := jan15_evening; create_env := quiet_db; github := fun _ => gh;
     update_fault := None; update_refresh_fault := None;
     rollback_fault := None;
     send_verification_summary := Ok true;
     summary_lookup_fault := None; summary_commit_fault := None;
     batch_lookup_fault := None |}.

Definition noon (d : date) : datetime :=
  utc_datetime (d * MICROS_PER_DAY + 12 * HOUR).

Definition idle_client : GitHubClient := client_with [].

Definition one_commit_client : GitHubClient :=
  client_with
    [repo_with_commits "alice/app"
       {| items := [sample_commit "abc123" (noon jan15)]; failure := None |}].

Definition two_commit_client : GitHubClient :=
  client_with
    [repo_with_commits "alice/app"
       {| items := [sample_commit "abc123" (noon jan15);
                    sample_commit "def456" (noon jan15)];
          failure := None |}].

Definition reply_env : ReplyEnv :=
  {| arrival := jan15_evening; sender_lookup_fault := None;
     sender_bind_error := "operator does not exist: character varying = integer";
     reply_create_env := quiet_db;
     reply_commit_fault := None; reply_refresh_fault := None |}.

Definition reply_from (sender : string) (body : string) : Payload.t :=
  PyDict [("from", PyDict [("email", PyStr sender)]);
          ("to", PyList [PyDict [("email", PyStr "agent@example.com")]]);
          ("subject", PyStr "Re: Daily Check-in");
          ("text", PyStr body)].

(** [r] when it is a value. *)
Definition value_or {A} (default : A) (r : result A) : A :=
  match r with Ok a => a | Raise _ => default end.

Definition sample_session : Session := empty_session [alice; bob; carol].

(** Alice's day verified once against one commit ... *)
Definition run_one_commit : Session * result VerifyResult.t :=
  verify_user_day sample_cfg (env_with one_commit_client) alice (Some jan15)
                  default_min_commits sample_session.

Definition one_commit_result : VerifyResult.t :=
  value_or (_create_error_result "") (snd run_one_commit).

(** ... then verified again, an hour later, against two commits. *)
Definition later_env : Env :=
  {| now := jan15_evening + HOUR; create_env := quiet_db;
     github := fun _ => two_commit_client;
     update_fault := None; update_refresh_fault := None;
     rollback_fault := None;
     send_verification_summary := Ok true;
     summary_lookup_fault := None; summary_commit_fault := None;
     batch_lookup_fault := None |}.

Definition run_two_commits_after : Session * result VerifyResult.t :=
  verify_user_day sample_cfg later_env alice (Some jan15)
                  default_min_commits (fst run_one_commit).

Definition two_commits_result : VerifyResult.t :=
  value_or (_create_error_result "") (snd run_two_commits_after).

(** A third run whose commit of the results fails in the database. *)
Definition failing_commit_env : Env :=
  {| now := jan15_evening + 2 * HOUR; create_env := quiet_db;
     github := fun _ => idle_client;
     update_fault := Some (OperationalError "server closed the connection");
     update_refresh_fault := None;
     rollback_fault := None;
     send_verification_summary := Ok true;
     summary_lookup_fault := None; summary_commit_fault := None;
     batch_lookup_fault := None |}.

Definition run_failing_commit : Session * result VerifyResult.t :=
  verify_user_day sample_cfg failing_commit_env alice (Some jan15)
                  default_min_commits (fst run_two_commits_after).

(** Repositories whose commit listing fails: one with a GitHub API error
    after a first commit was read, one with a network error. *)
Definition healthy_repo : Repository.t :=
  repo_with_commits "alice/app"
    {| items := [sample_commit "abc123" (noon jan15)]; failure := None |}.

Definition rate_limited_repo : Repository.t :=
  repo_with_commits "alice/big"
    {| items := [sample_commit "aaa111" (noon jan15)];
       failure := Some (GithubException "403 rate limit exceeded") |}.

Definition unreachable_repo : Repository.t :=
  repo_with_commits "alice/down"
    {| items := [];
       failure := Some (ConnectionError "Connection aborted") |}.

Definition rate_limited_client : GitHubClient :=
  client_with [rate_limited_repo; healthy_repo].

Definition unreachable_client : GitHubClient :=
  client_with [unreachable_repo; healthy_repo].

(** What one repository contributes to each list of the snapshot. *)
Definition repo_commits (cfg : Config) (now : Z) (d : date) (u : string)
           (repo : Repository.t) : list CommitData.t :=
  map (commit_data repo)
      (items (Repository.get_commits repo u
                (get_start_of_day cfg now (Some d) None)
                (get_end_of_day cfg now (Some d) None))).

(** A run that got as far as committing its results: what it read and what
    the commit left. *)
Definition run_committed (cfg : Config) (env : Env) (user : User.t) (d : date)
           (m : Z) (s s' : Session) : Prop :=
  exists s0 log0 a,
    get_or_create (create_env env) (User.id user) d s = (s0, Ok log0)
    /\ (daily_logs s0 = daily_logs s
        \/ (record_of s (User.id user) d = None
            /\ daily_logs s0 = daily_logs s ++ [fresh_row s (User.id user) d]))
    /\ record_of s0 (User.id user) d = Some log0
    /\ get_daily_activity cfg (now env) (github env (User.github_token user))
                          d (Some (User.github_username user)) = Ok a
    /\ daily_logs s' = update_all [verified_log a (now env) m log0] (daily_logs s0)
    /\ clean s'.

(** The outcome of a successful [try] block: what it read and what it left. *)
Definition run_succeeded (cfg : Config) (env : Env) (user : User.t) (d : date)
           (m : Z) (s s' : Session) (out : result VerifyResult.t) : Prop :=
  exists s0 log0 a,
    get_or_create (create_env env) (User.id user) d s = (s0, Ok log0)
    /\ (daily_logs s0 = daily_logs s
        \/ (record_of s (User.id user) d = None
            /\ daily_logs s0 = daily_logs s ++ [fresh_row s (User.id user) d]))
    /\ record_of s0 (User.id user) d = Some log0
    /\ get_daily_activity cfg (now env) (github env (User.github_token user))
                          d (Some (User.github_username user)) = Ok a
    /\ daily_logs s' = update_all [verified_log a (now env) m log0] (daily_logs s0)
    /\ clean s'
    /\ out = Ok {| VerifyResult.success := true;
                   VerifyResult.passed := Activity.total_activity a >=? m;
                   VerifyResult.error := None;
                   VerifyResult.date := Some d;
                   VerifyResult.commits_count := Activity.commits_count a;
                   VerifyResult.prs_count := Activity.prs_count a;
                   VerifyResult.issues_count := Activity.issues_count a;
                   VerifyResult.repositories := Some (Activity.repositories a);
                   VerifyResult.total_activity := Activity.total_activity a;
                   VerifyResult.user_response := DailyLog.user_response log0;
                   VerifyResult.details := Some a |}.

(** The committed rows after a run that wrote no verification result: as
    before, or with the empty record of (user, date) added. *)
Definition rows_kept (s s' : Session) (uid : Z) (d : date) : Prop :=
  daily_logs s' = daily_logs s
  \/ (record_of s uid d = None
      /\ daily_logs s' = daily_logs s ++ [fresh_row s uid d]).

(** A batch over Alice, Bob and Dave in which Bob's run meets a database
    that fails the commit and then the rollback, so that his verification
    raises. *)
Definition dave : User.t :=
  {| User.id := 4; User.email := "dave@example.com";
     User.github_username := "dave"; User.github_token := "token-d";
     User.is_active := true; User.time_zone := "UTC" |}.

Definition broken_db_env : Env :=
  {| now := jan15_evening; create_env := quiet_db;
     github := fun _ => one_commit_client;
     update_fault := Some (OperationalError "server closed the connection");
     update_refresh_fault := None;
     rollback_fault := Some (OperationalError "connection already closed");
     send_verification_summary := Ok true;
     summary_lookup_fault := None; summary_commit_fault := None;
     batch_lookup_fault := None |}.

Definition batch_envs (user : User.t) : Env :=
  if User.id user =? 2 then broken_db_env else env_with one_commit_client.

Definition batch_session : Session := empty_session [alice; bob; carol; dave].

Definition sample_batch : Session * BatchResults.t :=
  verify_all_users sample_cfg jan15_evening batch_envs (Some jan15)
                   batch_session.

(** The number of entries of the per-user list that report non-success. *)
Definition count_unsuccessful (l : list UserResult.t) : Z :=
  len (filter (fun e => negb (UserResult.success e)) l).

(** The same user with another [time_zone]. *)
Definition with_time_zone (tz : string) (user : User.t) : User.t :=
  {| User.id := User.id user; User.email := User.email user;
     User.github_username := User.github_username user;
     User.github_token := User.github_token user;
     User.is_active := User.is_active user; User.time_zone := tz |}.

(** Alice's day verified against the probe repository. *)
Definition probe_run : Session * result VerifyResult.t :=
  verify_user_day sample_cfg (env_with (client_with [probe_repo])) alice
                  (Some jan15) default_min_commits sample_session.

(** The [since] bounds the commit queries of a run were given, read back
    from the probe's commits in the result. *)
Definition probed_since (r : result VerifyResult.t) : list datetime :=
  match r with
  | Ok r => match VerifyResult.details r with
            | Some a => map CommitData.date (Activity.commits a)
            | None => []
            end
  | Raise _ => []
  end.

(** A pull request or issue dictionary dated on [d]. *)
Definition pr_on (d : date) (x : PRData.t) : Prop :=
  date_of (PRData.created_at x) = d \/ date_of (PRData.updated_at x) = d.

Definition issue_on (d : date) (x : IssueData.t) : Prop :=
  date_of (IssueData.created_at x) = d \/ date_of (IssueData.updated_at x) = d.

(** The sender address of a reply: the string under ["email"] of the object
    under ["from"], when the payload is an object that has them. *)
Definition sender_address (payload : Payload.t) : option string :=
  match payload with
  | PyDict items =>
      match dict_lookup "from" items with
      | Some (PyDict from) =>
          match dict_lookup "email" from with
          | Some (PyStr address) => Some address
          | _ => None
          end
      | _ => None
      end
  | _ => None
  end.

(** The recipient list is absent, or is a list that begins with an
    object. *)
Definition recipients_well_formed (payload : Payload.t) : bool :=
  match payload with
  | PyDict items =>
      match dict_lookup "to" items with
      | None => true
      | Some (PyList (PyDict _ :: _)) => true
      | Some _ => false
      end
  | _ => false
  end.

(** The value under a key of the payload, the empty string when the key is
    absent. *)
Definition part_of (payload : Payload.t) (key : string) : pyval :=
  match payload with
  | PyDict items =>
      match dict_lookup key items with
      | Some v => v
      | None => PyStr ""
      end
  | _ => PyStr ""
  end.

(** The body the handler works with: the text part, or the HTML part when
    the text part is empty or missing. *)
Definition reply_body (payload : Payload.t) : pyval :=
  if py_truthy (part_of payload "text")
  then part_of payload "text"
  else part_of payload "html".

(** An exception that leaves the [try] block of the handler with nothing
    worse than a 500 to come: any exception that is not an [HTTPException]
    (the handler turns it into a 500), or one of the handler's own, which
    have status 400 or 404. *)
Definition answered (e : exn) : Prop :=
  match e with
  | HTTPException status _ => status = 400 \/ status = 404
  | _ => True
  end.

(** The response every exception other than [HTTPException] is turned into,
    here for the failed read of [user.timezone]. *)
Definition timezone_attribute_500 : exn :=
  HTTPException 500
    "Internal server error: 'User' object has no attribute 'timezone'".

(** Alice's local date when the sample reply arrives, computed the way
    [cron/send_daily_checkins.py] does, from [user.time_zone]. *)
Definition alice_today : date :=
  get_current_date sample_cfg (arrival reply_env) (Some (User.time_zone alice)).

(** The columns of the unique constraint, as a pair. *)
Definition key_of (log : DailyLog.t) : Z * date :=
  (DailyLog.user_id log, DailyLog.log_date log).

(** The table obeys its constraints: primary keys are distinct and below
    the sequence, and no two rows share (user_id, log_date). *)
Definition well_keyed (s : Session) : Prop :=
  NoDup (map DailyLog.id (daily_logs s))
  /\ NoDup (map key_of (daily_logs s))
  /\ Forall (fun log => DailyLog.id log < next_log_id s) (daily_logs s).

(** The columns a verification run does not own. *)
Definition other_fields (log : DailyLog.t)
  : Z * Z * date * option datetime * option string * option datetime
    * option datetime :=
  (DailyLog.id log, DailyLog.user_id log, DailyLog.log_date log,
   DailyLog.checkin_sent_at log, DailyLog.user_response log,
   DailyLog.user_responded_at log, DailyLog.summary_sent_at log).

(** The record a stored reply leaves: the record it started from with the
    two assignments of the handler applied. *)
Definition replied_log (body : string) (arrival : Z) (log : DailyLog.t)
  : DailyLog.t :=
  set_user_responded_at (Some (utc_datetime arrival))
    (set_user_response (Some (strip body)) log).

(** The record a call found or made: the record of the key in [s], or the
    empty record numbered by the sequence of [s]. *)
Definition found_or_fresh (s : Session) (uid : Z) (d : date)
           (log0 : DailyLog.t) : Prop :=
  record_of s uid d = Some log0
  \/ (record_of s uid d = None /\ log0 = fresh_row s uid d).

(** The record of an [Optional[DailyLog]], the empty record when absent. *)
Definition value_or_log (o : option DailyLog.t) : DailyLog.t :=
  match o with Some log => log | None => new_DailyLog 0 0 end.

(** A reply stored for Alice's 2024-01-15 after her day was verified, and
    the same two steps in the other order. *)
Definition no_response : ReplyResponse.t :=
  {| ReplyResponse.status := ""; ReplyResponse.message := "";
     ReplyResponse.user_email := ""; ReplyResponse.log_date := 0;
     ReplyResponse.response_length := 0 |}.

Definition reply_after_run : Session * result ReplyResponse.t :=
  store_reply reply_env alice jan15 "  done  " (fst run_one_commit).

Definition reply_first : Session * result ReplyResponse.t :=
  store_reply reply_env alice jan15 "  done  " sample_session.

Definition run_after_reply : Session * result VerifyResult.t :=
  verify_user_day sample_cfg (env_with one_commit_client) alice (Some jan15)
                  default_min_commits (fst reply_first).

(** Alice's day verified and the summary mailed. *)
Definition notify_run : Session * result bool :=
  verify_and_notify sample_cfg (env_with one_commit_client) alice (Some jan15)
                    sample_session.

(** A list of names in strictly increasing order. *)
Fixpoint increasing (l : list string) : Prop :=
  match l with
  | [] => True
  | x :: rest =>
      match rest with
      | [] => True
      | y :: _ => String.compare x y = Lt
      end /\ increasing rest
  end.

(** The snapshot of a [result], the empty snapshot when the call raised. *)
Definition value_or_activity (r : result Activity.t) : Activity.t :=
  value_or {| Activity.date := 0; Activity.commits := [];
              Activity.commits_count := 0; Activity.pull_requests := [];
              Activity.prs_count := 0; Activity.issues := [];
              Activity.issues_count := 0; Activity.repositories := [];
              Activity.total_activity := 0 |} r.

(** The test [pr_by_user and (pr_created or pr_updated)] of the scan. *)
Definition pr_kept (d : date) (u : string) (pr : PullRequest.t) : bool :=
  String.eqb (PullRequest.user_login pr) u
  && ((date_of (PullRequest.created_at pr) =? d)
      || (date_of (PullRequest.updated_at pr) =? d)).

(** The test [issue_created or issue_updated] of the issue scan, and the
    issues it is applied to: those that are not pull requests. *)
Definition issue_kept (d : date) (issue : Issue.t) : bool :=
  (date_of (Issue.created_at issue) =? d)
  || (date_of (Issue.updated_at issue) =? d).

Definition plain_issue (issue : Issue.t) : bool :=
  negb (Issue.pull_request issue).

(** Last updated before the start of the window: where a scan stops. *)
Definition pr_stale (start_dt : datetime) (pr : PullRequest.t) : bool :=
  datetime_ltb (PullRequest.updated_at pr) start_dt.

Definition issue_stale (start_dt : datetime) (issue : Issue.t) : bool :=
  datetime_ltb (Issue.updated_at issue) start_dt.

(** What a loop with an early stop reads of a list: the items up to and
    including the first one that meets [stop]. *)
Fixpoint read_until {A} (stop : A -> bool) (l : list A) : list A :=
  match l with
  | [] => []
  | x :: rest => if stop x then [x] else x :: read_until stop rest
  end.

(** The exception that ends the reading of a listing: the listing's own
    failure, which is met only when no item stopped the loop first. *)
Definition listing_failure {A} (stop : A -> bool) (l : paginated A)
  : option exn :=
  if existsb stop (items l) then None else failure l.

(** What one repository contributes to the pull requests of the snapshot:
    of each listing, open then closed, the items read that are the user's
    and dated on the target date; the closed listing is read only when the
    reading of the open one did not fail.  The scans stop at the first item
    last updated before the start of the server's day. *)
Definition pulls_kept (d : date) (u : string) (start_dt : datetime)
           (l : paginated PullRequest.t) : list PullRequest.t :=
  filter (pr_kept d u) (read_until (pr_stale start_dt) (items l)).

Definition repo_pulls (cfg : Config) (d : date) (u : string)
           (repo : Repository.t) : list PRData.t :=
  let start_dt := fst (day_window (server_zone cfg) d) in
  map (pr_data repo)
      (pulls_kept d u start_dt (Repository.get_pulls repo "open")
       ++ match listing_failure (pr_stale start_dt)
                                (Repository.get_pulls repo "open") with
          | Some _ => []
          | None => pulls_kept d u start_dt (Repository.get_pulls repo "closed")
          end).

(** The exception that ends the fetch of one repository's pull requests. *)
Definition repo_pulls_failure (cfg : Config) (d : date) (repo : Repository.t)
  : option exn :=
  let start_dt := fst (day_window (server_zone cfg) d) in
  match listing_failure (pr_stale start_dt)
                        (Repository.get_pulls repo "open") with
  | Some e => Some e
  | None => listing_failure (pr_stale start_dt)
                            (Repository.get_pulls repo "closed")
  end.

(** The same for issues, of which only those that are not pull requests are
    looked at. *)
Definition issues_kept (d : date) (start_dt : datetime)
           (l : paginated Issue.t) : list Issue.t :=
  filter (issue_kept d)
         (read_until (issue_stale start_dt) (filter plain_issue (items l))).

Definition plain_issues (l : paginated Issue.t) : paginated Issue.t :=
  {| items := filter plain_issue (items l); failure := failure l |}.

Definition repo_issues (cfg : Config) (d : date) (u : string)
           (repo : Repository.t) : list IssueData.t :=
  let start_dt := fst (day_window (server_zone cfg) d) in
  map (issue_data repo)
      (issues_kept d start_dt (Repository.get_issues repo "open" u)
       ++ match listing_failure (issue_stale start_dt)
                  (plain_issues (Repository.get_issues repo "open" u)) with
          | Some _ => []
          | None => issues_kept d start_dt
                                (Repository.get_issues repo "closed" u)
          end).

Definition repo_issues_failure (cfg : Config) (d : date) (u : string)
           (repo : Repository.t) : option exn :=
  let start_dt := fst (day_window (server_zone cfg) d) in
  match listing_failure (issue_stale start_dt)
                        (plain_issues (Repository.get_issues repo "open" u)) with
  | Some e => Some e
  | None => listing_failure (issue_stale start_dt)
              (plain_issues (Repository.get_issues repo "closed" u))
  end.

(** The exception that ends the fetch of one repository's commits. *)
Definition repo_commits_failure (cfg : Config) (d : date) (u : string)
           (repo : Repository.t) : option exn :=
  failure (Repository.get_commits repo u
             (fst (day_window (server_zone cfg) d))
             (snd (day_window (server_zone cfg) d))).

(** The first exception, in order, that is not a GitHub API error: the one
    the per-repository handlers do not catch. *)
Fixpoint first_uncaught (failures : list (option exn)) : option exn :=
  match failures with
  | [] => None
  | None :: rest => first_uncaught rest
  | Some e :: rest =>
      if is_GithubException e then first_uncaught rest else Some e
  end.

(** A listing as GitHub returns it with [sort="updated"],
    [direction="desc"]: no item was updated later than one before it. *)
Fixpoint newest_first (prs : list PullRequest.t) : Prop :=
  match prs with
  | [] => True
  | pr :: rest =>
      (forall q, In q rest ->
         instant (PullRequest.updated_at q) <= instant (PullRequest.updated_at pr))
      /\ newest_first rest
  end.

(** Timestamps as GitHub reports them: in UTC, and created no later than
    updated. *)
Definition github_times (pr : PullRequest.t) : Prop :=
  utcoffset (PullRequest.created_at pr) = 0
  /\ utcoffset (PullRequest.updated_at pr) = 0
  /\ instant (PullRequest.created_at pr) <= instant (PullRequest.updated_at pr).

Definition sample_pr (n : Z) (created updated : Z) : PullRequest.t :=
  {| PullRequest.number := n; PullRequest.title := "change";
     PullRequest.state := "open";
     PullRequest.created_at := utc_datetime created;
     PullRequest.updated_at := utc_datetime updated;
     PullRequest.html_url := ""; PullRequest.user_login := "alice" |}.

(** Three pull requests, newest first: two touched on 2024-01-15 and one
    last touched the day before. *)
Definition sample_pulls : list PullRequest.t :=
  [sample_pr 3 (jan15 * MICROS_PER_DAY + 3 * HOUR)
               (jan15 * MICROS_PER_DAY + 3 * HOUR);
   sample_pr 2 ((jan15 - 2) * MICROS_PER_DAY)
               (jan15 * MICROS_PER_DAY + 2 * HOUR);
   sample_pr 1 ((jan15 - 3) * MICROS_PER_DAY)
               ((jan15 - 1) * MICROS_PER_DAY + 5 * HOUR)].

(** A window start five hours after UTC midnight, as a server west of UTC
    computes it. *)
Definition western_start : datetime :=
  {| wall := jan15 * MICROS_PER_DAY; utcoffset := - (5 * HOUR) |}.

(** A repository with pull requests by Alice and by someone else. *)
Definition pulls_repo : Repository.t :=
  {| Repository.full_name := "alice/app";
     Repository.get_commits := fun _ _ _ => no_items;
     Repository.get_pulls := fun state =>
       if String.eqb state "open"
       then {| items := {| PullRequest.number := 9;
                            PullRequest.title := "not hers";
                            PullRequest.state := "open";
                            PullRequest.created_at := noon jan15;
                            PullRequest.updated_at := noon jan15;
                            PullRequest.html_url := "";
                            PullRequest.user_login := "mallory" |}
                        :: sample_pulls;
               failure := None |}
       else no_items;
     Repository.get_issues := fun _ _ => no_items |}.

Definition sample_issue (n : Z) (created updated : Z) (is_pr : bool)
  : Issue.t :=
  {| Issue.number := n; Issue.title := "report"; Issue.state := "open";
     Issue.created_at := utc_datetime created;
     Issue.updated_at := utc_datetime updated;
     Issue.html_url := ""; Issue.user_login := "alice";
     Issue.pull_request := is_pr |}.

Definition bad_gateway : option exn := Some (GithubException "502 Bad Gateway").

(** A repository each of whose listings yields one item of 2024-01-15 and
    then fails with a GitHub API error; its closed listings, never reached,
    hold one more item of that day. *)
Definition flaky_repo : Repository.t :=
  {| Repository.full_name := "alice/big";
     Repository.get_commits := fun _ _ _ =>
       {| items := [sample_commit "aaa111" (noon jan15)];
          failure := bad_gateway |};
     Repository.get_pulls := fun state =>
       if String.eqb state "open"
       then {| items := [sample_pr 7 (jan15 * MICROS_PER_DAY + 4 * HOUR)
                                     (jan15 * MICROS_PER_DAY + 4 * HOUR)];
               failure := bad_gateway |}
       else {| items := [sample_pr 6 (jan15 * MICROS_PER_DAY + HOUR)
                                     (jan15 * MICROS_PER_DAY + HOUR)];
               failure := None |};
     Repository.get_issues := fun state _ =>
       if String.eqb state "open"
       then {| items := [sample_issue 4 (jan15 * MICROS_PER_DAY + 6 * HOUR)
                                        (jan15 * MICROS_PER_DAY + 6 * HOUR)
                                        false];
               failure := bad_gateway |}
       else {| items := [sample_issue 5 (jan15 * MICROS_PER_DAY + HOUR)
                                        (jan15 * MICROS_PER_DAY + HOUR) false];
               failure := None |} |}.

(** A repository that answers every listing: one commit; open pull requests
    3 and 2 of the day and 1 of the day before, a closed pull request 10 of
    the day; an open issue 11 of the day, a pull request listed as issue
    12, and an issue 13 last touched two days before. *)
Definition steady_repo : Repository.t :=
  {| Repository.full_name := "alice/app";
     Repository.get_commits := fun _ _ _ =>
       {| items := [sample_commit "abc123" (noon jan15)]; failure := None |};
     Repository.get_pulls := fun state =>
       if String.eqb state "open"
       then {| items := sample_pulls; failure := None |}
       else {| items := [sample_pr 10 ((jan15 - 4) * MICROS_PER_DAY)
                                      (jan15 * MICROS_PER_DAY + 7 * HOUR)];
               failure := None |};
     Repository.get_issues := fun state _ =>
       if String.eqb state "open"
       then {| items := [sample_issue 11 (jan15 * MICROS_PER_DAY + 8 * HOUR)
                                         (jan15 * MICROS_PER_DAY + 8 * HOUR)
                                         false;
                         sample_issue 12 (jan15 * MICROS_PER_DAY + 3 * HOUR)
                                         (jan15 * MICROS_PER_DAY + 3 * HOUR)
                                         true;
                         sample_issue 13 ((jan15 - 5) * MICROS_PER_DAY)
                                         ((jan15 - 2) * MICROS_PER_DAY) false];
               failure := None |}
       else no_items |}.

Definition mixed_client : GitHubClient := client_with [flaky_repo; steady_repo].

Definition busy_client : GitHubClient := client_with [probe_repo; steady_repo].





(** *** More of app/utils/time_utils.py *)

(** [d.weekday()]: Monday is 0 and Sunday is 6; 1970-01-01 was a Thursday. *)
Definition weekday (d : date) : Z := (d + 3) mod 7.

(** [is_weekday] *)
Definition is_weekday (cfg : Config) (now : Z) (check_date : option date)
           (tz_name : option string) : bool :=
  let check_date := match check_date with
                    | None => get_current_date cfg now tz_name
                    | Some d => d
                    end in
  weekday check_date <? 5.

(** [while not is_weekday(prev_date): prev_date -= timedelta(days=1)],
    run for at most [fuel] tests of the condition. *)
Fixpoint previous_weekday_loop (fuel : nat) (cfg : Config) (now : Z)
         (prev_date : date) : option date :=
  match fuel with
  | O => None
  | S fuel =>
      if negb (is_weekday cfg now (Some prev_date) None)
      then previous_weekday_loop fuel cfg now (prev_date - 1)
      else Some prev_date
  end.

(** [get_previous_weekday] *)
Definition get_previous_weekday (fuel : nat) (cfg : Config) (now : Z)
           (target_date : option date) (tz_name : option string)
  : option date :=
  let target_date := match target_date with
                     | None => get_current_date cfg now tz_name
                     | Some d => d
                     end in
  let prev_date := target_date - 1 in
  previous_weekday_loop fuel cfg now prev_date.

(** A zone whose UTC offset never changes. *)
Definition constant_offset (tz : tzinfo) (o : Z) : Prop :=
  (forall t, utcoffset_at_instant tz t = o)
  /\ (forall w, utcoffset_at_wall tz w = o).

(** *** More of the models *)

(** [ORDER BY log_date DESC], as an insertion into a list already in that
    order. *)
Fixpoint insert_desc (log : DailyLog.t) (l : list DailyLog.t)
  : list DailyLog.t :=
  match l with
  | [] => [log]
  | x :: rest =>
      if DailyLog.log_date x <? DailyLog.log_date log
      then log :: l
      else x :: insert_desc log rest
  end.

Definition order_by_log_date_desc (rows : list DailyLog.t) : list DailyLog.t :=
  fold_right insert_desc [] rows.

(** [DailyLog.get_recent_logs].  A negative [days] reaches the database as
    a negative LIMIT, which PostgreSQL rejects and SQLite ignores; that case
    is left undefined ([None]). *)
Definition get_recent_logs (s : Session) (user_id : Z) (days : Z)
  : option (list DailyLog.t) :=
  if days <? 0 then None
  else
    Some (firstn (Z.to_nat days)
            (order_by_log_date_desc
               (map (identity s)
                    (filter (fun log => DailyLog.user_id log =? user_id)
                            (daily_logs s))))).

(** [User.get_by_github_username] *)
Definition get_by_github_username (s : Session) (username : string)
  : option User.t :=
  find (fun u => String.eqb (User.github_username u) username) (users s).

(** Dates from the most recent down. *)
Fixpoint descending (l : list DailyLog.t) : Prop :=
  match l with
  | [] => True
  | x :: rest =>
      Forall (fun y => DailyLog.log_date y <= DailyLog.log_date x) rest
      /\ descending rest
  end.

(* ================================================================= *)
(** ** cron/send_daily_checkins.py *)

Definition set_checkin_sent_at (v : option datetime) (log : DailyLog.t)
  : DailyLog.t :=
  {| DailyLog.id := DailyLog.id log;
     DailyLog.user_id := DailyLog.user_id log;
     DailyLog.log_date := DailyLog.log_date log;
     DailyLog.checkin_sent_at := v;
     DailyLog.user_response := DailyLog.user_response log;
     DailyLog.user_responded_at := DailyLog.user_responded_at log;
     DailyLog.verification_completed_at := DailyLog.verification_completed_at log;
     DailyLog.commits_count := DailyLog.commits_count log;
     DailyLog.prs_count := DailyLog.prs_count log;
     DailyLog.issues_count := DailyLog.issues_count log;
     DailyLog.verification_passed := DailyLog.verification_passed log;
     DailyLog.verification_details := DailyLog.verification_details log;
     DailyLog.summary_sent_at := DailyLog.summary_sent_at log |}.

(** The [results] dictionary of [send_daily_checkins]. *)
Module CheckinResults.
Record t : Type := {
  total_users : Z;
  emails_sent : Z;
  errors : Z;
  date : date
}.
End CheckinResults.

Definition add_emails_sent (r : CheckinResults.t) : CheckinResults.t :=
  {| CheckinResults.total_users := CheckinResults.total_users r;
     CheckinResults.emails_sent := CheckinResults.emails_sent r + 1;
     CheckinResults.errors := CheckinResults.errors r;
     CheckinResults.date := CheckinResults.date r |}.

Definition add_errors (r : CheckinResults.t) : CheckinResults.t :=
  {| CheckinResults.total_users := CheckinResults.total_users r;
     CheckinResults.emails_sent := CheckinResults.emails_sent r;
     CheckinResults.errors := CheckinResults.errors r + 1;
     CheckinResults.date := CheckinResults.date r |}.

Definition set_total_users (n : Z) (r : CheckinResults.t) : CheckinResults.t :=
  {| CheckinResults.total_users := n;
     CheckinResults.emails_sent := CheckinResults.emails_sent r;
     CheckinResults.errors := CheckinResults.errors r;
     CheckinResults.date := CheckinResults.date r |}.

(** What one user's check-in meets: the clock, the database at
    [get_or_create] and at the commit, and the mail service. *)
Record CheckinEnv : Type := {
  checkin_clock : Z;
  checkin_create_env : CreateEnv;
  send_daily_checkin : result bool;
  checkin_commit_fault : option exn
}.

(** The [try] block of the loop for one user; the flag tells whether the
    block ran to [emails_sent += 1], to [errors += 1], or to [continue]. *)
Inductive checkin_step : Type :=
| CheckinSent
| CheckinNotSent
| CheckinSkipped.

Definition checkin_try (cfg : Config) (env : CheckinEnv) (user : User.t)
  : M checkin_step :=
  let user_today :=
    get_current_date cfg (checkin_clock env) (Some (User.time_zone user)) in
  daily_log <- get_or_create (checkin_create_env env) (User.id user) user_today ;;
  match DailyLog.checkin_sent_at daily_log with
  | Some _ => ret CheckinSkipped
  | None =>
      email_sent <- lift (send_daily_checkin env) ;;
      if (email_sent : bool) then
        assign (set_checkin_sent_at
                  (Some (utc_datetime (checkin_clock env)))) daily_log ;;;
        commit (checkin_commit_fault env) ;;;
        ret CheckinSent
      else ret CheckinNotSent
  end.

(** One iteration of the loop, with its [except Exception]. *)
Definition checkin_body (cfg : Config) (env : CheckinEnv) (user : User.t)
           (results : CheckinResults.t) : Session -> Session * CheckinResults.t :=
  fun s =>
    match checkin_try cfg env user s with
    | (s, Ok CheckinSent) => (s, add_emails_sent results)
    | (s, Ok CheckinNotSent) => (s, add_errors results)
    | (s, Ok CheckinSkipped) => (s, results)
    | (s, Raise _) => (s, add_errors results)
    end.

Fixpoint checkin_loop (cfg : Config) (envs : User.t -> CheckinEnv)
         (users : list User.t) (results : CheckinResults.t)
  : Session -> Session * CheckinResults.t :=
  fun s =>
    match users with
    | [] => (s, results)
    | user :: rest =>
        let (s, results) := checkin_body cfg (envs user) user results s in
        checkin_loop cfg envs rest results s
    end.

(** An exception that is a [SQLAlchemyError]. *)
Definition is_SQLAlchemyError (e : exn) : bool :=
  match e with
  | IntegrityError _ | OperationalError _ | DBAPIError _ => true
  | _ => false
  end.

(** [get_db_context]'s [except SQLAlchemyError: db.rollback(); raise], met
    by an exception [e] that leaves the [with] block or its final commit. *)
Definition db_context_except (rollback_fault : option exn) (e : exn) : M unit :=
  if is_SQLAlchemyError e
  then rollback rollback_fault ;;; raise e
  else raise e.

(** Leaving [with get_db_context() as db] normally: commit, and on a
    database error roll back and raise. *)
Definition db_context_exit (commit_fault rollback_fault : option exn) : M unit :=
  try_except (commit commit_fault) (db_context_except rollback_fault).

(** [send_daily_checkins]; [None] is the bare [return] of a weekend.  The
    query for the active users is inside the [with] block and the outer
    [try]: when it raises, the context manager rolls back and the job
    counts one error, with [total_users] still 0. *)
Definition send_daily_checkins (cfg : Config) (now : Z)
           (envs : User.t -> CheckinEnv)
           (users_fault exit_commit_fault exit_rollback_fault : option exn)
  : Session -> Session * option CheckinResults.t :=
  fun s =>
    let today := get_current_date cfg now None in
    if negb (is_weekday cfg now (Some today) None) then (s, None)
    else
      let results := {| CheckinResults.total_users := 0;
                        CheckinResults.emails_sent := 0;
                        CheckinResults.errors := 0;
                        CheckinResults.date := today |} in
      match query_active_users users_fault s with
      | (s, Raise e) =>
          let (s, _) := db_context_except exit_rollback_fault e s in
          (s, Some (add_errors results))
      | (s, Ok users) =>
          let results := set_total_users (len users) results in
          let (s, results) := checkin_loop cfg envs users results s in
          match db_context_exit exit_commit_fault exit_rollback_fault s with
          | (s, Ok _) => (s, Some results)
          | (s, Raise _) => (s, Some (add_errors results))
          end
      end.

(** A check-in run for Alice late on 2024-01-15 UTC, and a later one the
    same (Tokyo) day. *)
Definition checkin_env (clock : Z) : CheckinEnv :=
  {| checkin_clock := clock; checkin_create_env := quiet_db;
     send_daily_checkin := Ok true; checkin_commit_fault := None |}.

Definition first_checkin : Session * CheckinResults.t :=
  checkin_body sample_cfg (checkin_env jan15_evening) alice
    {| CheckinResults.total_users := 1; CheckinResults.emails_sent := 0;
       CheckinResults.errors := 0; CheckinResults.date := jan15 |}
    sample_session.

(* ================================================================= *)
(** * Properties *)

(** ** The record store *)

Lemma find_none_existsb {A} (p : A -> bool) (l : list A) :
  find p l = None -> existsb p l = false.
Proof.
  induction l as [|x l IH]; simpl; [reflexivity|].
  destruct (p x); [discriminate | exact IH].
Qed.

Lemma find_some_existsb {A} (p : A -> bool) (l : list A) (x : A) :
  find p l = Some x -> existsb p l = true.
Proof.
  induction l as [|y l IH]; simpl; [discriminate|].
  destruct (p y); [reflexivity | exact IH].
Qed.

Lemma find_app_last {A} (p : A -> bool) (l : list A) (x : A) :
  find p l = None -> p x = true -> find p (l ++ [x]) = Some x.
Proof.
  induction l as [|y l IH]; simpl; intros Hn Hx.
  - rewrite Hx. reflexivity.
  - destruct (p y); [discriminate | auto].
Qed.

Lemma find_app_first {A} (p : A -> bool) (l l' : list A) (x : A) :
  find p l = Some x -> find p (l ++ l') = Some x.
Proof.
  induction l as [|y l IH]; simpl; [discriminate|].
  destruct (p y); auto.
Qed.

Lemma update_all_nil (rows : list DailyLog.t) : update_all [] rows = rows.
Proof.
  unfold update_all. simpl. induction rows as [|r rows IH]; simpl; congruence.
Qed.

Lemma same_key_fresh (uid : Z) (d : date) (n : Z) :
  same_key uid d (set_id n (new_DailyLog uid d)) = true.
Proof. unfold same_key. simpl. now rewrite !Z.eqb_refl. Qed.

Lemma same_key_eq (uid : Z) (d : date) (log : DailyLog.t) :
  same_key uid d log = true ->
  DailyLog.user_id log = uid /\ DailyLog.log_date log = d.
Proof.
  unfold same_key. intros H. apply andb_true_iff in H as [H1 H2].
  split; now apply Z.eqb_eq.
Qed.

Lemma find_fresh_row (s : Session) (uid : Z) (d : date) (rows : list DailyLog.t) :
  find (same_key uid d) rows = None ->
  find (same_key uid d) (rows ++ [fresh_row s uid d]) = Some (fresh_row s uid d).
Proof. intros H. apply find_app_last; [exact H | apply same_key_fresh]. Qed.

(** Updating by primary key leaves every row either as it was or equal to
    the written object. *)
Lemma in_update_all (obj : DailyLog.t) (rows : list DailyLog.t) (row : DailyLog.t) :
  In row (update_all [obj] rows) -> row = obj \/ In row rows.
Proof.
  unfold update_all. intros H. apply in_map_iff in H as (r & Hr & Hin).
  simpl in Hr. destruct (same_id (DailyLog.id r) obj); subst; auto.
Qed.

(** The record found by key is the written object once an update of the
    object loaded for that key is flushed. *)
Lemma find_update_all (uid : Z) (d : date) (rows : list DailyLog.t)
      (log0 obj : DailyLog.t) :
  find (same_key uid d) rows = Some log0 ->
  same_key uid d obj = true ->
  DailyLog.id obj = DailyLog.id log0 ->
  find (same_key uid d) (update_all [obj] rows) = Some obj.
Proof.
  intros Hf Hk Hid. induction rows as [|r rows IH]; simpl in *; [discriminate|].
  destruct (same_key uid d r) eqn:Hr.
  - injection Hf as ->. unfold same_id. rewrite Hid, Z.eqb_refl.
    now rewrite Hk.
  - destruct (same_id (DailyLog.id r) obj).
    + now rewrite Hk.
    + rewrite Hr. apply IH, Hf.
Qed.


Lemma identity_clean (s : Session) (row : DailyLog.t) :
  dirty s = [] -> identity s row = row.
Proof. unfold identity. intros ->. reflexivity. Qed.

Lemma query_first_clean (uid : Z) (d : date) (s : Session) :
  dirty s = [] ->
  query_first None uid d s = (s, Ok (record_of s uid d)).
Proof.
  intros Hd. unfold query_first, record_of.
  destruct (find (same_key uid d) (daily_logs s)) as [row|]; simpl;
    [rewrite identity_clean by assumption|]; reflexivity.
Qed.

(** Every way a call of [get_or_create] on a clean session can end. *)
Lemma get_or_create_cases (ce : CreateEnv) (uid : Z) (d : date)
      (s s' : Session) (out : result DailyLog.t) :
  clean s ->
  get_or_create ce uid d s = (s', out) ->
  (exists e, lookup_fault ce = Some e /\ s' = s /\ out = Raise e)
  \/ (exists row, record_of s uid d = Some row /\ s' = s /\ out = Ok row)
  \/ (record_of s uid d = None /\ clean s' /\ users s' = users s
      /\ daily_logs s' = daily_logs s ++ [fresh_row s uid d]
      /\ out = Ok (fresh_row s uid d))
  \/ (record_of s uid d = None /\ users s' = users s /\ dirty s' = []
      /\ (daily_logs s' = daily_logs s
          \/ daily_logs s' = daily_logs s ++ [fresh_row s uid d])
      /\ exists e, out = Raise e).
Proof.
  intros [Hp Hd] H. unfold get_or_create, bind in H.
  destruct (lookup_fault ce) as [e|] eqn:Hl.
  { simpl in H. injection H as <- <-. left. eauto. }
  rewrite query_first_clean in H by assumption.
  destruct (record_of s uid d) as [row|] eqn:Hrec.
  { injection H as <- <-. right. left. eauto. }
  right. right. unfold record_of in Hrec.
  unfold db_add, other_caller_creates, commit, refresh, ret in H.
  rewrite Hp, Hd in H. cbn in H.
  pose proof (find_none_existsb _ _ Hrec) as Hex. unfold record_of in Hex.
  destruct (concurrent_create ce).
  - right. cbn in H. rewrite Hex in H. cbn in H.
    destruct (insert_fault ce) as [e|].
    + injection H as <- <-. simpl. repeat split; eauto.
    + cbn in H. rewrite update_all_nil in H. cbn in H.
      rewrite existsb_app in H. cbn in H.
      rewrite (same_key_fresh uid d (next_log_id s)) in H.
      rewrite orb_true_r in H. injection H as <- <-. simpl.
      repeat split; eauto.
  - cbn in H. destruct (insert_fault ce) as [e|].
    + right. injection H as <- <-. simpl. repeat split; eauto.
    + cbn in H. rewrite update_all_nil, Hex in H. cbn in H.
      destruct (insert_refresh_fault ce) as [e|].
      * right. injection H as <- <-. simpl. repeat split; eauto.
      * left. unfold record_of in Hrec.
        rewrite (find_app_last _ _ _ Hrec (same_key_fresh uid d (next_log_id s))) in H.
        injection H as <- <-. unfold clean. simpl. repeat split; reflexivity.
Qed.

(** ** The aggregator's counts *)

Lemma get_daily_activity_counts (cfg : Config) (now : Z) (gh : GitHubClient)
      (d : date) (username : option string) (a : Activity.t) :
  get_daily_activity cfg now gh d username = Ok a ->
  Activity.commits_count a = len (Activity.commits a)
  /\ Activity.prs_count a = len (Activity.pull_requests a)
  /\ Activity.issues_count a = len (Activity.issues a)
  /\ Activity.total_activity a
     = Activity.commits_count a + Activity.prs_count a + Activity.issues_count a.
Proof.
  unfold get_daily_activity. intros H.
  destruct (get_commits_for_date _ _ _ _ _ _); [|discriminate].
  destruct (get_pull_requests_for_date _ _ _ _ _ _); [|discriminate].
  destruct (get_issues_for_date _ _ _ _ _ _); [|discriminate].
  injection H as <-. simpl. auto.
Qed.

(** ** One verification run *)

Lemma verified_log_key (a : Activity.t) (now m : Z) (log : DailyLog.t)
      (uid : Z) (d : date) :
  same_key uid d (verified_log a now m log) = same_key uid d log.
Proof. reflexivity. Qed.

Lemma verify_user_day_try_run (cfg : Config) (env : Env) (user : User.t)
      (d : date) (m : Z) (s s' : Session) (out : result VerifyResult.t) :
  clean s ->
  verify_user_day_try cfg env user d m s = (s', out) ->
  users s' = users s
  /\ (run_succeeded cfg env user d m s s' out
      \/ (rows_kept s s' (User.id user) d
          /\ ((exists msg, out = Ok (_create_error_result msg) /\ clean s')
              \/ exists e, out = Raise e))
      \/ (run_committed cfg env user d m s s'
          /\ exists e, update_refresh_fault env = Some e /\ out = Raise e)).
Proof.
  intros Hc H. unfold verify_user_day_try in H. unfold bind at 1 in H.
  destruct (get_or_create (create_env env) (User.id user) d s) as [s0 r0] eqn:Hg.
  assert (Hs0 : users s0 = users s
                /\ rows_kept s s0 (User.id user) d
                /\ forall log0, r0 = Ok log0 ->
                     clean s0 /\ record_of s0 (User.id user) d = Some log0).
  { destruct (@get_or_create_cases _ _ _ _ _ _ Hc Hg)
      as [(e & _ & -> & ->) | [(row & Hr & -> & ->)
         | [(Hr & Hc0 & Hu & Hrows & ->) | (Hr & Hu & _ & Hrows & e & ->)]]].
    - split; [reflexivity|]. split; [now left|]. discriminate.
    - split; [reflexivity|]. split; [now left|].
      intros log0 [= <-]. auto.
    - split; [assumption|]. split; [right; auto|].
      intros log0 [= <-]. split; [assumption|].
      unfold record_of. rewrite Hrows.
      apply find_app_last; [exact Hr | apply same_key_fresh].
    - split; [assumption|]. split; [|discriminate].
      destruct Hrows as [Hrows|Hrows]; [now left | right; auto]. }
  destruct Hs0 as (Hu0 & Hk0 & Hok).
  destruct r0 as [log0|e].
  2:{ injection H as <- <-. split; [assumption|]. right. left. split; eauto. }
  destruct (Hok log0 eq_refl) as [[Hp0 Hd0] Hrec0].
  unfold bind at 1, lift at 1 in H.
  destruct (test_connection (github env (User.github_token user)))
    as [connected|e] eqn:Htc.
  2:{ injection H as <- <-. split; [assumption|]. right. left. split; eauto. }
  destruct connected; simpl negb in H; cbv iota in H.
  2:{ unfold ret in H. injection H as <- <-. split; [assumption|]. right. left.
      split; [assumption|]. left. eexists. split; [reflexivity|].
      split; assumption. }
  unfold bind at 1, lift at 1 in H.
  destruct (get_daily_activity cfg (now env) (github env (User.github_token user))
              d (Some (User.github_username user))) as [a|e] eqn:Ha.
  2:{ injection H as <- <-. split; [assumption|]. right. left. split; eauto. }
  unfold bind, assign, commit, refresh, ret in H. cbn in H.
  rewrite Hd0, Hp0 in H. cbn in H. unfold same_id in H. cbn in H.
  rewrite !Z.eqb_refl in H. cbn in H.
  destruct (update_fault env) as [e|].
  { injection H as <- <-. cbn. split; [assumption|]. right. left. split; eauto. }
  cbn in H.
  destruct (update_refresh_fault env) as [e|] eqn:Hrf.
  { injection H as <- <-. cbn. split; [assumption|]. right. right.
    split; [|eauto]. exists s0, log0, a. unfold clean. cbn.
    repeat split; try reflexivity; try assumption. }
  destruct (find_some _ _ Hrec0) as [_ Hkey0].
  destruct (same_key_eq _ _ _ Hkey0) as [Hku Hkd].
  assert (Hfind : find (same_key (User.id user) d)
                    (update_all [verified_log a (now env) m log0] (daily_logs s0))
                  = Some (verified_log a (now env) m log0)).
  { apply find_update_all with (log0 := log0); [exact Hrec0 | | reflexivity].
    rewrite verified_log_key. exact Hkey0. }
  rewrite Hku, Hkd in H. unfold verified_log in Hfind. rewrite Hfind in H.
  injection H as <- <-. cbn. split; [assumption|]. left.
  exists s0, log0, a. unfold clean. cbn.
  repeat split; try reflexivity; try assumption.
Qed.

Lemma run_committed_rollback (cfg : Config) (env : Env) (user : User.t)
      (d : date) (m : Z) (s s1 s' : Session) :
  run_committed cfg env user d m s s1 ->
  users s' = users s1 -> daily_logs s' = daily_logs s1 ->
  pending s' = [] -> dirty s' = [] ->
  run_committed cfg env user d m s s'.
Proof.
  intros (s0 & log0 & a & Hg & Hk & Hrec & Ha & Hrows & _) _ Hl Hp Hd.
  exists s0, log0, a. rewrite Hl. unfold clean. auto 10.
Qed.

(** Every way a run on a clean session can end: with its results written
    and reported; with nothing written; or, when the refresh that follows
    the commit fails, with its results written and an error reported. *)
Lemma verify_user_day_run (cfg : Config) (env : Env) (user : User.t)
      (d : date) (m : Z) (s s' : Session) (out : result VerifyResult.t) :
  clean s ->
  verify_user_day cfg env user (Some d) m s = (s', out) ->
  users s' = users s
  /\ (run_succeeded cfg env user d m s s' out
      \/ (rows_kept s s' (User.id user) d
          /\ ((exists msg, out = Ok (_create_error_result msg) /\ clean s')
              \/ exists e, out = Raise e))
      \/ (run_committed cfg env user d m s s'
          /\ (exists e, update_refresh_fault env = Some e)
          /\ ((exists msg, out = Ok (_create_error_result msg))
              \/ exists e, out = Raise e))).
Proof.
  intros Hc H. unfold verify_user_day, bind, lift, try_except in H.
  simpl default_target_date in H. cbv iota in H.
  destruct (verify_user_day_try cfg env user d m s) as [s1 r1] eqn:Ht.
  destruct (verify_user_day_try_run _ _ _ _ _ Hc Ht) as [Hu Hcases].
  destruct r1 as [r|e].
  - injection H as <- <-.
    destruct Hcases as [Hs | [Hk | (_ & e & _ & He)]]; [auto | auto | discriminate].
  - destruct Hcases as [(? & ? & ? & _ & _ & _ & _ & _ & _ & Hout)
                       | [[Hk _] | (Hcm & e' & Hrf & _)]];
      [discriminate | |].
    + unfold rollback, ret in H. destruct (rollback_fault env) as [e'|].
      * injection H as <- <-. split; [assumption|]. right. left. split; eauto.
      * injection H as <- <-. cbn. split; [assumption|]. right. left.
        split; [exact Hk|]. left. eexists. split; [reflexivity|].
        split; reflexivity.
    + unfold rollback, ret in H. destruct (rollback_fault env) as [e''|].
      * injection H as <- <-. split; [assumption|]. right. right.
        split; [exact Hcm|]. split; eauto.
      * injection H as <- <-. cbn. split; [assumption|]. right. right.
        split; [|split; eauto].
        eapply run_committed_rollback; [exact Hcm | | | |]; reflexivity.
Qed.

(** Without a date the run stops at [user.timezone], before the [try]. *)
Lemma verify_user_day_no_date (cfg : Config) (env : Env) (user : User.t)
      (m : Z) (s : Session) :
  verify_user_day cfg env user None m s
  = (s, Raise (AttributeError "'User' object has no attribute 'timezone'")).
Proof. reflexivity. Qed.

(** After a run that committed, the record of (user, date) is the one the
    run wrote, and every other committed row is one that was there before. *)
Lemma run_committed_record (cfg : Config) (env : Env) (user : User.t)
      (d : date) (m : Z) (s s' : Session) :
  run_committed cfg env user d m s s' ->
  exists log0 a,
    get_daily_activity cfg (now env) (github env (User.github_token user))
                       d (Some (User.github_username user)) = Ok a
    /\ record_of s' (User.id user) d = Some (verified_log a (now env) m log0)
    /\ (record_of s (User.id user) d = Some log0
        \/ (record_of s (User.id user) d = None
            /\ log0 = fresh_row s (User.id user) d))
    /\ (forall row, In row (daily_logs s') ->
          row = verified_log a (now env) m log0 \/ row = log0
          \/ In row (daily_logs s)).
Proof.
  intros (s0 & log0 & a & Hg & Hk & Hrec0 & Ha & Hrows & _).
  exists log0, a. split; [exact Ha|].
  destruct (find_some _ _ Hrec0) as [_ Hkey0].
  split; [|split].
  - unfold record_of. rewrite Hrows.
    apply find_update_all with (log0 := log0); auto.
  - unfold record_of in *. destruct Hk as [Hk|[Hn Hk]]; rewrite Hk in Hrec0.
    + now left.
    + right. split; [exact Hn|].
      rewrite (find_fresh_row _ _ _ _ Hn) in Hrec0.
      congruence.
  - intros row Hin. rewrite Hrows in Hin.
    apply in_update_all in Hin as [->|Hin]; [now left|].
    destruct Hk as [Hk|[Hn Hk]]; rewrite Hk in Hin.
    + auto.
    + apply in_app_or in Hin as [Hin|[<-|[]]]; [auto|].
      right. left. unfold record_of in *.
      rewrite Hk, (find_fresh_row _ _ _ _ Hn) in Hrec0.
      congruence.
Qed.

Lemma run_succeeded_committed (cfg : Config) (env : Env) (user : User.t)
      (d : date) (m : Z) (s s' : Session) (out : result VerifyResult.t) :
  run_succeeded cfg env user d m s s' out ->
  run_committed cfg env user d m s s'.
Proof.
  intros (s0 & log0 & a & Hg & Hk & Hrec0 & Ha & Hrows & Hcl & _).
  exists s0, log0, a. auto 10.
Qed.

Lemma run_succeeded_record (cfg : Config) (env : Env) (user : User.t)
      (d : date) (m : Z) (s s' : Session) (out : result VerifyResult.t) :
  run_succeeded cfg env user d m s s' out ->
  exists log0 a,
    get_daily_activity cfg (now env) (github env (User.github_token user))
                       d (Some (User.github_username user)) = Ok a
    /\ record_of s' (User.id user) d = Some (verified_log a (now env) m log0)
    /\ (record_of s (User.id user) d = Some log0
        \/ (record_of s (User.id user) d = None
            /\ log0 = fresh_row s (User.id user) d))
    /\ (forall row, In row (daily_logs s') ->
          row = verified_log a (now env) m log0 \/ row = log0
          \/ In row (daily_logs s)).
Proof.
  intros H. apply run_committed_record. eapply run_succeeded_committed, H.
Qed.

Lemma rows_kept_untouched (s s' : Session) (uid : Z) (d : date) :
  rows_kept s s' uid d -> verification_untouched s s' uid d.
Proof.
  unfold rows_kept, verification_untouched, record_of.
  intros [Hk|[Hn Hk]]; rewrite Hk.
  - destruct (find _ (daily_logs s)); [reflexivity|exact I].
  - rewrite Hn, (find_fresh_row _ _ _ _ Hn). reflexivity.
Qed.



(** Whatever the session held, a result with [success] set was built from
    the snapshot the aggregator returned in this run. *)
Lemma verify_user_day_success_shape (cfg : Config) (env : Env) (user : User.t)
      (d : option date) (m : Z) (s s' : Session) (r : VerifyResult.t) :
  verify_user_day cfg env user d m s = (s', Ok r) ->
  VerifyResult.success r = true ->
  exists d0 a,
    d = Some d0
    /\ get_daily_activity cfg (now env) (github env (User.github_token user))
                          d0 (Some (User.github_username user)) = Ok a
    /\ VerifyResult.passed r = (Activity.total_activity a >=? m)
    /\ VerifyResult.commits_count r = Activity.commits_count a
    /\ VerifyResult.prs_count r = Activity.prs_count a
    /\ VerifyResult.issues_count r = Activity.issues_count a
    /\ VerifyResult.total_activity r = Activity.total_activity a
    /\ VerifyResult.details r = Some a.
Proof.
  intros H Hs. destruct d as [d0|]; [|discriminate].
  exists d0.
  unfold verify_user_day, bind, lift, try_except in H.
  simpl default_target_date in H. cbv iota in H.
  destruct (verify_user_day_try cfg env user d0 m s) as [s1 r1] eqn:Ht.
  destruct r1 as [r'|e].
  2:{ unfold rollback, ret in H. destruct (rollback_fault env);
      [discriminate|]. injection H as _ <-. discriminate. }
  injection H as -> ->.
  unfold verify_user_day_try in Ht. unfold bind at 1 in Ht.
  destruct (get_or_create _ _ _ s) as [s0 [log0|e]]; [|discriminate].
  unfold bind at 1, lift at 1 in Ht.
  destruct (test_connection _) as [[|]|e]; [| |discriminate].
  2:{ unfold ret in Ht. simpl in Ht. injection Ht as _ <-. discriminate. }
  simpl negb in Ht. cbv iota in Ht.
  unfold bind at 1, lift at 1 in Ht.
  destruct (get_daily_activity _ _ _ _ _) as [a|e]; [|discriminate].
  exists a. split; [reflexivity|]. split; [reflexivity|].
  unfold bind, assign, ret in Ht. cbn in Ht.
  match type of Ht with
  | (let (_, _) := ?c in _) = _ => destruct c as [s2 [[]|e]]
  end; [|discriminate].
  match type of Ht with
  | (let (_, _) := ?c in _) = _ => destruct c as [s3 [log3|e]]
  end; [|discriminate].
  injection Ht as _ <-. simpl. auto 10.
Qed.

(** ** C1 *)



(** The two runs of the specification's example: no activity fails, one
    commit passes. *)
Example no_activity_does_not_pass :
  option_map VerifyResult.passed
    (match snd (verify_user_day sample_cfg (env_with idle_client) alice
                  (Some jan15) default_min_commits sample_session) with
     | Ok r => Some r | Raise _ => None end) = Some false.
Proof. vm_compute. reflexivity. Qed.

Example one_commit_passes :
  snd run_one_commit = Ok one_commit_result
  /\ VerifyResult.success one_commit_result = true
  /\ VerifyResult.passed one_commit_result = true
  /\ VerifyResult.commits_count one_commit_result = 1
  /\ VerifyResult.prs_count one_commit_result = 0
  /\ VerifyResult.issues_count one_commit_result = 0.
Proof. repeat apply conj; vm_compute; reflexivity. Qed.

(** ** C2 and C7 *)

Lemma verify_user_day_clean (cfg : Config) (env : Env) (user : User.t)
      (d : date) (m : Z) (s s' : Session) (r : VerifyResult.t) :
  clean s ->
  verify_user_day cfg env user (Some d) m s = (s', Ok r) ->
  clean s'.
Proof.
  intros Hc H.
  destruct (verify_user_day_run _ _ _ _ _ Hc H) as [_ [Hs|[[_ Hf]|[Hcm _]]]].
  - destruct Hs as (? & ? & ? & _ & _ & _ & _ & _ & Hcl & _). exact Hcl.
  - destruct Hf as [(msg & _ & Hcl)|(e & He)]; [exact Hcl | discriminate].
  - destruct Hcm as (? & ? & ? & _ & _ & _ & _ & _ & Hcl). exact Hcl.
Qed.

Lemma success_is_run_succeeded (cfg : Config) (env : Env) (user : User.t)
      (d : date) (m : Z) (s s' : Session) (r : VerifyResult.t) :
  clean s ->
  verify_user_day cfg env user (Some d) m s = (s', Ok r) ->
  VerifyResult.success r = true ->
  run_succeeded cfg env user d m s s' (Ok r).
Proof.
  intros Hc H Hs.
  destruct (verify_user_day_run _ _ _ _ _ Hc H) as [_ [Hr|[[_ Hf]|(_ & _ & Hf)]]].
  - exact Hr.
  - destruct Hf as [(msg & [= ->] & _)|(e & He)]; discriminate.
  - destruct Hf as [(msg & [= ->])|(e & He)]; discriminate.
Qed.

(** C2.  Running verification twice in sequence for the same user and date
    leaves the record's counts, passed flag and detail snapshot at the
    values of the second run's snapshot, which are the values the second
    run writes when it runs alone: the second run overwrites. *)
Theorem second_run_overwrites
        (cfg : Config) (env1 env2 : Env) (user : User.t) (d : date) (m1 m2 : Z)
        (s s1 s2 : Session) (r1 r2 : VerifyResult.t) :
  clean s ->
  verify_user_day cfg env1 user (Some d) m1 s = (s1, Ok r1) ->
  verify_user_day cfg env2 user (Some d) m2 s1 = (s2, Ok r2) ->
  VerifyResult.success r2 = true ->
  exists row a2,
    get_daily_activity cfg (now env2) (github env2 (User.github_token user))
                       d (Some (User.github_username user)) = Ok a2
    /\ record_of s2 (User.id user) d = Some row
    /\ DailyLog.commits_count row = len (Activity.commits a2)
    /\ DailyLog.prs_count row = len (Activity.pull_requests a2)
    /\ DailyLog.issues_count row = len (Activity.issues a2)
    /\ DailyLog.verification_passed row
       = Some (len (Activity.commits a2) + len (Activity.pull_requests a2)
               + len (Activity.issues a2) >=? m2)
    /\ DailyLog.verification_details row = Some a2
    /\ (forall s2' r2',
          verify_user_day cfg env2 user (Some d) m2 s = (s2', Ok r2') ->
          VerifyResult.success r2' = true ->
          exists row',
            record_of s2' (User.id user) d = Some row'
            /\ verification_fields row' = verification_fields row).
Proof.
  intros Hc H1 H2 Hs2.
  pose proof (verify_user_day_clean _ _ _ _ _ Hc H1) as Hc1.
  pose proof (success_is_run_succeeded _ _ _ _ _ Hc1 H2 Hs2) as Hr2.
  destruct (run_succeeded_record Hr2) as (log0 & a2 & Ha2 & Hrec & _ & _).
  exists (verified_log a2 (now env2) m2 log0), a2.
  destruct (get_daily_activity_counts _ _ _ _ _ Ha2) as (Hcc & Hpc & Hic & Ht).
  split; [exact Ha2|]. split; [exact Hrec|].
  split; [exact Hcc|]. split; [exact Hpc|]. split; [exact Hic|].
  split; [simpl; rewrite Ht, Hcc, Hpc, Hic; reflexivity|].
  split; [reflexivity|].
  intros s2' r2' H2' Hs2'.
  pose proof (success_is_run_succeeded _ _ _ _ _ Hc H2' Hs2') as Hr2'.
  destruct (run_succeeded_record Hr2') as (log0' & a2' & Ha2' & Hrec' & _ & _).
  rewrite Ha2 in Ha2'. injection Ha2' as <-.
  eexists. split; [exact Hrec'|]. reflexivity.
Qed.

Lemma second_run_overwrites_witness :
  exists row a2,
    get_daily_activity sample_cfg (now later_env)
      (github later_env (User.github_token alice)) jan15
      (Some (User.github_username alice)) = Ok a2
    /\ record_of (fst run_two_commits_after) (User.id alice) jan15 = Some row
    /\ DailyLog.commits_count row = len (Activity.commits a2)
    /\ DailyLog.prs_count row = len (Activity.pull_requests a2)
    /\ DailyLog.issues_count row = len (Activity.issues a2)
    /\ DailyLog.verification_passed row
       = Some (len (Activity.commits a2) + len (Activity.pull_requests a2)
               + len (Activity.issues a2) >=? default_min_commits)
    /\ DailyLog.verification_details row = Some a2
    /\ (forall s2' r2',
          verify_user_day sample_cfg later_env alice (Some jan15)
                          default_min_commits sample_session = (s2', Ok r2') ->
          VerifyResult.success r2' = true ->
          exists row',
            record_of s2' (User.id alice) jan15 = Some row'
            /\ verification_fields row' = verification_fields row).
Proof.
  apply (@second_run_overwrites
           sample_cfg (env_with one_commit_client) later_env alice jan15
           default_min_commits default_min_commits
           sample_session (fst run_one_commit) (fst run_two_commits_after)
           one_commit_result two_commits_result).
  - split; reflexivity.
  - vm_compute. reflexivity.
  - vm_compute. reflexivity.
  - vm_compute. reflexivity.
Defined.

(** The overwrite on the sample data: one commit, then two; the record holds
    two, not three. *)
Example two_after_one_is_two :
  option_map DailyLog.commits_count
             (record_of (fst run_one_commit) (User.id alice) jan15) = Some 1
  /\ option_map DailyLog.commits_count
                (record_of (fst run_two_commits_after) (User.id alice) jan15)
     = Some 2.
Proof. apply conj; vm_compute; reflexivity. Qed.







(** A run whose commit fails returns an error result and leaves the record
    exactly as the previous run wrote it. *)
Example failed_commit_changes_nothing :
  option_map VerifyResult.success
    (match snd run_failing_commit with Ok r => Some r | Raise _ => None end)
  = Some false
  /\ daily_logs (fst run_failing_commit)
     = daily_logs (fst run_two_commits_after)
  /\ clean (fst run_failing_commit).
Proof.
  apply conj; [vm_compute; reflexivity|].
  apply conj; [vm_compute; reflexivity|].
  apply conj; vm_compute; reflexivity.
Qed.

(** ** C6 *)

(** C6 (as the code has it).  When another caller creates the record
    between the lookup and the insert of [get_or_create], the insert hits
    the unique constraint and [get_or_create] does not recover: the
    integrity error leaves the call as an exception.  The other caller's
    record stays the record of that user and date. *)
Theorem conflict_on_create_is_raised
        (ce : CreateEnv) (uid : Z) (d : date) (s : Session) :
  clean s ->
  lookup_fault ce = None -> insert_fault ce = None ->
  concurrent_create ce = true ->
  record_of s uid d = None ->
  exists s' msg,
    get_or_create ce uid d s = (s', Raise (IntegrityError msg))
    /\ daily_logs s' = daily_logs s ++ [fresh_row s uid d]
    /\ record_of s' uid d = Some (fresh_row s uid d).
Proof.
  intros [Hp Hd] Hl Hi Hc Hrec.
  unfold get_or_create, bind. rewrite Hl, query_first_clean, Hrec by assumption.
  unfold db_add, other_caller_creates, commit, refresh, ret.
  rewrite Hc, Hi, Hp, Hd. cbn.
  pose proof (find_none_existsb _ _ Hrec) as Hex. unfold record_of in Hex.
  rewrite Hex. cbn.
  rewrite update_all_nil, existsb_app. cbn.
  rewrite (same_key_fresh uid d (next_log_id s)), orb_true_r.
  eexists _, _. split; [reflexivity|]. simpl. split; [reflexivity|].
  unfold record_of. simpl. apply find_fresh_row. exact Hrec.
Qed.

Lemma conflict_on_create_is_raised_witness :
  exists s' msg,
    get_or_create racing_db (User.id alice) jan15 sample_session
    = (s', Raise (IntegrityError msg))
    /\ daily_logs s'
       = daily_logs sample_session
         ++ [fresh_row sample_session (User.id alice) jan15]
    /\ record_of s' (User.id alice) jan15
       = Some (fresh_row sample_session (User.id alice) jan15).
Proof.
  apply (@conflict_on_create_is_raised racing_db (User.id alice) jan15
           sample_session).
  - split; reflexivity.
  - reflexivity.
  - reflexivity.
  - reflexivity.
  - reflexivity.
Defined.

(** The claim as worded fails: under a concurrent creation the call raises
    instead of returning the existing record. *)
Lemma get_or_create_surfaces_conflict :
  snd (get_or_create racing_db (User.id alice) jan15 sample_session)
  = Raise (IntegrityError
             "duplicate key value violates unique constraint uix_user_log_date")
  /\ ~ (exists log,
          snd (get_or_create racing_db (User.id alice) jan15 sample_session)
          = Ok log).
Proof.
  assert (H : snd (get_or_create racing_db (User.id alice) jan15 sample_session)
              = Raise (IntegrityError
                  "duplicate key value violates unique constraint uix_user_log_date"))
    by (vm_compute; reflexivity).
  split; [exact H|]. intros [log Hlog]. rewrite H in Hlog. discriminate.
Qed.

(** Without interference [get_or_create] returns the existing record, or
    creates the empty one and returns it; a second call returns the same. *)
Lemma get_or_create_idempotent (uid : Z) (d : date) (s s1 : Session)
      (log : DailyLog.t) :
  clean s ->
  get_or_create quiet_db uid d s = (s1, Ok log) ->
  get_or_create quiet_db uid d s1 = (s1, Ok log).
Proof.
  intros Hc H.
  destruct (@get_or_create_cases _ _ _ _ _ _ Hc H)
    as [(e & He & _) | [(row & Hr & -> & [= ->])
       | [(Hr & Hc1 & _ & Hrows & [= ->]) | (_ & _ & _ & _ & e & He)]]];
    try discriminate.
  - exact H.
  - unfold get_or_create, bind. simpl lookup_fault.
    rewrite query_first_clean by apply Hc1.
    unfold record_of. rewrite Hrows, (find_fresh_row _ _ _ _ Hr). reflexivity.
Qed.

(** ** C5: the per-repository handler *)

Section Aggregation.

Variables (d : date) (u : string) (start_dt : datetime).

Lemma scan_pulls_acc (repo : Repository.t) (prs : list PullRequest.t)
      (tail : option exn) (acc : list PRData.t) :
  scan_pulls d u start_dt repo prs tail acc
  = (acc ++ fst (scan_pulls d u start_dt repo prs tail []),
     snd (scan_pulls d u start_dt repo prs tail [])).
Proof.
  revert acc. induction prs as [|pr rest IH]; intros acc; simpl.
  - now rewrite app_nil_r.
  - destruct (_ && _); destruct (datetime_ltb _ _); simpl;
      try reflexivity; try now rewrite app_nil_r.
    + rewrite IH. rewrite (IH [pr_data repo pr]). simpl.
      now rewrite <- app_assoc.
    + apply IH.
Qed.

(** The loop over the repositories, in full: it raises the first
    interruption that is not caught, and otherwise returns the contributions
    of all the repositories in order. *)
Lemma for_each_repo_run {A} (body : Repository.t -> list A -> list A * option exn)
      (contrib : Repository.t -> list A) (fail : Repository.t -> option exn)
      (repos : list Repository.t) (acc : list A) :
  (forall repo acc, body repo acc = (acc ++ contrib repo, fail repo)) ->
  for_each_repo body repos acc
  = match first_uncaught (map fail repos) with
    | Some e => Raise e
    | None => Ok (acc ++ flat_map contrib repos)
    end.
Proof.
  intros Hbody. revert acc.
  induction repos as [|repo rest IH]; intros acc; simpl.
  - now rewrite app_nil_r.
  - rewrite Hbody. destruct (fail repo) as [e|].
    + destruct (is_GithubException e); [|reflexivity].
      rewrite IH. destruct (first_uncaught _); [reflexivity|].
      now rewrite app_assoc.
    + rewrite IH. destruct (first_uncaught _); [reflexivity|].
      now rewrite app_assoc.
Qed.

(** One listing of pull requests: the scan keeps, of the items it reads,
    those that pass the test, and meets the listing's failure only if no
    item stopped it. *)
Lemma scan_pulls_read (repo : Repository.t) (prs : list PullRequest.t)
      (tail : option exn) (acc : list PRData.t) :
  scan_pulls d u start_dt repo prs tail acc
  = (acc ++ map (pr_data repo)
              (filter (pr_kept d u) (read_until (pr_stale start_dt) prs)),
     if existsb (pr_stale start_dt) prs then None else tail).
Proof.
  revert acc. induction prs as [|pr rest IH]; intros acc;
    cbn [scan_pulls read_until existsb].
  - cbn. now rewrite app_nil_r.
  - fold (pr_kept d u pr). fold (pr_stale start_dt pr).
    destruct (pr_stale start_dt pr); cbn [orb filter].
    + destruct (pr_kept d u pr); cbn [map];
        [reflexivity | now rewrite app_nil_r].
    + rewrite IH. destruct (pr_kept d u pr); cbn [map];
        [now rewrite <- app_assoc | reflexivity].
Qed.

Lemma scan_issues_read (repo : Repository.t) (issues : list Issue.t)
      (tail : option exn) (acc : list IssueData.t) :
  scan_issues d start_dt repo issues tail acc
  = (acc ++ map (issue_data repo)
              (filter (issue_kept d)
                 (read_until (issue_stale start_dt)
                             (filter plain_issue issues))),
     if existsb (issue_stale start_dt) (filter plain_issue issues)
     then None else tail).
Proof.
  revert acc. induction issues as [|issue rest IH]; intros acc;
    cbn [scan_issues filter].
  - cbn. now rewrite app_nil_r.
  - assert (Hplain : plain_issue issue = negb (Issue.pull_request issue))
      by reflexivity.
    rewrite Hplain.
    destruct (Issue.pull_request issue); cbn [negb]; [apply IH|].
    cbn [read_until existsb].
    fold (issue_kept d issue). fold (issue_stale start_dt issue).
    destruct (issue_stale start_dt issue); cbn [orb filter].
    + destruct (issue_kept d issue); cbn [map];
        [reflexivity | now rewrite app_nil_r].
    + rewrite IH. destruct (issue_kept d issue); cbn [map];
        [now rewrite <- app_assoc | reflexivity].
Qed.

End Aggregation.

Lemma first_uncaught_app (l1 l2 : list (option exn)) :
  first_uncaught (l1 ++ l2)
  = match first_uncaught l1 with
    | Some e => Some e
    | None => first_uncaught l2
    end.
Proof.
  induction l1 as [|[e|] l1 IH]; simpl; [reflexivity| |exact IH].
  destruct (is_GithubException e); [exact IH | reflexivity].
Qed.

(** No exception escapes exactly when every failure is a GitHub API error;
    one that escapes is not. *)
Lemma first_uncaught_none (failures : list (option exn)) :
  first_uncaught failures = None
  <-> forall e, In (Some e) failures -> is_GithubException e = true.
Proof.
  induction failures as [|[e|] rest IH]; simpl.
  - split; [intros _ e [] | reflexivity].
  - destruct (is_GithubException e) eqn:He.
    + rewrite IH. split.
      * intros H e' [[= <-]|Hin]; [exact He | now apply H].
      * intros H e' Hin. apply H. now right.
    + split; [discriminate|]. intros H.
      rewrite (H e (or_introl eq_refl)) in He. discriminate.
  - rewrite IH. split.
    + intros H e' [Hd|Hin]; [discriminate | now apply H].
    + intros H e' Hin. apply H. now right.
Qed.

Lemma first_uncaught_some (failures : list (option exn)) (e : exn) :
  first_uncaught failures = Some e ->
  In (Some e) failures /\ is_GithubException e = false.
Proof.
  induction failures as [|[e'|] rest IH]; simpl; [discriminate| |].
  - destruct (is_GithubException e') eqn:He.
    + intros H. destruct (IH H). auto.
    + intros [= <-]. auto.
  - intros H. destruct (IH H). auto.
Qed.

(** What one repository's two listings of pull requests, and of issues,
    give the loop body. *)
Lemma pulls_of_states_read (cfg : Config) (d : date) (u : string)
      (repo : Repository.t) (acc : list PRData.t) :
  pulls_of_states d u (fst (day_window (server_zone cfg) d))
                  ["open"; "closed"] repo acc
  = (acc ++ repo_pulls cfg d u repo, repo_pulls_failure cfg d repo).
Proof.
  unfold repo_pulls, repo_pulls_failure, pulls_kept, listing_failure.
  cbn [pulls_of_states]. rewrite scan_pulls_read.
  destruct (existsb _ (items (Repository.get_pulls repo "open"))).
  - rewrite scan_pulls_read, map_app, app_assoc.
    destruct (existsb _ _); [reflexivity|].
    destruct (failure (Repository.get_pulls repo "closed")); reflexivity.
  - destruct (failure (Repository.get_pulls repo "open")) as [e|].
    + now rewrite app_nil_r.
    + rewrite scan_pulls_read, map_app, app_assoc.
      destruct (existsb _ _); [reflexivity|].
      destruct (failure (Repository.get_pulls repo "closed")); reflexivity.
Qed.

Lemma issues_of_states_read (cfg : Config) (d : date) (u : string)
      (repo : Repository.t) (acc : list IssueData.t) :
  issues_of_states d u (fst (day_window (server_zone cfg) d))
                   ["open"; "closed"] repo acc
  = (acc ++ repo_issues cfg d u repo, repo_issues_failure cfg d u repo).
Proof.
  unfold repo_issues, repo_issues_failure, issues_kept, listing_failure,
    plain_issues.
  cbn [issues_of_states items failure]. rewrite scan_issues_read.
  destruct (existsb _ (filter plain_issue
                         (items (Repository.get_issues repo "open" u)))).
  - rewrite scan_issues_read, map_app, app_assoc.
    destruct (existsb _ _); [reflexivity|].
    destruct (failure (Repository.get_issues repo "closed" u)); reflexivity.
  - destruct (failure (Repository.get_issues repo "open" u)) as [e|].
    + now rewrite app_nil_r.
    + rewrite scan_issues_read, map_app, app_assoc.
      destruct (existsb _ _); [reflexivity|].
      destruct (failure (Repository.get_issues repo "closed" u)); reflexivity.
Qed.

(** The three fetches of the aggregator, in full. *)
Lemma get_commits_for_date_run (cfg : Config) (now0 : Z) (gh : GitHubClient)
      (call : nat) (d : date) (username : option string) (u : string)
      (repos : list Repository.t) :
  resolve_username gh username = Ok u ->
  get_user_repos gh call = Ok repos ->
  get_commits_for_date cfg now0 gh call d username
  = match first_uncaught (map (repo_commits_failure cfg d u) repos) with
    | Some e => Raise e
    | None => Ok (flat_map (repo_commits cfg now0 d u) repos)
    end.
Proof.
  intros Hu Hr. unfold get_commits_for_date. rewrite Hu, Hr.
  apply (for_each_repo_run (commits_of_repo u _ _)
           (repo_commits cfg now0 d u) (repo_commits_failure cfg d u)).
  reflexivity.
Qed.

Lemma get_pull_requests_for_date_run (cfg : Config) (now0 : Z)
      (gh : GitHubClient) (call : nat) (d : date) (username : option string)
      (u : string) (repos : list Repository.t) :
  resolve_username gh username = Ok u ->
  get_user_repos gh call = Ok repos ->
  get_pull_requests_for_date cfg now0 gh call d username
  = match first_uncaught (map (repo_pulls_failure cfg d) repos) with
    | Some e => Raise e
    | None => Ok (flat_map (repo_pulls cfg d u) repos)
    end.
Proof.
  intros Hu Hr. unfold get_pull_requests_for_date. rewrite Hu, Hr.
  apply (for_each_repo_run
           (pulls_of_states d u (fst (day_window (server_zone cfg) d))
                            ["open"; "closed"])
           (repo_pulls cfg d u) (repo_pulls_failure cfg d)).
  intros repo acc. apply pulls_of_states_read.
Qed.

Lemma get_issues_for_date_run (cfg : Config) (now0 : Z)
      (gh : GitHubClient) (call : nat) (d : date) (username : option string)
      (u : string) (repos : list Repository.t) :
  resolve_username gh username = Ok u ->
  get_user_repos gh call = Ok repos ->
  get_issues_for_date cfg now0 gh call d username
  = match first_uncaught (map (repo_issues_failure cfg d u) repos) with
    | Some e => Raise e
    | None => Ok (flat_map (repo_issues cfg d u) repos)
    end.
Proof.
  intros Hu Hr. unfold get_issues_for_date. rewrite Hu, Hr.
  apply (for_each_repo_run
           (issues_of_states d u (fst (day_window (server_zone cfg) d))
                             ["open"; "closed"])
           (repo_issues cfg d u) (repo_issues_failure cfg d u)).
  intros repo acc. apply issues_of_states_read.
Qed.

(** C5 (as the code has it).  For an aggregation run over the listed
    repositories, take the exception, if any, that ends each repository's
    fetch of commits, of pull requests and of issues.  When each of them is
    a GitHub API error, none leaves the aggregation call and none removes
    an item: the snapshot is the merge, in repository order, of what every
    repository yielded and the scan kept before its fetch ended or failed.
    When one of them is an exception of another type, the first such
    exception leaves the aggregation call. *)
Theorem github_errors_are_isolated
        (cfg : Config) (now0 : Z) (gh : GitHubClient) (d : date)
        (username : option string) (u : string)
        (repos0 repos1 repos2 : list Repository.t) :
  resolve_username gh username = Ok u ->
  get_user_repos gh 0 = Ok repos0 ->
  get_user_repos gh 1 = Ok repos1 ->
  get_user_repos gh 2 = Ok repos2 ->
  (first_uncaught (map (repo_commits_failure cfg d u) repos0
                   ++ map (repo_pulls_failure cfg d) repos1
                   ++ map (repo_issues_failure cfg d u) repos2) = None
   <-> forall e,
         In (Some e) (map (repo_commits_failure cfg d u) repos0
                      ++ map (repo_pulls_failure cfg d) repos1
                      ++ map (repo_issues_failure cfg d u) repos2) ->
         is_GithubException e = true)
  /\ match first_uncaught (map (repo_commits_failure cfg d u) repos0
                           ++ map (repo_pulls_failure cfg d) repos1
                           ++ map (repo_issues_failure cfg d u) repos2) with
     | None =>
         exists a,
           get_daily_activity cfg now0 gh d username = Ok a
           /\ Activity.commits a = flat_map (repo_commits cfg now0 d u) repos0
           /\ Activity.pull_requests a = flat_map (repo_pulls cfg d u) repos1
           /\ Activity.issues a = flat_map (repo_issues cfg d u) repos2
     | Some e =>
         get_daily_activity cfg now0 gh d username = Raise e
         /\ is_GithubException e = false
     end.
Proof.
  intros Hu H0 H1 H2. split; [apply first_uncaught_none|].
  rewrite !first_uncaught_app. unfold get_daily_activity.
  rewrite (get_commits_for_date_run cfg now0 gh 0 d username Hu H0),
    (get_pull_requests_for_date_run cfg now0 gh 1 d username Hu H1),
    (get_issues_for_date_run cfg now0 gh 2 d username Hu H2).
  destruct (first_uncaught (map (repo_commits_failure cfg d u) repos0))
    as [e|] eqn:E0.
  { split; [reflexivity | exact (proj2 (first_uncaught_some _ E0))]. }
  destruct (first_uncaught (map (repo_pulls_failure cfg d) repos1))
    as [e|] eqn:E1.
  { split; [reflexivity | exact (proj2 (first_uncaught_some _ E1))]. }
  destruct (first_uncaught (map (repo_issues_failure cfg d u) repos2))
    as [e|] eqn:E2.
  { split; [reflexivity | exact (proj2 (first_uncaught_some _ E2))]. }
  eexists. split; [reflexivity|]. simpl. auto.
Qed.

Lemma github_errors_are_isolated_witness :
  (first_uncaught (map (repo_commits_failure sample_cfg jan15 "alice")
                       [flaky_repo; steady_repo]
                   ++ map (repo_pulls_failure sample_cfg jan15)
                          [flaky_repo; steady_repo]
                   ++ map (repo_issues_failure sample_cfg jan15 "alice")
                          [flaky_repo; steady_repo]) = None
   <-> forall e,
         In (Some e) (map (repo_commits_failure sample_cfg jan15 "alice")
                          [flaky_repo; steady_repo]
                      ++ map (repo_pulls_failure sample_cfg jan15)
                             [flaky_repo; steady_repo]
                      ++ map (repo_issues_failure sample_cfg jan15 "alice")
                             [flaky_repo; steady_repo]) ->
         is_GithubException e = true)
  /\ exists a,
       get_daily_activity sample_cfg jan15_evening mixed_client jan15
                          (Some "alice") = Ok a
       /\ Activity.commits a
          = flat_map (repo_commits sample_cfg jan15_evening jan15 "alice")
                     [flaky_repo; steady_repo]
       /\ Activity.pull_requests a
          = flat_map (repo_pulls sample_cfg jan15 "alice")
                     [flaky_repo; steady_repo]
       /\ Activity.issues a
          = flat_map (repo_issues sample_cfg jan15 "alice")
                     [flaky_repo; steady_repo].
Proof.
  exact (@github_errors_are_isolated
           sample_cfg jan15_evening mixed_client jan15 (Some "alice")
           "alice" [flaky_repo; steady_repo]
           [flaky_repo; steady_repo] [flaky_repo; steady_repo]
           eq_refl eq_refl eq_refl eq_refl).
Defined.

(** On the sample data: each listing of the first repository fails with a
    GitHub API error after one item.  The items read before the failures
    are in the snapshot, those of the listings never reached (pull request
    6, issue 5) are not, and the second repository is read in full. *)
Example partial_listings_are_kept :
  option_map (fun a => (map CommitData.sha (Activity.commits a),
                        map PRData.number (Activity.pull_requests a),
                        map IssueData.number (Activity.issues a)))
    (match get_daily_activity sample_cfg jan15_evening mixed_client
             jan15 (Some "alice") with
     | Ok a => Some a | Raise _ => None end)
  = Some (["aaa111"; "abc123"], [7; 3; 2; 10], [4; 11]).
Proof. vm_compute. reflexivity. Qed.

(** On the sample data: the commit read before the rate limit hit and the
    commit of the healthy repository are both in the snapshot. *)
Example rate_limit_keeps_both_commits :
  option_map (fun a => map CommitData.sha (Activity.commits a))
    (match get_daily_activity sample_cfg jan15_evening rate_limited_client
             jan15 (Some "alice") with
     | Ok a => Some a | Raise _ => None end)
  = Some ["aaa111"; "abc123"].
Proof. vm_compute. reflexivity. Qed.

(** The claim as worded fails: an exception that is not a GitHub API error,
    raised while the first repository's commits are fetched, leaves the
    aggregation call, although the second repository is healthy. *)
Lemma network_error_leaves_aggregation :
  get_daily_activity sample_cfg jan15_evening unreachable_client jan15
                     (Some "alice")
  = Raise (ConnectionError "Connection aborted").
Proof. vm_compute. reflexivity. Qed.

(** ** C4: the batch *)

Lemma get_by_date_session (fault : option exn) (uid : Z) (d : date) (s : Session) :
  fst (get_by_date fault uid d s) = s.
Proof.
  unfold get_by_date, query_first. destruct fault; reflexivity.
Qed.

(** One iteration: where the session goes, and what happens to the
    counters and to the per-user list. *)
Lemma batch_body_effect (cfg : Config) (env : Env) (d : date) (user : User.t)
      (r : BatchResults.t) (s : Session) :
  let vf := verification_failed cfg d env user s in
  let lf := lookup_failed cfg d env user s in
  fst (batch_body cfg env d user r s)
  = fst (verify_and_notify cfg env user (Some d) s)
  /\ BatchResults.failed (snd (batch_body cfg env d user r s))
     = BatchResults.failed r + (if vf then 1 else 0) + (if lf then 1 else 0)
  /\ BatchResults.successful (snd (batch_body cfg env d user r s))
     = BatchResults.successful r + (if vf then 0 else 1)
  /\ BatchResults.total_users (snd (batch_body cfg env d user r s))
     = BatchResults.total_users r
  /\ exists entry,
       BatchResults.user_results (snd (batch_body cfg env d user r s))
       = BatchResults.user_results r ++ [entry]
       /\ UserResult.user_email entry = User.email user
       /\ UserResult.success entry = negb (vf || lf).
Proof.
  unfold batch_body, verification_failed, lookup_failed.
  destruct (verify_and_notify cfg env user (Some d) s) as [s1 [[|]|e]]; cbn.
  - pose proof (get_by_date_session (batch_lookup_fault env) (User.id user) d s1)
      as Hs.
    destruct (get_by_date (batch_lookup_fault env) (User.id user) d s1)
      as [s2 [log|e]]; cbn in *.
    + split; [exact Hs|]. destruct (log_passed log); cbn;
        (split; [lia|]; split; [lia|]; split; [reflexivity|]; eexists;
         split; [reflexivity|]; split; reflexivity).
    + split; [exact Hs|]. split; [lia|]. split; [lia|]. split; [reflexivity|].
      eexists. split; [reflexivity|]. split; reflexivity.
  - split; [reflexivity|]. split; [lia|]. split; [lia|]. split; [reflexivity|].
    eexists. split; [reflexivity|]. split; reflexivity.
  - split; [reflexivity|]. split; [lia|]. split; [lia|]. split; [reflexivity|].
    eexists. split; [reflexivity|]. split; reflexivity.
Qed.

Lemma count_unsuccessful_app (l : list UserResult.t) (entry : UserResult.t) :
  count_unsuccessful (l ++ [entry])
  = count_unsuccessful l + (if UserResult.success entry then 0 else 1).
Proof.
  unfold count_unsuccessful, len. rewrite filter_app, length_app. simpl.
  destruct (UserResult.success entry); simpl; lia.
Qed.

(** A user cannot both fail the verification and fail the lookup that
    follows a successful one. *)
Lemma failures_exclusive (cfg : Config) (env : Env) (d : date) (user : User.t)
      (s : Session) :
  verification_failed cfg d env user s = true ->
  lookup_failed cfg d env user s = false.
Proof.
  unfold verification_failed, lookup_failed.
  destruct (verify_and_notify cfg env user (Some d) s) as [s1 [[|]|e]]; cbn;
    [discriminate | reflexivity | reflexivity].
Qed.

Lemma batch_loop_effect (cfg : Config) (envs : User.t -> Env) (d : date)
      (users : list User.t) (r : BatchResults.t) (s : Session) :
  BatchResults.failed (snd (batch_loop cfg envs d users r s))
  = BatchResults.failed r
    + count_users verification_failed cfg envs d users s
    + count_users lookup_failed cfg envs d users s
  /\ BatchResults.successful (snd (batch_loop cfg envs d users r s))
     = BatchResults.successful r + len users
       - count_users verification_failed cfg envs d users s
  /\ BatchResults.total_users (snd (batch_loop cfg envs d users r s))
     = BatchResults.total_users r
  /\ map UserResult.user_email
         (BatchResults.user_results (snd (batch_loop cfg envs d users r s)))
     = map UserResult.user_email (BatchResults.user_results r)
       ++ map User.email users
  /\ count_unsuccessful
       (BatchResults.user_results (snd (batch_loop cfg envs d users r s)))
     = count_unsuccessful (BatchResults.user_results r)
       + count_users verification_failed cfg envs d users s
       + count_users lookup_failed cfg envs d users s.
Proof.
  revert r s. induction users as [|user rest IH]; intros r s.
  - unfold len. simpl. rewrite app_nil_r. repeat split; lia.
  - assert (Hlen : len (user :: rest) = len rest + 1).
    { unfold len. cbn [List.length]. lia. }
    rewrite Hlen. cbn [batch_loop count_users map].
    destruct (batch_body_effect cfg (envs user) d user r s)
      as (Hs & Hf & Hsu & Ht & entry & Hl & He & Hsucc).
    pose proof (@failures_exclusive cfg (envs user) d user s) as Hex.
    destruct (batch_body cfg (envs user) d user r s) as [s1 r1].
    cbn [fst snd] in Hs, Hf, Hsu, Ht, Hl. subst s1.
    destruct (IH r1 (fst (verify_and_notify cfg (envs user) user (Some d) s)))
      as (IH1 & IH2 & IH3 & IH4 & IH5).
    rewrite IH1, IH2, IH3, IH4, IH5, Hf, Hsu, Ht, Hl, map_app,
      count_unsuccessful_app.
    cbn [map]. rewrite He, Hsucc, <- app_assoc. cbn [app].
    destruct (verification_failed cfg d (envs user) user s);
      [rewrite (Hex eq_refl) | destruct (lookup_failed cfg d (envs user) user s)];
      cbn [orb negb]; repeat split; lia.
Qed.




(** The batch returns counters exactly when the query for the active users
    works; when it fails, the call raises and no user is processed. *)
Lemma verify_all_users_call_cases (users_fault : option exn) (cfg : Config)
      (now0 : Z) (envs : User.t -> Env) (target_date : option date)
      (s : Session) :
  verify_all_users_call users_fault cfg now0 envs target_date s
  = match users_fault with
    | Some e => (s, Raise e)
    | None => (fst (verify_all_users cfg now0 envs target_date s),
               Ok (snd (verify_all_users cfg now0 envs target_date s)))
    end.
Proof.
  unfold verify_all_users_call, bind, query_active_users.
  destruct users_fault as [e|]; [reflexivity|].
  destruct (verify_all_users cfg now0 envs target_date s); reflexivity.
Qed.

(** On the sample batch, where no lookup fails, the failed counter is the
    number of users whose verification raised or returned non-success:
    Bob alone. *)
Example sample_batch_counts_bob :
  count_users verification_failed sample_cfg batch_envs jan15
              (get_active_users batch_session) batch_session = 1
  /\ count_users lookup_failed sample_cfg batch_envs jan15
                 (get_active_users batch_session) batch_session = 0
  /\ BatchResults.failed (snd sample_batch) = 1.
Proof. repeat apply conj; vm_compute; reflexivity. Qed.

(** On the sample batch Bob's verification raises; Alice before him and Dave
    after him are verified all the same, and exactly one failure is counted. *)
Example batch_survives_an_exception :
  map UserResult.user_email (BatchResults.user_results (snd sample_batch))
  = ["alice@example.com"; "bob@example.com"; "dave@example.com"]
  /\ map UserResult.success (BatchResults.user_results (snd sample_batch))
     = [true; false; true]
  /\ BatchResults.failed (snd sample_batch) = 1
  /\ BatchResults.successful (snd sample_batch) = 2
  /\ snd (verify_and_notify sample_cfg broken_db_env bob (Some jan15)
            (fst (verify_and_notify sample_cfg (batch_envs alice) alice
                    (Some jan15) batch_session)))
     = Raise (OperationalError "connection already closed").
Proof. repeat apply conj; vm_compute; reflexivity. Qed.

(** ** C8: the window of the activity queries *)

Lemma for_each_repo_all {A} (P : A -> Prop)
      (body : Repository.t -> list A -> list A * option exn)
      (repos : list Repository.t) (acc l : list A) :
  (forall repo acc, Forall P acc -> Forall P (fst (body repo acc))) ->
  Forall P acc ->
  for_each_repo body repos acc = Ok l ->
  Forall P l.
Proof.
  intros Hbody. revert acc.
  induction repos as [|repo rest IH]; intros acc Hacc H; simpl in H.
  - injection H as <-. exact Hacc.
  - pose proof (Hbody repo acc Hacc) as Hstep.
    destruct (body repo acc) as [acc' [e|]]; simpl in Hstep.
    + destruct (is_GithubException e); [eauto | discriminate].
    + eauto.
Qed.

Lemma scan_pulls_on (d : date) (u : string) (start_dt : datetime)
      (repo : Repository.t) (prs : list PullRequest.t) (tail : option exn)
      (acc : list PRData.t) :
  Forall (pr_on d) acc ->
  Forall (pr_on d) (fst (scan_pulls d u start_dt repo prs tail acc)).
Proof.
  revert acc. induction prs as [|pr rest IH]; intros acc Hacc; simpl.
  - exact Hacc.
  - assert (Hnext : Forall (pr_on d)
              (if String.eqb (PullRequest.user_login pr) u
                  && ((date_of (PullRequest.created_at pr) =? d)
                      || (date_of (PullRequest.updated_at pr) =? d))
               then acc ++ [pr_data repo pr] else acc)).
    { destruct (String.eqb _ _); simpl; [|exact Hacc].
      destruct (date_of (PullRequest.created_at pr) =? d) eqn:Hc; simpl.
      - apply Forall_app. split; [exact Hacc|]. constructor; [|constructor].
        left. simpl. now apply Z.eqb_eq.
      - destruct (date_of (PullRequest.updated_at pr) =? d) eqn:Hu;
          [|exact Hacc].
        apply Forall_app. split; [exact Hacc|]. constructor; [|constructor].
        right. simpl. now apply Z.eqb_eq. }
    destruct (datetime_ltb _ _); [exact Hnext | apply IH, Hnext].
Qed.

Lemma pulls_of_states_on (d : date) (u : string) (start_dt : datetime)
      (states : list string) (repo : Repository.t) (acc : list PRData.t) :
  Forall (pr_on d) acc ->
  Forall (pr_on d) (fst (pulls_of_states d u start_dt states repo acc)).
Proof.
  revert acc. induction states as [|st rest IH]; intros acc Hacc; simpl.
  - exact Hacc.
  - pose proof (scan_pulls_on u start_dt repo
                  (items (Repository.get_pulls repo st))
                  (failure (Repository.get_pulls repo st)) Hacc) as Hs.
    destruct (scan_pulls _ _ _ _ _ _ acc) as [found [e|]]; simpl in *.
    + exact Hs.
    + apply IH, Hs.
Qed.

Lemma scan_issues_on (d : date) (start_dt : datetime)
      (repo : Repository.t) (issues : list Issue.t) (tail : option exn)
      (acc : list IssueData.t) :
  Forall (issue_on d) acc ->
  Forall (issue_on d) (fst (scan_issues d start_dt repo issues tail acc)).
Proof.
  revert acc. induction issues as [|issue rest IH]; intros acc Hacc; simpl.
  - exact Hacc.
  - destruct (Issue.pull_request issue); [apply IH, Hacc|].
    assert (Hnext : Forall (issue_on d)
              (if (date_of (Issue.created_at issue) =? d)
                  || (date_of (Issue.updated_at issue) =? d)
               then acc ++ [issue_data repo issue] else acc)).
    { destruct (date_of (Issue.created_at issue) =? d) eqn:Hc; simpl.
      - apply Forall_app. split; [exact Hacc|]. constructor; [|constructor].
        left. simpl. now apply Z.eqb_eq.
      - destruct (date_of (Issue.updated_at issue) =? d) eqn:Hu;
          [|exact Hacc].
        apply Forall_app. split; [exact Hacc|]. constructor; [|constructor].
        right. simpl. now apply Z.eqb_eq. }
    destruct (datetime_ltb _ _); [exact Hnext | apply IH, Hnext].
Qed.

Lemma issues_of_states_on (d : date) (u : string) (start_dt : datetime)
      (states : list string) (repo : Repository.t) (acc : list IssueData.t) :
  Forall (issue_on d) acc ->
  Forall (issue_on d) (fst (issues_of_states d u start_dt states repo acc)).
Proof.
  revert acc. induction states as [|st rest IH]; intros acc Hacc; simpl.
  - exact Hacc.
  - pose proof (scan_issues_on start_dt repo
                  (items (Repository.get_issues repo st u))
                  (failure (Repository.get_issues repo st u)) Hacc) as Hs.
    destruct (scan_issues _ _ _ _ _ acc) as [found [e|]]; simpl in *.
    + exact Hs.
    + apply IH, Hs.
Qed.

Lemma start_of_day_is_server_day (cfg : Config) (now0 : Z) (d : date) :
  get_start_of_day cfg now0 (Some d) None = fst (day_window (server_zone cfg) d)
  /\ get_end_of_day cfg now0 (Some d) None = snd (day_window (server_zone cfg) d).
Proof. split; reflexivity. Qed.

(** C8 (as the code has it).  For every target date the window given to
    the commit queries is the start and the end of that civil date in the
    zone of the server's settings (UTC when that name is unknown).  The
    queries for pull requests and issues are given no window.  What they
    return is, repository by repository, what the open listing and then,
    unless the open listing failed, the closed listing contribute: of the
    items read before the scan stopped (it stops after the first item last
    updated before the start of the server's day), those by the user, for
    issues those that are not pull requests, whose calendar date of
    creation or of last update, as GitHub reports it, is the target date;
    a fetch error other than a GitHub API error is raised instead.  So
    every pull request and issue kept is dated on the target date.  The
    user's own [time_zone] plays no part: a run gives the same outcome
    whatever it is. *)
Theorem activity_window_is_server_day
        (cfg : Config) (now0 : Z) (gh : GitHubClient) (call : nat) (d : date)
        (username : option string) (u : string) (repos : list Repository.t) :
  resolve_username gh username = Ok u ->
  get_user_repos gh call = Ok repos ->
  get_commits_for_date cfg now0 gh call d username
  = for_each_repo (commits_of_repo u (fst (day_window (server_zone cfg) d))
                                     (snd (day_window (server_zone cfg) d)))
                  repos []
  /\ get_pull_requests_for_date cfg now0 gh call d username
     = match first_uncaught (map (repo_pulls_failure cfg d) repos) with
       | Some e => Raise e
       | None => Ok (flat_map (repo_pulls cfg d u) repos)
       end
  /\ get_issues_for_date cfg now0 gh call d username
     = match first_uncaught (map (repo_issues_failure cfg d u) repos) with
       | Some e => Raise e
       | None => Ok (flat_map (repo_issues cfg d u) repos)
       end
  /\ (forall prs,
        get_pull_requests_for_date cfg now0 gh call d username = Ok prs ->
        Forall (pr_on d) prs)
  /\ (forall issues,
        get_issues_for_date cfg now0 gh call d username = Ok issues ->
        Forall (issue_on d) issues)
  /\ (forall env user tz m s,
        verify_user_day cfg env (with_time_zone tz user) (Some d) m s
        = verify_user_day cfg env user (Some d) m s).
Proof.
  intros Hu Hr. split; [|split; [|split; [|split; [|split]]]].
  - unfold get_commits_for_date. rewrite Hu, Hr. reflexivity.
  - exact (get_pull_requests_for_date_run cfg now0 gh call d username Hu Hr).
  - exact (get_issues_for_date_run cfg now0 gh call d username Hu Hr).
  - intros prs H. unfold get_pull_requests_for_date in H. rewrite Hu, Hr in H.
    eapply for_each_repo_all; [|constructor|exact H].
    intros repo acc Hacc. now apply pulls_of_states_on.
  - intros issues H. unfold get_issues_for_date in H. rewrite Hu, Hr in H.
    eapply for_each_repo_all; [|constructor|exact H].
    intros repo acc Hacc. now apply issues_of_states_on.
  - reflexivity.
Qed.

Lemma activity_window_is_server_day_witness :
  get_commits_for_date sample_cfg jan15_evening busy_client 0
                       jan15 (Some "alice")
  = for_each_repo
      (commits_of_repo "alice"
         (fst (day_window (server_zone sample_cfg) jan15))
         (snd (day_window (server_zone sample_cfg) jan15)))
      [probe_repo; steady_repo] []
  /\ get_pull_requests_for_date sample_cfg jan15_evening busy_client 0
                                jan15 (Some "alice")
     = Ok (flat_map (repo_pulls sample_cfg jan15 "alice")
                    [probe_repo; steady_repo])
  /\ get_issues_for_date sample_cfg jan15_evening busy_client 0
                         jan15 (Some "alice")
     = Ok (flat_map (repo_issues sample_cfg jan15 "alice")
                    [probe_repo; steady_repo])
  /\ (forall prs,
        get_pull_requests_for_date sample_cfg jan15_evening
          busy_client 0 jan15 (Some "alice") = Ok prs ->
        Forall (pr_on jan15) prs)
  /\ (forall issues,
        get_issues_for_date sample_cfg jan15_evening
          busy_client 0 jan15 (Some "alice") = Ok issues ->
        Forall (issue_on jan15) issues)
  /\ (forall env user tz m s,
        verify_user_day sample_cfg env (with_time_zone tz user) (Some jan15) m s
        = verify_user_day sample_cfg env user (Some jan15) m s).
Proof.
  exact (@activity_window_is_server_day
           sample_cfg jan15_evening busy_client 0 jan15
           (Some "alice") "alice" [probe_repo; steady_repo] eq_refl eq_refl).
Defined.

(** On the sample data: of the open pull requests 3 and 2 are of the day
    and 1, of the day before, stops the scan; the closed pull request 10
    was updated on the day; issue 11 is of the day, 12 is a pull request,
    and 13, older, stops the scan. *)
Example pulls_and_issues_of_the_day :
  option_map (map PRData.number)
    (match get_pull_requests_for_date sample_cfg jan15_evening busy_client 0
             jan15 (Some "alice") with
     | Ok l => Some l | Raise _ => None end) = Some [3; 2; 10]
  /\ option_map (map IssueData.number)
       (match get_issues_for_date sample_cfg jan15_evening busy_client 0
                jan15 (Some "alice") with
        | Ok l => Some l | Raise _ => None end) = Some [11].
Proof. apply conj; vm_compute; reflexivity. Qed.

(** The claim as worded fails: with the server on UTC and Alice in Tokyo,
    the commit query of her run is bounded from the start of the UTC day,
    nine hours after her own day began. *)
Lemma commit_window_is_not_user_day :
  probed_since (snd probe_run)
  = [fst (day_window (server_zone sample_cfg) jan15)]
  /\ probed_since (snd probe_run)
     <> [fst (day_window (user_zone sample_cfg alice) jan15)]
  /\ instant (fst (day_window (server_zone sample_cfg) jan15))
     = instant (fst (day_window (user_zone sample_cfg alice) jan15)) + 9 * HOUR.
Proof.
  assert (H : probed_since (snd probe_run)
              = [fst (day_window (server_zone sample_cfg) jan15)])
    by (vm_compute; reflexivity).
  split; [exact H|]. split; [|vm_compute; reflexivity].
  rewrite H. vm_compute. discriminate.
Qed.

(** ** Reply ingestion: C9, C3, C10 *)

Lemma get_by_email_unknown (s : Session) (sender : string) :
  (forall user, In user (users s) -> User.email user <> sender) ->
  get_by_email s sender = None.
Proof.
  unfold get_by_email. intros H.
  induction (users s) as [|user rest IH]; simpl; [reflexivity|].
  destruct (String.eqb (User.email user) sender) eqn:He.
  - apply String.eqb_eq in He. exfalso. exact (H user (or_introl eq_refl) He).
  - apply IH. intros u Hu. apply H. now right.
Qed.

(** The lookup by email does not look at the active flag. *)
Lemma get_by_email_ignores_is_active (s : Session) (sender : string) (user : User.t) :
  get_by_email s sender = Some user ->
  In user (users s) /\ User.email user = sender.
Proof.
  unfold get_by_email. intros H. apply find_some in H as [Hin He].
  split; [exact Hin | now apply String.eqb_eq].
Qed.

(** The checks at the top of the handler, for a payload that has a sender
    address, a well-formed recipient list and a body. *)
Lemma handler_reaches_lookup (cfg : Config) (env : ReplyEnv)
      (payload : Payload.t) (s : Session) (sender : string) :
  sender_address payload = Some sender ->
  str_truthy sender = true ->
  recipients_well_formed payload = true ->
  py_truthy (reply_body payload) = true ->
  handle_email_reply_try cfg env payload s
  = (user <- query_by_email env sender ;;
     match user with
     | None =>
         raise (HTTPException 404 ("User not found: " ++ sender)%string)
     | Some user =>
         tz <- lift (User.getattr_str user "timezone") ;;
         let today := get_current_date cfg (arrival env) (Some tz) in
         match reply_body payload with
         | PyStr body => store_reply env user today body
         | _ =>
             get_or_create (reply_create_env env) (User.id user) today ;;;
             raise (no_attribute (reply_body payload) "strip")
         end
     end) s.
Proof.
  intros Hf Hs Ht Hb.
  destruct payload as [ | | | | | |items]; try discriminate.
  unfold sender_address in Hf. unfold recipients_well_formed in Ht.
  unfold reply_body, part_of in *.
  destruct (dict_lookup "from" items) as [[ | | | | | |from]|] eqn:Hfrom;
    try discriminate.
  destruct (dict_lookup "email" from) as [[ | | | |address| | ]|] eqn:Hemail;
    try discriminate.
  injection Hf as ->.
  unfold handle_email_reply_try, py_keys, py_get.
  unfold bind at 1, lift at 1. unfold bind at 1, lift at 1. rewrite Hfrom.
  unfold bind at 1, lift at 1. rewrite Hemail.
  unfold bind at 1, lift at 1.
  assert (Hto : exists to_0_email,
             match py_first (match dict_lookup "to" items with
                             | Some x => x
                             | None => PyList [PyDict []]
                             end) with
             | Ok (PyDict to_0) =>
                 Ok (match dict_lookup "email" to_0 with
                     | Some x => x
                     | None => PyNone
                     end)
             | Ok v => Raise (no_attribute v "get")
             | Raise e => Raise e
             end = Ok to_0_email).
  { destruct (dict_lookup "to" items) as [[ | | | | |[|[ | | | | | |to_0] l]| ]|];
      try discriminate; cbn; eauto. }
  destruct Hto as (to_0_email & Hto).
  destruct (py_first _) as [[ | | | | | |to_0]|e]; try discriminate.
  unfold bind at 1, lift at 1. unfold bind at 1, lift at 1.
  unfold bind at 1, lift at 1. unfold bind at 1, lift at 1.
  unfold bind at 1, lift at 1.
  change (py_truthy (PyStr sender)) with (str_truthy sender).
  rewrite Hs, Hb. reflexivity.
Qed.

(** C9 (as the code has it).  Take an inbound reply whose payload is an
    object with a sender object that holds a non-empty address string, with
    a recipient list that is absent or begins with an object, and with a
    body that is not empty.  The sender address is looked up among all
    users, active or not.  When that lookup does not fail and no user has
    the address, ingestion rejects with the explicit user-not-found error,
    and the session is returned as it was: no Daily Record is created or
    modified. *)
Theorem unknown_sender_is_rejected
        (cfg : Config) (env : ReplyEnv) (payload : Payload.t) (s : Session)
        (sender : string) :
  sender_address payload = Some sender ->
  str_truthy sender = true ->
  recipients_well_formed payload = true ->
  py_truthy (reply_body payload) = true ->
  sender_lookup_fault env = None ->
  (forall user, In user (users s) -> User.email user <> sender) ->
  handle_email_reply cfg env payload s
  = (s, Raise (HTTPException 404 ("User not found: " ++ sender)%string)).
Proof.
  intros Hf Hs Ht Hb Hl Hu. unfold handle_email_reply, try_except.
  rewrite (handler_reaches_lookup cfg env _ s Hf Hs Ht Hb).
  unfold bind, query_by_email. rewrite Hl.
  rewrite (@get_by_email_unknown _ _ Hu). reflexivity.
Qed.

Lemma unknown_sender_is_rejected_witness :
  handle_email_reply sample_cfg reply_env
    (reply_from "mallory@example.com" "done") sample_session
  = (sample_session,
     Raise (HTTPException 404 ("User not found: " ++ "mallory@example.com")%string)).
Proof.
  apply (@unknown_sender_is_rejected sample_cfg reply_env
           (reply_from "mallory@example.com" "done") sample_session
           "mallory@example.com").
  - reflexivity.
  - reflexivity.
  - reflexivity.
  - reflexivity.
  - reflexivity.
  - intros user [<-|[<-|[<-|[]]]]; discriminate.
Defined.

(** Outside those conditions the answer is another: a recipient list that
    is null or empty, or a sender that is null, ends in a 500 also when no
    user has the address. *)
Example malformed_payloads_are_500 :
  snd (handle_email_reply sample_cfg reply_env
         (PyDict [("from", PyDict [("email", PyStr "mallory@example.com")]);
                  ("to", PyNone); ("text", PyStr "done")]) sample_session)
  = Raise (HTTPException 500
             "Internal server error: 'NoneType' object is not subscriptable")
  /\ snd (handle_email_reply sample_cfg reply_env
            (PyDict [("from", PyDict [("email", PyStr "mallory@example.com")]);
                     ("to", PyList []); ("text", PyStr "done")]) sample_session)
     = Raise (HTTPException 500
                "Internal server error: list index out of range")
  /\ snd (handle_email_reply sample_cfg reply_env
            (PyDict [("from", PyNone); ("text", PyStr "done")]) sample_session)
     = Raise (HTTPException 500
                "Internal server error: 'NoneType' object has no attribute 'get'")
  /\ snd (handle_email_reply sample_cfg reply_env
            (PyDict [("text", PyStr "done")]) sample_session)
     = Raise (HTTPException 400
                "Invalid email data: missing from_email or content").
Proof. repeat apply conj; vm_compute; reflexivity. Qed.

(** The claim as worded fails: Carol is not active, yet a reply from her
    address is not answered with user-not-found; the lookup finds her. *)
Lemma inactive_sender_is_not_user_not_found :
  User.is_active carol = false
  /\ ~ In carol (get_active_users sample_session)
  /\ get_by_email sample_session "carol@example.com" = Some carol
  /\ snd (handle_email_reply sample_cfg reply_env
            (reply_from "carol@example.com" "done") sample_session)
     = Raise timezone_attribute_500
  /\ forall detail,
       snd (handle_email_reply sample_cfg reply_env
              (reply_from "carol@example.com" "done") sample_session)
       <> Raise (HTTPException 404 detail).
Proof.
  assert (H : snd (handle_email_reply sample_cfg reply_env
                     (reply_from "carol@example.com" "done") sample_session)
              = Raise timezone_attribute_500) by (vm_compute; reflexivity).
  split; [reflexivity|]. split.
  { simpl. intros [E|[E|[]]]; discriminate. }
  split; [reflexivity|]. split; [exact H|].
  intros detail. rewrite H. discriminate.
Qed.

(** Every reply with a sender the lookup finds stops at the read of
    [user.timezone]: the mapped class has [time_zone], so the read raises,
    the handler answers 500, and nothing is stored. *)
Lemma known_sender_reply_fails (cfg : Config) (env : ReplyEnv)
      (payload : Payload.t) (s : Session) (sender : string) (user : User.t) :
  sender_address payload = Some sender ->
  str_truthy sender = true ->
  recipients_well_formed payload = true ->
  py_truthy (reply_body payload) = true ->
  sender_lookup_fault env = None ->
  get_by_email s sender = Some user ->
  handle_email_reply cfg env payload s = (s, Raise timezone_attribute_500).
Proof.
  intros Hf Hs Ht Hb Hl Hu. unfold handle_email_reply, try_except.
  rewrite (handler_reaches_lookup cfg env _ s Hf Hs Ht Hb).
  unfold bind at 1, query_by_email. rewrite Hl, Hu.
  reflexivity.
Qed.

(** C3 (the code at the failing input).  Alice is a known sender and her
    reply has a body; it arrives when her local date is 2024-01-16.  The
    handler does not file it under that date, nor under any: it answers 500
    and the session is as before. *)
Lemma reply_from_known_sender_is_not_filed :
  alice_today = jan15 + 1
  /\ handle_email_reply sample_cfg reply_env
       (reply_from "alice@example.com" "Fixed the login bug") sample_session
     = (sample_session, Raise timezone_attribute_500)
  /\ record_of sample_session (User.id alice) alice_today = None.
Proof.
  split; [vm_compute; reflexivity|]. split; [|reflexivity].
  apply known_sender_reply_fails
    with (sender := "alice@example.com") (user := alice); reflexivity.
Qed.

(** C10 (the code at the failing input).  A body of three spaces passes the
    emptiness check, which a body of no characters does not; but the reply
    is then lost at the read of [user.timezone] like any other, and the
    stripped body is not stored. *)
Lemma whitespace_reply_is_not_stored :
  str_truthy "   " = true
  /\ strip "   " = ""
  /\ handle_email_reply sample_cfg reply_env
       (reply_from "alice@example.com" "   ") sample_session
     = (sample_session, Raise timezone_attribute_500)
  /\ handle_email_reply sample_cfg reply_env
       (reply_from "alice@example.com" "") sample_session
     = (sample_session,
        Raise (HTTPException 400
                 "Invalid email data: missing from_email or content")).
Proof.
  split; [reflexivity|]. split; [reflexivity|]. split; [|reflexivity].
  apply known_sender_reply_fails
    with (sender := "alice@example.com") (user := alice); reflexivity.
Qed.

(** *** What the handler does past the date, had the date been resolved *)

Lemma get_or_create_ok (ce : CreateEnv) (uid : Z) (d : date)
      (s s0 : Session) (log0 : DailyLog.t) :
  clean s ->
  get_or_create ce uid d s = (s0, Ok log0) ->
  clean s0 /\ record_of s0 uid d = Some log0.
Proof.
  intros Hc Hg.
  destruct (@get_or_create_cases _ _ _ _ _ _ Hc Hg)
    as [(e & _ & _ & He) | [(row & Hr & -> & [= ->])
       | [(Hr & Hc0 & _ & Hrows & [= ->]) | (_ & _ & _ & _ & e & He)]]];
    try discriminate.
  - auto.
  - split; [exact Hc0|]. unfold record_of in *. rewrite Hrows.
    now apply find_fresh_row.
Qed.

(** [store_reply] files the reply under the date it is given: when it
    succeeds, the record of that date holds the stripped body and the
    arrival time. *)
Lemma store_reply_files_under_date (env : ReplyEnv) (user : User.t)
      (today : date) (body : string) (s s' : Session) (resp : ReplyResponse.t) :
  clean s ->
  store_reply env user today body s = (s', Ok resp) ->
  ReplyResponse.log_date resp = today
  /\ exists row,
       record_of s' (User.id user) today = Some row
       /\ DailyLog.user_response row = Some (strip body)
       /\ DailyLog.user_responded_at row = Some (utc_datetime (arrival env)).
Proof.
  intros Hc H. unfold store_reply in H. unfold bind at 1 in H.
  destruct (get_or_create (reply_create_env env) (User.id user) today s)
    as [s0 [log0|e]] eqn:Hg; [|discriminate].
  destruct (@get_or_create_ok _ _ _ _ _ _ Hc Hg) as [[Hp0 Hd0] Hrec0].
  unfold bind, assign, commit, refresh, ret in H. cbn in H.
  rewrite Hd0, Hp0 in H. cbn in H. unfold same_id in H. cbn in H.
  rewrite !Z.eqb_refl in H. cbn in H.
  destruct (reply_commit_fault env) as [e|]; [discriminate|]. cbn in H.
  destruct (find_some _ _ Hrec0) as [_ Hkey0].
  destruct (same_key_eq _ _ _ Hkey0) as [Hku Hkd].
  set (obj := set_user_responded_at (Some (utc_datetime (arrival env)))
                (set_user_response (Some (strip body)) log0)) in *.
  assert (Hfind : find (same_key (User.id user) today)
                       (update_all [obj] (daily_logs s0)) = Some obj).
  { apply find_update_all with (log0 := log0);
      [exact Hrec0 | exact Hkey0 | reflexivity]. }
  destruct (reply_refresh_fault env) as [e|]; [discriminate|].
  rewrite Hku, Hkd, Hfind in H. injection H as <- <-. cbn.
  split; [reflexivity|]. exists obj. unfold record_of. cbn.
  split; [exact Hfind|]. split; reflexivity.
Qed.

(** On the sample data: given Alice's local date, the late reply lands on
    2024-01-16, and a body of spaces is stored as the empty string. *)
Example store_reply_on_arrival_date :
  option_map ReplyResponse.log_date
    (match snd (store_reply reply_env alice alice_today "   " sample_session) with
     | Ok r => Some r | Raise _ => None end) = Some (jan15 + 1)
  /\ option_map DailyLog.user_response
       (record_of (fst (store_reply reply_env alice alice_today "   "
                          sample_session)) (User.id alice) (jan15 + 1))
     = Some (Some "").
Proof. apply conj; vm_compute; reflexivity. Qed.

(** The emptiness check reads the raw body: for a payload with a sender
    address and a well-formed recipient list, the handler answers 400
    exactly when the address or the raw body is empty. *)
Lemma rejected_as_empty_iff (cfg : Config) (env : ReplyEnv)
      (payload : Payload.t) (s : Session) (sender : string) :
  sender_address payload = Some sender ->
  recipients_well_formed payload = true ->
  (sender = "" \/ py_truthy (reply_body payload) = false)
  <-> snd (handle_email_reply cfg env payload s)
      = Raise (HTTPException 400
                 "Invalid email data: missing from_email or content").
Proof.
  intros Hf Ht.
  destruct (str_truthy sender) eqn:Hs.
  - destruct (py_truthy (reply_body payload)) eqn:Hb.
    + unfold handle_email_reply, try_except.
      rewrite (handler_reaches_lookup cfg env _ s Hf Hs Ht Hb).
      unfold bind at 1, query_by_email.
      split.
      * intros [->|H]; discriminate.
      * destruct (sender_lookup_fault env); [discriminate|].
        destruct (get_by_email s sender); discriminate.
    + split; [intros _ | auto].
      destruct payload as [ | | | | | |items]; try discriminate.
      unfold sender_address in Hf. unfold recipients_well_formed in Ht.
      unfold reply_body, part_of in Hb.
      destruct (dict_lookup "from" items) as [[ | | | | | |from]|] eqn:Hfrom;
        try discriminate.
      destruct (dict_lookup "email" from) as [[ | | | |address| | ]|] eqn:Hemail;
        try discriminate.
      unfold handle_email_reply, try_except, handle_email_reply_try,
        py_keys, py_get, bind, lift.
      rewrite Hfrom, Hemail.
      destruct (dict_lookup "to" items) as [[ | | | | |[|[ | | | | | |to_0] l]| ]|];
        try discriminate; cbn [py_first]; rewrite Hb, orb_true_r; reflexivity.
  - assert (sender = "") as -> by (destruct sender; [reflexivity|discriminate]).
    split; [intros _ | auto].
    destruct payload as [ | | | | | |items]; try discriminate.
    unfold sender_address in Hf. unfold recipients_well_formed in Ht.
    destruct (dict_lookup "from" items) as [[ | | | | | |from]|] eqn:Hfrom;
      try discriminate.
    destruct (dict_lookup "email" from) as [[ | | | |address| | ]|] eqn:Hemail;
      try discriminate.
    injection Hf as ->.
    unfold handle_email_reply, try_except, handle_email_reply_try,
      py_keys, py_get, bind, lift.
    rewrite Hfrom, Hemail.
    destruct (dict_lookup "to" items) as [[ | | | | |[|[ | | | | | |to_0] l]| ]|];
      try discriminate; reflexivity.
Qed.

(** * Further properties of the modelled code *)

(** ** The constraints of [daily_logs] *)

Lemma NoDup_snoc {A} (l : list A) (x : A) :
  NoDup l -> ~ In x l -> NoDup (l ++ [x]).
Proof.
  induction l as [|y l IH]; simpl; intros Hnd Hx.
  - constructor; [tauto | constructor].
  - inversion Hnd as [|? ? Hy Hl]; subst. constructor.
    + intros Hin. apply in_app_or in Hin as [Hin|[->|[]]]; tauto.
    + apply IH; tauto.
Qed.

Lemma find_none_not_in_keys (uid : Z) (d : date) (rows : list DailyLog.t) :
  find (same_key uid d) rows = None -> ~ In (uid, d) (map key_of rows).
Proof.
  induction rows as [|r rows IH]; simpl; [tauto|].
  destruct (same_key uid d r) eqn:Hk; [discriminate|].
  intros Hn [He|Hin]; [|exact (IH Hn Hin)].
  unfold key_of in He. injection He as H1 H2.
  unfold same_key in Hk. rewrite H1, H2, !Z.eqb_refl in Hk. discriminate.
Qed.

Lemma well_keyed_add_fresh (s s' : Session) (uid : Z) (d : date) :
  well_keyed s ->
  record_of s uid d = None ->
  daily_logs s' = daily_logs s ++ [fresh_row s uid d] ->
  next_log_id s' = next_log_id s + 1 ->
  well_keyed s'.
Proof.
  intros (Hid & Hkey & Hlt) Hn Hrows Hnext. unfold well_keyed.
  rewrite Hrows, Hnext, !map_app. simpl.
  split; [|split].
  - apply NoDup_snoc; [exact Hid|]. intros Hin.
    apply in_map_iff in Hin as (r & Hr & Hin).
    pose proof (proj1 (Forall_forall _ _) Hlt r Hin) as Hlt'. simpl in Hlt'. lia.
  - apply NoDup_snoc; [exact Hkey|]. now apply find_none_not_in_keys.
  - apply Forall_app. split.
    + eapply Forall_impl; [|exact Hlt]. simpl. intros; lia.
    + constructor; [simpl; lia | constructor].
Qed.

(** How [get_or_create] can change the table: not at all, or by the one
    empty row of the key, numbered by the sequence. *)
Lemma get_or_create_table (ce : CreateEnv) (uid : Z) (d : date)
      (s s' : Session) (out : result DailyLog.t) :
  clean s ->
  get_or_create ce uid d s = (s', out) ->
  (daily_logs s' = daily_logs s /\ next_log_id s' = next_log_id s)
  \/ (record_of s uid d = None
      /\ daily_logs s' = daily_logs s ++ [fresh_row s uid d]
      /\ next_log_id s' = next_log_id s + 1).
Proof.
  intros [Hp Hd] H. unfold get_or_create, bind in H.
  destruct (lookup_fault ce) as [e|] eqn:Hl.
  { simpl in H. injection H as <- <-. left. auto. }
  rewrite query_first_clean in H by assumption.
  destruct (record_of s uid d) as [row|] eqn:Hrec.
  { injection H as <- <-. left. auto. }
  unfold record_of in Hrec.
  unfold db_add, other_caller_creates, commit, refresh, ret in H.
  rewrite Hp, Hd in H. cbn in H.
  pose proof (find_none_existsb _ _ Hrec) as Hex.
  destruct (concurrent_create ce).
  - right. cbn in H. rewrite Hex in H. cbn in H.
    destruct (insert_fault ce) as [e|].
    + injection H as <- <-. simpl. auto.
    + cbn in H. rewrite update_all_nil in H. cbn in H.
      rewrite existsb_app in H. cbn in H.
      rewrite (same_key_fresh uid d (next_log_id s)) in H.
      rewrite orb_true_r in H. injection H as <- <-. simpl. auto.
  - cbn in H. destruct (insert_fault ce) as [e|].
    + left. injection H as <- <-. simpl. auto.
    + right. cbn in H. rewrite update_all_nil, Hex in H. cbn in H.
      destruct (insert_refresh_fault ce) as [e|].
      * injection H as <- <-. simpl. auto.
      * rewrite (find_app_last _ _ _ Hrec (same_key_fresh uid d (next_log_id s))) in H.
        injection H as <- <-. simpl. auto.
Qed.

Lemma get_or_create_well_keyed
      (ce : CreateEnv) (uid : Z) (d : date)
      (s s' : Session) (out : result DailyLog.t) :
  clean s ->
  well_keyed s ->
  get_or_create ce uid d s = (s', out) ->
  well_keyed s'.
Proof.
  intros Hc Hw H.
  destruct (@get_or_create_table _ _ _ _ _ _ Hc H) as [[Hr Hn]|(Hnone & Hr & Hn)].
  - unfold well_keyed in *. rewrite Hr, Hn. exact Hw.
  - eapply well_keyed_add_fresh; eassumption.
Qed.

(** X1.  At most one Daily Record exists per user and date, whatever happens to
    a call of [get_or_create]: a database error, a caller racing for the
    same key, or success.  When the call returns a record, it is the record
    of that key in the table, and a further call whose lookup works returns
    the same record and leaves the session alone. *)
Theorem get_or_create_keeps_constraints
        (ce ce2 : CreateEnv) (uid : Z) (d : date)
        (s s' : Session) (out : result DailyLog.t) :
  clean s ->
  well_keyed s ->
  get_or_create ce uid d s = (s', out) ->
  well_keyed s'
  /\ forall log,
       out = Ok log ->
       record_of s' uid d = Some log
       /\ (lookup_fault ce2 = None ->
           get_or_create ce2 uid d s' = (s', Ok log)).
Proof.
  intros Hc Hw H. split; [exact (@get_or_create_well_keyed _ _ _ _ _ _ Hc Hw H)|].
  intros log ->.
  destruct (@get_or_create_ok _ _ _ _ _ _ Hc H) as [[Hp Hd] Hrec].
  split; [exact Hrec|]. intros Hl.
  unfold get_or_create, bind. rewrite Hl, (query_first_clean _ _ _ Hd), Hrec.
  reflexivity.
Qed.

Lemma get_or_create_keeps_constraints_witness :
  well_keyed (fst (get_or_create quiet_db (User.id alice) jan15 sample_session))
  /\ forall log,
       snd (get_or_create quiet_db (User.id alice) jan15 sample_session) = Ok log ->
       record_of (fst (get_or_create quiet_db (User.id alice) jan15 sample_session))
                 (User.id alice) jan15 = Some log
       /\ (lookup_fault quiet_db = None ->
           get_or_create quiet_db (User.id alice) jan15
             (fst (get_or_create quiet_db (User.id alice) jan15 sample_session))
           = (fst (get_or_create quiet_db (User.id alice) jan15 sample_session),
              Ok log)).
Proof.
  apply (@get_or_create_keeps_constraints quiet_db quiet_db (User.id alice) jan15
           sample_session).
  - split; reflexivity.
  - repeat split; simpl; constructor.
  - vm_compute. reflexivity.
Defined.

(** Updating an object by primary key keeps the primary keys of the table,
    and keeps its keys when the object was loaded from it. *)
Lemma update_all_ids (obj : DailyLog.t) (rows : list DailyLog.t) :
  map DailyLog.id (update_all [obj] rows) = map DailyLog.id rows.
Proof.
  unfold update_all. rewrite map_map. apply map_ext. intros r. simpl.
  unfold same_id. destruct (DailyLog.id obj =? DailyLog.id r) eqn:E;
    [apply Z.eqb_eq in E; exact E | reflexivity].
Qed.

Lemma update_all_keys (obj log0 : DailyLog.t) (rows : list DailyLog.t) :
  NoDup (map DailyLog.id rows) ->
  In log0 rows ->
  DailyLog.id obj = DailyLog.id log0 ->
  key_of obj = key_of log0 ->
  map key_of (update_all [obj] rows) = map key_of rows.
Proof.
  intros Hnd Hin Hid Hkey. unfold update_all. rewrite map_map.
  apply map_ext_in. intros r Hr. simpl. unfold same_id.
  destruct (DailyLog.id obj =? DailyLog.id r) eqn:E; [|reflexivity].
  apply Z.eqb_eq in E. rewrite Hkey. f_equal.
  clear Hkey. rewrite Hid in E. clear Hid obj.
  induction rows as [|x rows IH]; [contradiction|].
  simpl in Hnd. inversion Hnd as [|? ? Hx Hrest]; subst.
  destruct Hin as [->|Hin], Hr as [->|Hr]; try reflexivity.
  - exfalso. apply Hx. rewrite E. now apply in_map.
  - exfalso. apply Hx. rewrite <- E. now apply in_map.
  - now apply IH.
Qed.

Lemma well_keyed_update (s s' : Session) (obj log0 : DailyLog.t) :
  well_keyed s ->
  In log0 (daily_logs s) ->
  DailyLog.id obj = DailyLog.id log0 ->
  key_of obj = key_of log0 ->
  daily_logs s' = update_all [obj] (daily_logs s) ->
  next_log_id s' = next_log_id s ->
  well_keyed s'.
Proof.
  intros (Hid & Hkey & Hlt) Hin Ho Hk Hrows Hnext. unfold well_keyed.
  rewrite Hrows, Hnext, update_all_ids,
    (@update_all_keys _ _ _ Hid Hin Ho Hk).
  split; [exact Hid|]. split; [exact Hkey|].
  apply Forall_forall. intros r Hr. apply in_update_all in Hr as [->|Hr].
  - rewrite Ho. exact (proj1 (Forall_forall _ _) Hlt _ Hin).
  - exact (proj1 (Forall_forall _ _) Hlt _ Hr).
Qed.

(** The table after a verification run, relative to the table its
    [get_or_create] left: the same, or with the loaded record rewritten. *)
Lemma verify_user_day_table (cfg : Config) (env : Env) (user : User.t)
      (d : date) (m : Z) (s s0 s' : Session) (r0 : result DailyLog.t)
      (out : result VerifyResult.t) :
  clean s ->
  get_or_create (create_env env) (User.id user) d s = (s0, r0) ->
  verify_user_day cfg env user (Some d) m s = (s', out) ->
  next_log_id s' = next_log_id s0
  /\ (daily_logs s' = daily_logs s0
      \/ exists log0 a,
           r0 = Ok log0
           /\ record_of s0 (User.id user) d = Some log0
           /\ daily_logs s'
              = update_all [verified_log a (now env) m log0] (daily_logs s0)).
Proof.
  intros Hc Hg H. unfold verify_user_day, bind, lift, try_except in H.
  simpl default_target_date in H. cbv iota in H.
  destruct (verify_user_day_try cfg env user d m s) as [s1 r1] eqn:Ht.
  assert (Htry : next_log_id s1 = next_log_id s0
                 /\ (daily_logs s1 = daily_logs s0
                     \/ exists log0 a,
                          r0 = Ok log0
                          /\ record_of s0 (User.id user) d = Some log0
                          /\ daily_logs s1
                             = update_all [verified_log a (now env) m log0]
                                          (daily_logs s0))).
  { unfold verify_user_day_try in Ht. unfold bind at 1 in Ht. rewrite Hg in Ht.
    destruct r0 as [log0|e]; [|injection Ht as <- <-; auto].
    destruct (@get_or_create_ok _ _ _ _ _ _ Hc Hg) as [[Hp0 Hd0] Hrec0].
    unfold bind at 1, lift at 1 in Ht.
    destruct (test_connection _) as [[|]|e];
      [| unfold ret in Ht; simpl in Ht; injection Ht as <- <-; auto
       | injection Ht as <- <-; auto].
    simpl negb in Ht. cbv iota in Ht. unfold bind at 1, lift at 1 in Ht.
    destruct (get_daily_activity _ _ _ _ _) as [a|e];
      [|injection Ht as <- <-; auto].
    unfold bind, assign, commit, refresh, ret in Ht. cbn in Ht.
    rewrite Hd0, Hp0 in Ht. cbn in Ht. unfold same_id in Ht. cbn in Ht.
    rewrite !Z.eqb_refl in Ht. cbn in Ht.
    destruct (update_fault env) as [e|]; [injection Ht as <- <-; cbn; auto|].
    cbn in Ht.
    destruct (update_refresh_fault env) as [e|].
    { injection Ht as <- <-. cbn. split; [reflexivity|].
      right. exists log0, a. auto. }
    match type of Ht with
    | (let (_, _) := match ?f with _ => _ end in _) = _ => destruct f
    end; injection Ht as <- <-; cbn; split; try reflexivity;
      right; exists log0, a; auto. }
  destruct Htry as [Hn Hrows]. destruct r1 as [r|e].
  - injection H as <- <-. auto.
  - unfold rollback, ret in H.
    destruct (rollback_fault env); injection H as <- <-; cbn; auto.
Qed.

(** X2.  A verification run started on a session with nothing unflushed,
    however it ends, keeps the table's constraints: one record per user and
    date, distinct primary keys. *)
Theorem verify_user_day_keeps_constraints
        (cfg : Config) (env : Env) (user : User.t) (d : date) (m : Z)
        (s s' : Session) (out : result VerifyResult.t) :
  clean s ->
  well_keyed s ->
  verify_user_day cfg env user (Some d) m s = (s', out) ->
  well_keyed s'.
Proof.
  intros Hc Hw H.
  destruct (get_or_create (create_env env) (User.id user) d s) as [s0 r0] eqn:Hg.
  pose proof (@get_or_create_well_keyed _ _ _ _ _ _ Hc Hw Hg) as Hw0.
  destruct (@verify_user_day_table _ _ _ _ _ _ _ _ _ _ Hc Hg H)
    as [Hn [Hrows|(log0 & a & _ & Hrec & Hrows)]].
  - unfold well_keyed in *. rewrite Hrows, Hn. exact Hw0.
  - apply find_some in Hrec as [Hin _].
    eapply well_keyed_update; [exact Hw0 | exact Hin | | | exact Hrows | exact Hn];
      reflexivity.
Qed.

Lemma verify_user_day_keeps_constraints_witness :
  well_keyed (fst run_two_commits_after).
Proof.
  apply (@verify_user_day_keeps_constraints
           sample_cfg later_env alice jan15 default_min_commits
           (fst run_one_commit) (fst run_two_commits_after)
           (snd run_two_commits_after)).
  - split; vm_compute; reflexivity.
  - vm_compute. repeat split; repeat constructor; simpl; try tauto; lia.
  - vm_compute. reflexivity.
Defined.

(** ** Verification and reply ingestion on one record *)

Lemma get_or_create_found_or_fresh (ce : CreateEnv) (uid : Z) (d : date)
      (s s0 : Session) (log0 : DailyLog.t) :
  clean s ->
  get_or_create ce uid d s = (s0, Ok log0) ->
  found_or_fresh s uid d log0.
Proof.
  intros Hc Hg.
  destruct (@get_or_create_cases _ _ _ _ _ _ Hc Hg)
    as [(e & _ & _ & He) | [(row & Hr & -> & [= ->])
       | [(Hr & _ & _ & _ & [= ->]) | (_ & _ & _ & _ & e & He)]]];
    try discriminate.
  - now left.
  - right. auto.
Qed.

(** X3.  A verification run started on a session with nothing unflushed
    never touches the columns it does not own: on an existing record the
    check-in time, the reply, the reply time and the summary time are after
    the run what they were before, however the run ends. *)
Theorem verification_leaves_other_fields
        (cfg : Config) (env : Env) (user : User.t) (d : date) (m : Z)
        (s s' : Session) (out : result VerifyResult.t) (row : DailyLog.t) :
  clean s ->
  record_of s (User.id user) d = Some row ->
  verify_user_day cfg env user (Some d) m s = (s', out) ->
  exists row',
    record_of s' (User.id user) d = Some row'
    /\ other_fields row' = other_fields row.
Proof.
  intros Hc Hrow H.
  assert (Hwritten : forall s1, run_committed cfg env user d m s s1 ->
            exists row',
              record_of s1 (User.id user) d = Some row'
              /\ other_fields row' = other_fields row).
  { intros s1 Hcm.
    destruct (@run_committed_record _ _ _ _ _ _ _ Hcm)
      as (log0 & a & _ & Hrec & Hlog0 & _).
    destruct Hlog0 as [Hl|[Hl _]]; [|congruence].
    rewrite Hrow in Hl. injection Hl as <-.
    eexists. split; [exact Hrec|]. reflexivity. }
  destruct (@verify_user_day_run _ _ _ _ _ _ _ _ Hc H)
    as [_ [Hs|[[Hk _]|[Hcm _]]]].
  - apply Hwritten. eapply run_succeeded_committed, Hs.
  - pose proof (@rows_kept_untouched _ _ _ _ Hk) as Hu.
    unfold verification_untouched in Hu. rewrite Hrow in Hu.
    exists row. auto.
  - apply Hwritten, Hcm.
Qed.

Lemma verification_leaves_other_fields_witness :
  exists row',
    record_of (fst run_two_commits_after) (User.id alice) jan15 = Some row'
    /\ other_fields row'
       = other_fields
           (value_or_log (record_of (fst run_one_commit) (User.id alice) jan15)).
Proof.
  apply (@verification_leaves_other_fields
           sample_cfg later_env alice jan15 default_min_commits
           (fst run_one_commit) (fst run_two_commits_after)
           (snd run_two_commits_after)).
  - split; vm_compute; reflexivity.
  - vm_compute. reflexivity.
  - vm_compute. reflexivity.
Defined.

(** The table after [store_reply], relative to the table its
    [get_or_create] left. *)
Lemma store_reply_table (env : ReplyEnv) (user : User.t) (today : date)
      (body : string) (s s0 s' : Session) (r0 : result DailyLog.t)
      (out : result ReplyResponse.t) :
  clean s ->
  get_or_create (reply_create_env env) (User.id user) today s = (s0, r0) ->
  store_reply env user today body s = (s', out) ->
  next_log_id s' = next_log_id s0
  /\ ((daily_logs s' = daily_logs s0 /\ exists e, out = Raise e)
      \/ exists log0,
           r0 = Ok log0
           /\ record_of s0 (User.id user) today = Some log0
           /\ daily_logs s'
              = update_all [replied_log body (arrival env) log0] (daily_logs s0)
           /\ clean s'
           /\ forall e, out = Raise e -> reply_refresh_fault env = Some e).
Proof.
  intros Hc Hg H. unfold store_reply in H. unfold bind at 1 in H.
  rewrite Hg in H.
  destruct r0 as [log0|e]; [|injection H as <- <-; eauto].
  destruct (@get_or_create_ok _ _ _ _ _ _ Hc Hg) as [[Hp0 Hd0] Hrec0].
  unfold bind, assign, commit, refresh, ret in H. cbn in H.
  rewrite Hd0, Hp0 in H. cbn in H. unfold same_id in H. cbn in H.
  rewrite !Z.eqb_refl in H. cbn in H.
  destruct (reply_commit_fault env) as [e|];
    [injection H as <- <-; cbn; eauto|].
  cbn in H.
  destruct (find_some _ _ Hrec0) as [_ Hkey0].
  destruct (same_key_eq _ _ _ Hkey0) as [Hku Hkd].
  assert (Hfind : find (same_key (User.id user) today)
                       (update_all [replied_log body (arrival env) log0]
                                   (daily_logs s0))
                  = Some (replied_log body (arrival env) log0)).
  { apply find_update_all with (log0 := log0);
      [exact Hrec0 | exact Hkey0 | reflexivity]. }
  destruct (reply_refresh_fault env) as [e|].
  { injection H as <- <-. cbn. split; [reflexivity|]. right.
    exists log0. unfold clean. cbn. repeat split; auto.
    intros e' [= ->]. reflexivity. }
  unfold replied_log in Hfind. rewrite Hku, Hkd, Hfind in H.
  injection H as <- <-. cbn. split; [reflexivity|]. right.
  exists log0. unfold clean. cbn. repeat split; auto. discriminate.
Qed.

(** X4.  Storing a reply, from a session with nothing unflushed, never
    touches the columns of the verification: counts, flag, snapshot and
    completion time of an existing record are after the call what they were
    before, and so are the check-in and summary times, however the call
    ends. *)
Theorem reply_leaves_verification_fields
        (env : ReplyEnv) (user : User.t) (today : date) (body : string)
        (s s' : Session) (out : result ReplyResponse.t) (row : DailyLog.t) :
  clean s ->
  record_of s (User.id user) today = Some row ->
  store_reply env user today body s = (s', out) ->
  exists row',
    record_of s' (User.id user) today = Some row'
    /\ verification_fields row' = verification_fields row
    /\ DailyLog.checkin_sent_at row' = DailyLog.checkin_sent_at row
    /\ DailyLog.summary_sent_at row' = DailyLog.summary_sent_at row.
Proof.
  intros Hc Hrow H.
  destruct (get_or_create (reply_create_env env) (User.id user) today s)
    as [s0 r0] eqn:Hg.
  assert (Hs0 : daily_logs s0 = daily_logs s).
  { destruct (@get_or_create_table _ _ _ _ _ _ Hc Hg) as [[Hr _]|(Hn & _)];
      [exact Hr | congruence]. }
  destruct (@store_reply_table _ _ _ _ _ _ _ _ _ Hc Hg H)
    as [_ [[Hrows _]|(log0 & _ & Hrec0 & Hrows & _)]].
  - exists row. unfold record_of in *. rewrite Hrows, Hs0. auto.
  - unfold record_of in Hrec0. rewrite Hs0 in Hrec0.
    unfold record_of in Hrow. rewrite Hrow in Hrec0. injection Hrec0 as <-.
    exists (replied_log body (arrival env) row). unfold record_of.
    rewrite Hrows, Hs0. split; [|repeat split].
    apply find_update_all with (log0 := row); [exact Hrow| |reflexivity].
    now apply (find_some _ _ Hrow).
Qed.

Lemma reply_leaves_verification_fields_witness :
  exists row',
    record_of (fst (store_reply reply_env alice jan15 "  done  "
                      (fst run_one_commit))) (User.id alice) jan15
    = Some row'
    /\ verification_fields row'
       = verification_fields
           (value_or_log (record_of (fst run_one_commit) (User.id alice) jan15))
    /\ DailyLog.checkin_sent_at row'
       = DailyLog.checkin_sent_at
           (value_or_log (record_of (fst run_one_commit) (User.id alice) jan15))
    /\ DailyLog.summary_sent_at row'
       = DailyLog.summary_sent_at
           (value_or_log (record_of (fst run_one_commit) (User.id alice) jan15)).
Proof.
  apply (@reply_leaves_verification_fields
           reply_env alice jan15 "  done  " (fst run_one_commit)
           (fst (store_reply reply_env alice jan15 "  done  " (fst run_one_commit)))
           (snd (store_reply reply_env alice jan15 "  done  " (fst run_one_commit)))).
  - split; vm_compute; reflexivity.
  - vm_compute. reflexivity.
  - vm_compute. reflexivity.
Defined.

Lemma store_reply_record (env : ReplyEnv) (user : User.t) (today : date)
      (body : string) (s s' : Session) (resp : ReplyResponse.t) :
  clean s ->
  store_reply env user today body s = (s', Ok resp) ->
  exists log0,
    found_or_fresh s (User.id user) today log0
    /\ record_of s' (User.id user) today
       = Some (replied_log body (arrival env) log0)
    /\ clean s'.
Proof.
  intros Hc H.
  destruct (get_or_create (reply_create_env env) (User.id user) today s)
    as [s0 r0] eqn:Hg.
  destruct (@store_reply_table _ _ _ _ _ _ _ _ _ Hc Hg H)
    as [_ [[_ (e & He)]|(log0 & -> & Hrec0 & Hrows & Hcl & _)]];
    [discriminate|].
  exists log0. split; [exact (@get_or_create_found_or_fresh _ _ _ _ _ _ Hc Hg)|].
  split; [|exact Hcl]. unfold record_of. rewrite Hrows.
  apply find_update_all with (log0 := log0); [exact Hrec0| |reflexivity].
  now apply (find_some _ _ Hrec0).
Qed.

Lemma verify_user_day_record (cfg : Config) (env : Env) (user : User.t)
      (d : date) (m : Z) (s s' : Session) (r : VerifyResult.t) :
  clean s ->
  verify_user_day cfg env user (Some d) m s = (s', Ok r) ->
  VerifyResult.success r = true ->
  exists log0 a,
    get_daily_activity cfg (now env) (github env (User.github_token user))
                       d (Some (User.github_username user)) = Ok a
    /\ found_or_fresh s (User.id user) d log0
    /\ record_of s' (User.id user) d = Some (verified_log a (now env) m log0)
    /\ clean s'.
Proof.
  intros Hc H Hs.
  pose proof (@success_is_run_succeeded _ _ _ _ _ _ _ _ Hc H Hs) as Hr.
  destruct (@run_succeeded_record _ _ _ _ _ _ _ _ Hr)
    as (log0 & a & Ha & Hrec & Hlog0 & _).
  exists log0, a. split; [exact Ha|]. split; [exact Hlog0|].
  split; [exact Hrec|]. exact (@verify_user_day_clean _ _ _ _ _ _ _ _ Hc H).
Qed.

Lemma found_or_fresh_existing (s : Session) (uid : Z) (d : date)
      (row log0 : DailyLog.t) :
  record_of s uid d = Some row -> found_or_fresh s uid d log0 -> log0 = row.
Proof. intros Hr [H|[H _]]; congruence. Qed.

Lemma found_or_fresh_same (s : Session) (uid : Z) (d : date)
      (log0 log1 : DailyLog.t) :
  found_or_fresh s uid d log0 -> found_or_fresh s uid d log1 -> log0 = log1.
Proof. intros [H|[H ->]] [H'|[H' ->]]; congruence. Qed.

(** X5.  A reply and a verification for the same user and date can arrive in
    either order: starting from a session with nothing unflushed, when both
    succeed, the record ends up the same, with the reply and the
    verification result both on it. *)
Theorem reply_and_verification_commute
        (cfg : Config) (env : Env) (renv : ReplyEnv) (user : User.t)
        (d : date) (m : Z) (body : string)
        (s s1 s2 t1 t2 : Session) (r1 r2 : VerifyResult.t)
        (resp1 resp2 : ReplyResponse.t) :
  clean s ->
  verify_user_day cfg env user (Some d) m s = (s1, Ok r1) ->
  VerifyResult.success r1 = true ->
  store_reply renv user d body s1 = (s2, Ok resp1) ->
  store_reply renv user d body s = (t1, Ok resp2) ->
  verify_user_day cfg env user (Some d) m t1 = (t2, Ok r2) ->
  VerifyResult.success r2 = true ->
  record_of s2 (User.id user) d = record_of t2 (User.id user) d
  /\ exists row,
       record_of s2 (User.id user) d = Some row
       /\ DailyLog.user_response row = Some (strip body)
       /\ DailyLog.verification_passed row = Some (VerifyResult.passed r1).
Proof.
  intros Hc Hv1 Hs1 Hr1 Hr2 Hv2 Hs2.
  destruct (@verify_user_day_record _ _ _ _ _ _ _ _ Hc Hv1 Hs1)
    as (log0 & a & Ha & Hf0 & Hrec1 & Hc1).
  destruct (@store_reply_record _ _ _ _ _ _ _ Hc1 Hr1) as (x & Hfx & Hrec2 & _).
  rewrite (found_or_fresh_existing Hrec1 Hfx) in Hrec2.
  destruct (@store_reply_record _ _ _ _ _ _ _ Hc Hr2) as (log1 & Hf1 & Hrect1 & Hct1).
  destruct (@verify_user_day_record _ _ _ _ _ _ _ _ Hct1 Hv2 Hs2)
    as (y & a' & Ha' & Hfy & Hrect2 & _).
  rewrite (found_or_fresh_existing Hrect1 Hfy) in Hrect2.
  rewrite Ha in Ha'. injection Ha' as <-.
  rewrite (found_or_fresh_same Hf1 Hf0) in Hrect2.
  rewrite Hrec2, Hrect2. split; [reflexivity|].
  eexists. split; [reflexivity|]. split; [reflexivity|].
  destruct (@verify_user_day_success_shape _ _ _ _ _ _ _ _ Hv1 Hs1)
    as (d0 & a0 & [= <-] & Ha0 & Hp & _).
  assert (a0 = a) by congruence. subst a0. rewrite Hp. reflexivity.
Qed.

Lemma reply_and_verification_commute_witness :
  record_of (fst reply_after_run) (User.id alice) jan15
  = record_of (fst run_after_reply) (User.id alice) jan15
  /\ exists row,
       record_of (fst reply_after_run) (User.id alice) jan15 = Some row
       /\ DailyLog.user_response row = Some (strip "  done  ")
       /\ DailyLog.verification_passed row
          = Some (VerifyResult.passed one_commit_result).
Proof.
  apply (@reply_and_verification_commute
           sample_cfg (env_with one_commit_client) reply_env alice jan15
           default_min_commits "  done  "
           sample_session (fst run_one_commit) (fst reply_after_run)
           (fst reply_first) (fst run_after_reply)
           one_commit_result
           (value_or (_create_error_result "") (snd run_after_reply))
           (value_or no_response (snd reply_after_run))
           (value_or no_response (snd reply_first))).
  - split; reflexivity.
  - vm_compute. reflexivity.
  - vm_compute. reflexivity.
  - vm_compute. reflexivity.
  - vm_compute. reflexivity.
  - vm_compute. reflexivity.
  - vm_compute. reflexivity.
Defined.

(** X6.  Storing a reply, from a session with nothing unflushed, keeps the
    table's constraints, however it ends. *)
Theorem store_reply_keeps_constraints
        (env : ReplyEnv) (user : User.t) (today : date) (body : string)
        (s s' : Session) (out : result ReplyResponse.t) :
  clean s ->
  well_keyed s ->
  store_reply env user today body s = (s', out) ->
  well_keyed s'.
Proof.
  intros Hc Hw H.
  destruct (get_or_create (reply_create_env env) (User.id user) today s)
    as [s0 r0] eqn:Hg.
  pose proof (@get_or_create_well_keyed _ _ _ _ _ _ Hc Hw Hg) as Hw0.
  destruct (@store_reply_table _ _ _ _ _ _ _ _ _ Hc Hg H)
    as [Hn [[Hrows _]|(log0 & _ & Hrec & Hrows & _)]].
  - unfold well_keyed in *. rewrite Hrows, Hn. exact Hw0.
  - apply find_some in Hrec as [Hin _].
    eapply well_keyed_update; [exact Hw0 | exact Hin | | | exact Hrows | exact Hn];
      reflexivity.
Qed.

Lemma store_reply_keeps_constraints_witness :
  well_keyed (fst reply_after_run).
Proof.
  apply (@store_reply_keeps_constraints
           reply_env alice jan15 "  done  " (fst run_one_commit)
           (fst reply_after_run) (snd reply_after_run)).
  - split; vm_compute; reflexivity.
  - vm_compute. repeat split; repeat constructor; simpl; try tauto; lia.
  - vm_compute. reflexivity.
Defined.

(** ** Verify and notify *)

(** One assignment to a loaded record followed by a commit, on a session
    with nothing else unflushed. *)
Lemma assign_then_commit (f : DailyLog.t -> DailyLog.t) (log : DailyLog.t)
      (fault : option exn) (s s' : Session) (out : result unit) :
  clean s ->
  (assign f log ;;; commit fault) s = (s', out) ->
  match fault with
  | Some e => out = Raise e /\ daily_logs s' = daily_logs s
  | None => out = Ok tt
            /\ daily_logs s' = update_all [f log] (daily_logs s)
            /\ clean s'
  end.
Proof.
  intros [Hp Hd] H. unfold bind, assign, commit in H. cbn in H.
  rewrite Hp, Hd in H. cbn in H.
  destruct fault as [e|].
  - injection H as <- <-. cbn. auto.
  - cbn in H. injection H as <- <-. unfold clean. cbn. auto.
Qed.

(** X7.  [verify_and_notify], called on a session with nothing unflushed,
    answers True only when the verification succeeded and the mail service
    reported the summary sent; the record then carries this run's
    verification result and the time of the summary. *)
Theorem notified_means_verified_and_recorded
        (cfg : Config) (env : Env) (user : User.t) (d : date)
        (s s' : Session) :
  clean s ->
  verify_and_notify cfg env user (Some d) s = (s', Ok true) ->
  send_verification_summary env = Ok true
  /\ exists log0 a,
       get_daily_activity cfg (now env) (github env (User.github_token user))
                          d (Some (User.github_username user)) = Ok a
       /\ record_of s' (User.id user) d
          = Some (set_summary_sent_at (Some (utc_datetime (now env)))
                    (verified_log a (now env) default_min_commits log0))
       /\ found_or_fresh s (User.id user) d log0.
Proof.
  intros Hc H. unfold verify_and_notify in H.
  unfold bind at 1, lift at 1 in H. simpl default_target_date in H.
  cbv iota in H. unfold bind at 1 in H.
  destruct (verify_user_day cfg env user (Some d) default_min_commits s)
    as [s1 [r|e]] eqn:Hv; [|discriminate].
  destruct (VerifyResult.success r) eqn:Hs; cbn [negb] in H; cbv iota in H;
    [|discriminate].
  destruct (@verify_user_day_record _ _ _ _ _ _ _ _ Hc Hv Hs)
    as (log0 & a & Ha & Hf & Hrec & Hc1).
  set (vlog := verified_log a (now env) default_min_commits log0) in *.
  unfold try_except in H. unfold bind at 1, lift at 1 in H.
  destruct (send_verification_summary env) as [[|]|e]; try discriminate.
  split; [reflexivity|]. exists log0, a. split; [exact Ha|].
  split; [|exact Hf].
  unfold bind at 1, bind at 1, get_by_date in H.
  destruct (summary_lookup_fault env) as [e|]; [discriminate|].
  rewrite (query_first_clean _ _ _ (proj2 Hc1)), Hrec in H.
  destruct ((assign (set_summary_sent_at (Some (utc_datetime (now env)))) vlog ;;;
             commit (summary_commit_fault env)) s1) as [s2 o2] eqn:Hac.
  pose proof (@assign_then_commit _ _ _ _ _ _ Hc1 Hac) as Hres.
  destruct (summary_commit_fault env) as [e|].
  - destruct Hres as [-> _]. discriminate.
  - destruct Hres as (-> & Hrows & _). unfold ret in H. injection H as <-.
    unfold record_of. rewrite Hrows.
    apply find_update_all with (log0 := vlog); [exact Hrec | | reflexivity].
    apply (find_some _ _ Hrec).
Qed.

Lemma notified_means_verified_and_recorded_witness :
  send_verification_summary (env_with one_commit_client) = Ok true
  /\ exists log0 a,
       get_daily_activity sample_cfg (now (env_with one_commit_client))
         (github (env_with one_commit_client) (User.github_token alice))
         jan15 (Some (User.github_username alice)) = Ok a
       /\ record_of (fst notify_run) (User.id alice) jan15
          = Some (set_summary_sent_at
                    (Some (utc_datetime (now (env_with one_commit_client))))
                    (verified_log a (now (env_with one_commit_client))
                       default_min_commits log0))
       /\ found_or_fresh sample_session (User.id alice) jan15 log0.
Proof.
  apply (@notified_means_verified_and_recorded
           sample_cfg (env_with one_commit_client) alice jan15
           sample_session (fst notify_run)).
  - split; reflexivity.
  - vm_compute. reflexivity.
Defined.

(** ** The counters of the batch *)

Lemma batch_body_counters (cfg : Config) (env : Env) (d : date) (user : User.t)
      (r : BatchResults.t) (s : Session) :
  batch_lookup_fault env = None ->
  let r' := snd (batch_body cfg env d user r s) in
  BatchResults.successful r' + BatchResults.failed r'
  = BatchResults.successful r + BatchResults.failed r + 1
  /\ BatchResults.passed r' + BatchResults.not_passed r'
     - BatchResults.successful r'
     = BatchResults.passed r + BatchResults.not_passed r
       - BatchResults.successful r.
Proof.
  intros Hf. unfold batch_body.
  destruct (verify_and_notify cfg env user (Some d) s) as [s1 [[|]|e]]; cbn.
  - unfold get_by_date, query_first. rewrite Hf. cbn.
    destruct (log_passed _); cbn; lia.
  - lia.
  - lia.
Qed.

Lemma batch_loop_counters (cfg : Config) (envs : User.t -> Env) (d : date)
      (users : list User.t) (r : BatchResults.t) (s : Session) :
  (forall user, In user users -> batch_lookup_fault (envs user) = None) ->
  let r' := snd (batch_loop cfg envs d users r s) in
  BatchResults.successful r' + BatchResults.failed r'
  = BatchResults.successful r + BatchResults.failed r + len users
  /\ BatchResults.passed r' + BatchResults.not_passed r'
     - BatchResults.successful r'
     = BatchResults.passed r + BatchResults.not_passed r
       - BatchResults.successful r.
Proof.
  revert r s. induction users as [|user rest IH]; intros r s Hf.
  - unfold len. cbn. lia.
  - assert (Hlen : len (user :: rest) = len rest + 1).
    { unfold len. cbn [List.length]. lia. }
    rewrite Hlen. cbn [batch_loop].
    pose proof (@batch_body_counters cfg (envs user) d user r s
                  (Hf user (or_introl eq_refl))) as Hb.
    destruct (batch_body cfg (envs user) d user r s) as [s1 r1].
    cbn [snd] in Hb.
    pose proof (IH r1 s1 (fun u Hu => Hf u (or_intror Hu))) as IH'.
    cbv zeta in IH', Hb |- *. lia.
Qed.

(** X8.  When the lookups of the batch loop do not fail, the counters partition
    the active users: each is counted once as successful or as failed, and
    each successful one once as passed or as not passed. *)
Theorem batch_counters_partition
        (cfg : Config) (now0 : Z) (envs : User.t -> Env)
        (target_date : option date) (s : Session) :
  (forall user, In user (get_active_users s) ->
     batch_lookup_fault (envs user) = None) ->
  BatchResults.successful (snd (verify_all_users cfg now0 envs target_date s))
  + BatchResults.failed (snd (verify_all_users cfg now0 envs target_date s))
  = BatchResults.total_users (snd (verify_all_users cfg now0 envs target_date s))
  /\ BatchResults.passed (snd (verify_all_users cfg now0 envs target_date s))
     + BatchResults.not_passed (snd (verify_all_users cfg now0 envs target_date s))
     = BatchResults.successful (snd (verify_all_users cfg now0 envs target_date s)).
Proof.
  intros Hf. unfold verify_all_users.
  match goal with
  | |- context [batch_loop cfg envs ?d ?us ?r0 s] =>
      pose proof (@batch_loop_counters cfg envs d us r0 s Hf) as [H1 H2];
      destruct (batch_loop_effect cfg envs d us r0 s) as (_ & _ & H3 & _)
  end.
  simpl in H1, H2, H3. rewrite H3. lia.
Qed.

Lemma batch_counters_partition_witness :
  BatchResults.successful (snd sample_batch)
  + BatchResults.failed (snd sample_batch)
  = BatchResults.total_users (snd sample_batch)
  /\ BatchResults.passed (snd sample_batch)
     + BatchResults.not_passed (snd sample_batch)
     = BatchResults.successful (snd sample_batch).
Proof.
  apply (@batch_counters_partition sample_cfg jan15_evening batch_envs
           (Some jan15) batch_session).
  intros user _. unfold batch_envs.
  destruct (User.id user =? 2); reflexivity.
Defined.

(** ** The repository names of a snapshot *)

Lemma insert_sorted_in (x y : string) (l : list string) :
  In y (insert_sorted x l) <-> y = x \/ In y l.
Proof.
  induction l as [|z l IH]; simpl.
  - intuition.
  - destruct (String.compare x z) eqn:E; simpl.
    + apply String.compare_eq_iff in E. subst z. intuition.
    + intuition.
    + rewrite IH. intuition.
Qed.

Lemma insert_sorted_increasing (x : string) (l : list string) :
  increasing l -> increasing (insert_sorted x l).
Proof.
  induction l as [|z l IH]; simpl; [auto|].
  intros [Hz Hl]. destruct (String.compare x z) eqn:E.
  - simpl. auto.
  - simpl. auto.
  - assert (Hzx : String.compare z x = Lt).
    { rewrite String.compare_antisym, E. reflexivity. }
    specialize (IH Hl). cbn [increasing]. split; [|exact IH].
    destruct l as [|w l]; simpl; [exact Hzx|].
    destruct (String.compare x w); [exact Hz | exact Hzx | exact Hz].
Qed.

Lemma sorted_set_spec (names : list string) :
  increasing (sorted_set names)
  /\ forall x, In x (sorted_set names) <-> In x names.
Proof.
  unfold sorted_set.
  assert (H : forall acc,
             increasing acc ->
             increasing (fold_left (fun acc x => insert_sorted x acc) names acc)
             /\ forall x, In x (fold_left (fun acc x => insert_sorted x acc)
                                          names acc)
                          <-> In x acc \/ In x names).
  { induction names as [|n names IH]; intros acc Hacc; simpl.
    - split; [exact Hacc | intuition].
    - destruct (IH (insert_sorted n acc) (insert_sorted_increasing n acc Hacc))
        as [H1 H2].
      split; [exact H1|]. intros x. rewrite H2, insert_sorted_in. intuition. }
  destruct (H [] I) as [H1 H2]. split; [exact H1|].
  intros x. rewrite H2. simpl. intuition.
Qed.

(** X9.  The [repositories] of a snapshot are in strictly increasing order, so
    without duplicates, and are exactly the repository names of its
    commits, pull requests and issues. *)
Theorem repositories_sorted_and_exact
        (cfg : Config) (now0 : Z) (gh : GitHubClient) (d : date)
        (username : option string) (a : Activity.t) :
  get_daily_activity cfg now0 gh d username = Ok a ->
  increasing (Activity.repositories a)
  /\ forall name,
       In name (Activity.repositories a)
       <-> (exists c, In c (Activity.commits a)
                      /\ CommitData.repository c = name)
           \/ (exists p, In p (Activity.pull_requests a)
                         /\ PRData.repository p = name)
           \/ (exists i, In i (Activity.issues a)
                         /\ IssueData.repository i = name).
Proof.
  unfold get_daily_activity. intros H.
  destruct (get_commits_for_date _ _ _ _ _ _) as [cs|]; [|discriminate].
  destruct (get_pull_requests_for_date _ _ _ _ _ _) as [ps|]; [|discriminate].
  destruct (get_issues_for_date _ _ _ _ _ _) as [iss|]; [|discriminate].
  injection H as <-. cbn [Activity.repositories Activity.commits
                           Activity.pull_requests Activity.issues].
  destruct (sorted_set_spec (map CommitData.repository cs
                             ++ map PRData.repository ps
                             ++ map IssueData.repository iss)) as [H1 H2].
  split; [exact H1|]. intros name. rewrite H2, !in_app_iff, !in_map_iff.
  split; (intros [(x & Hx)|[(x & Hx)|(x & Hx)]];
          [left | right; left | right; right]; exists x; tauto).
Qed.

Lemma repositories_sorted_and_exact_witness :
  increasing (Activity.repositories
                (value_or_activity
                   (get_daily_activity sample_cfg jan15_evening
                      rate_limited_client jan15 (Some "alice"))))
  /\ forall name,
       In name (Activity.repositories
                  (value_or_activity
                     (get_daily_activity sample_cfg jan15_evening
                        rate_limited_client jan15 (Some "alice"))))
       <-> (exists c, In c (Activity.commits
                              (value_or_activity
                                 (get_daily_activity sample_cfg jan15_evening
                                    rate_limited_client jan15 (Some "alice"))))
                      /\ CommitData.repository c = name)
           \/ (exists p, In p (Activity.pull_requests
                                 (value_or_activity
                                    (get_daily_activity sample_cfg jan15_evening
                                       rate_limited_client jan15 (Some "alice"))))
                         /\ PRData.repository p = name)
           \/ (exists i, In i (Activity.issues
                                 (value_or_activity
                                    (get_daily_activity sample_cfg jan15_evening
                                       rate_limited_client jan15 (Some "alice"))))
                         /\ IssueData.repository i = name).
Proof.
  apply (@repositories_sorted_and_exact sample_cfg jan15_evening
           rate_limited_client jan15 (Some "alice")).
  vm_compute. reflexivity.
Defined.

(** ** The early stop of the pull request scan *)

Lemma date_before (x : datetime) (d : date) :
  utcoffset x = 0 -> instant x < d * MICROS_PER_DAY -> date_of x < d.
Proof.
  unfold instant, date_of, MICROS_PER_DAY. intros Ho Hi. rewrite Ho in Hi.
  apply Z.div_lt_upper_bound; lia.
Qed.

Lemma stale_pull_not_kept (d : date) (u : string) (pr : PullRequest.t) :
  github_times pr ->
  instant (PullRequest.updated_at pr) < d * MICROS_PER_DAY ->
  pr_kept d u pr = false.
Proof.
  intros (Hc & Hu & Hle) Hlt. unfold pr_kept.
  assert (H1 : date_of (PullRequest.updated_at pr) < d)
    by (apply date_before; assumption).
  assert (H2 : date_of (PullRequest.created_at pr) < d)
    by (apply date_before; [assumption | lia]).
  assert (E1 : (date_of (PullRequest.updated_at pr) =? d) = false)
    by (apply Z.eqb_neq; lia).
  assert (E2 : (date_of (PullRequest.created_at pr) =? d) = false)
    by (apply Z.eqb_neq; lia).
  rewrite E1, E2. simpl. apply andb_false_r.
Qed.

(** X10.  When the listing is newest first, its timestamps are GitHub's, and the
    window starts no later than UTC midnight of the target date, the early
    stop loses nothing: the scan keeps exactly the user's pull requests
    created or updated on the target date. *)
Theorem early_stop_loses_nothing
        (d : date) (u : string) (start_dt : datetime) (repo : Repository.t)
        (prs : list PullRequest.t) (tail : option exn) :
  newest_first prs ->
  (forall pr, In pr prs -> github_times pr) ->
  instant start_dt <= d * MICROS_PER_DAY ->
  fst (scan_pulls d u start_dt repo prs tail [])
  = map (pr_data repo) (filter (pr_kept d u) prs).
Proof.
  intros Hnf Hgt Hstart. induction prs as [|pr rest IH]; [reflexivity|].
  destruct Hnf as [Hnewer Hnf].
  cbn [scan_pulls filter]. fold (pr_kept d u pr).
  destruct (datetime_ltb (PullRequest.updated_at pr) start_dt) eqn:Hold.
  - assert (Hrest : filter (pr_kept d u) rest = []).
    { unfold datetime_ltb in Hold. apply Z.ltb_lt in Hold.
      clear IH Hnf. induction rest as [|q rest IHr]; [reflexivity|].
      simpl. rewrite stale_pull_not_kept.
      - apply IHr; intros; [apply Hnewer | apply Hgt]; simpl in *; tauto.
      - apply Hgt. simpl. tauto.
      - pose proof (Hnewer q (or_introl eq_refl)). lia. }
    destruct (pr_kept d u pr); simpl; rewrite Hrest; reflexivity.
  - rewrite scan_pulls_acc. cbn [fst].
    rewrite IH; [|exact Hnf | intros; apply Hgt; now right].
    destruct (pr_kept d u pr); reflexivity.
Qed.

Lemma early_stop_loses_nothing_witness :
  fst (scan_pulls jan15 "alice" (get_start_of_day sample_cfg 0 (Some jan15) None)
                  healthy_repo sample_pulls None [])
  = map (pr_data healthy_repo) (filter (pr_kept jan15 "alice") sample_pulls).
Proof.
  apply (@early_stop_loses_nothing jan15 "alice"
           (get_start_of_day sample_cfg 0 (Some jan15) None)
           healthy_repo sample_pulls None).
  - simpl. repeat split; intros q Hq;
      repeat (destruct Hq as [<-|Hq]; [vm_compute; discriminate|]);
      destruct Hq.
  - intros pr Hpr.
    repeat (destruct Hpr as [<-|Hpr];
            [repeat split; vm_compute; discriminate|]).
    destruct Hpr.
  - vm_compute. discriminate.
Defined.

(** With a window that starts after UTC midnight the early stop does lose
    items: the second pull request, updated at 02:00 UTC on the target date,
    is dropped because the first, updated at 03:00, is already older than
    the 05:00 start. *)
Example early_stop_drops_a_pull_request :
  map PRData.number
      (fst (scan_pulls jan15 "alice" western_start healthy_repo
                       sample_pulls None []))
  = [3]
  /\ map PullRequest.number (filter (pr_kept jan15 "alice") sample_pulls)
     = [3; 2].
Proof. apply conj; vm_compute; reflexivity. Qed.

(** ** Whose pull requests are reported *)

Lemma scan_pulls_author (d : date) (u : string) (start_dt : datetime)
      (repo : Repository.t) (prs : list PullRequest.t) (tail : option exn)
      (acc : list PRData.t) (P : PRData.t -> Prop) :
  (forall pr, In pr prs -> PullRequest.user_login pr = u -> P (pr_data repo pr)) ->
  Forall P acc ->
  Forall P (fst (scan_pulls d u start_dt repo prs tail acc)).
Proof.
  revert acc. induction prs as [|pr rest IH]; intros acc Hp Hacc; simpl.
  - exact Hacc.
  - assert (Hnext : Forall P
              (if String.eqb (PullRequest.user_login pr) u
                  && ((date_of (PullRequest.created_at pr) =? d)
                      || (date_of (PullRequest.updated_at pr) =? d))
               then acc ++ [pr_data repo pr] else acc)).
    { destruct (String.eqb _ _) eqn:E; simpl; [|exact Hacc].
      destruct (_ || _); [|exact Hacc].
      apply Forall_app. split; [exact Hacc|]. constructor; [|constructor].
      apply Hp; [now left | now apply String.eqb_eq]. }
    destruct (datetime_ltb _ _); [exact Hnext|].
    apply IH; [|exact Hnext]. intros q Hq. apply Hp. now right.
Qed.

Lemma pulls_of_states_author (d : date) (u : string) (start_dt : datetime)
      (states : list string) (repo : Repository.t) (acc : list PRData.t)
      (P : PRData.t -> Prop) :
  (forall pr, PullRequest.user_login pr = u -> P (pr_data repo pr)) ->
  Forall P acc ->
  Forall P (fst (pulls_of_states d u start_dt states repo acc)).
Proof.
  intros Hp. revert acc. induction states as [|st rest IH]; intros acc Hacc; simpl.
  - exact Hacc.
  - pose proof (@scan_pulls_author d u start_dt repo
                  (items (Repository.get_pulls repo st))
                  (failure (Repository.get_pulls repo st)) acc P
                  (fun pr _ => Hp pr) Hacc) as Hs.
    destruct (scan_pulls _ _ _ _ _ _ acc) as [found [e|]]; simpl in *.
    + exact Hs.
    + apply IH, Hs.
Qed.

Lemma for_each_repo_in {A}
      (body : Repository.t -> list A -> list A * option exn)
      (repos : list Repository.t) (acc l : list A) (Q : A -> Prop) :
  (forall repo acc, In repo repos -> Forall Q acc ->
     Forall Q (fst (body repo acc))) ->
  Forall Q acc ->
  for_each_repo body repos acc = Ok l ->
  Forall Q l.
Proof.
  revert acc. induction repos as [|repo rest IH]; intros acc Hbody Hacc H;
    simpl in H.
  - injection H as <-. exact Hacc.
  - pose proof (Hbody repo acc (or_introl eq_refl) Hacc) as Hstep.
    assert (Hrest : forall r a, In r rest -> Forall Q a -> Forall Q (fst (body r a)))
      by (intros; apply Hbody; [now right | assumption]).
    destruct (body repo acc) as [acc' [e|]]; simpl in Hstep.
    + destruct (is_GithubException e); [eauto | discriminate].
    + eauto.
Qed.

(** X11.  The pull requests of a snapshot are never someone else's and never from
    a repository that was not listed: each is authored by the user asked
    for and carries the name of one of the listed repositories. *)
Theorem pull_requests_are_the_users
        (cfg : Config) (now0 : Z) (gh : GitHubClient) (call : nat) (d : date)
        (username : option string) (u : string) (repos : list Repository.t)
        (prs : list PRData.t) :
  resolve_username gh username = Ok u ->
  get_user_repos gh call = Ok repos ->
  get_pull_requests_for_date cfg now0 gh call d username = Ok prs ->
  Forall (fun x => PRData.author x = u
                   /\ In (PRData.repository x)
                         (map Repository.full_name repos)) prs.
Proof.
  intros Hu Hr H. unfold get_pull_requests_for_date in H. rewrite Hu, Hr in H.
  eapply for_each_repo_in; [| constructor | exact H].
  intros repo acc Hin Hacc. apply pulls_of_states_author; [|exact Hacc].
  intros pr Hpr. split; [exact Hpr|]. simpl. now apply in_map.
Qed.

Lemma pull_requests_are_the_users_witness :
  Forall (fun x => PRData.author x = "alice"
                   /\ In (PRData.repository x)
                         (map Repository.full_name [pulls_repo]))
         (value_or [] (get_pull_requests_for_date sample_cfg jan15_evening
                         (client_with [pulls_repo]) 1 jan15 (Some "alice"))).
Proof.
  apply (@pull_requests_are_the_users sample_cfg jan15_evening
           (client_with [pulls_repo]) 1 jan15 (Some "alice") "alice"
           [pulls_repo]).
  - reflexivity.
  - reflexivity.
  - vm_compute. reflexivity.
Defined.

Example only_alices_pull_requests :
  map PRData.number
      (value_or [] (get_pull_requests_for_date sample_cfg jan15_evening
                      (client_with [pulls_repo]) 1 jan15 (Some "alice")))
  = [3; 2].
Proof. vm_compute. reflexivity. Qed.

(** ** The webhook as it stands *)

Lemma bind_lift {A B} (r : result A) (k : A -> M B) (s : Session) :
  (x <- lift r ;; k x) s
  = match r with Ok a => k a s | Raise e => (s, Raise e) end.
Proof. unfold bind, lift. destruct r; reflexivity. Qed.

Lemma try_block_raises (cfg : Config) (env : ReplyEnv) (payload : Payload.t)
      (s : Session) :
  exists e, handle_email_reply_try cfg env payload s = (s, Raise e)
            /\ answered e.
Proof.
  unfold handle_email_reply_try.
  rewrite bind_lift.
  destruct payload as [ |b|n|nz|str|l|items]; cbn [py_keys];
    try (eexists; split; [reflexivity | exact I]).
  rewrite bind_lift. cbn [py_get]. rewrite bind_lift.
  destruct (match dict_lookup "from" items with
            | Some x => x
            | None => PyDict []
            end) as [ |b|n|nz|str|l|from]; cbn [py_get];
    try (eexists; split; [reflexivity | exact I]).
  rewrite bind_lift, bind_lift.
  destruct (match dict_lookup "to" items with
            | Some x => x
            | None => PyList [PyDict []]
            end) as [ |b|n|nz|[|c str]|[|to_0 l]|to]; cbn [py_first];
    try (eexists; split; [reflexivity | exact I]).
  rewrite bind_lift.
  destruct to_0 as [ |b|n|nz|str|l'|to_0]; cbn [py_get];
      try (eexists; split; [reflexivity | exact I]).
  rewrite bind_lift, bind_lift, bind_lift.
  destruct (negb _ || negb _).
  { eexists; split; [reflexivity | simpl; auto]. }
  destruct (match dict_lookup "email" from with
            | Some x => x
            | None => PyNone
            end) as [ |b|n|nz|address|l'|d];
    try (eexists; split; [reflexivity | exact I]).
  unfold bind at 1, query_by_email.
  destruct (sender_lookup_fault env) as [msg|];
    [eexists; split; [reflexivity | exact I]|].
  destruct (get_by_email s address) as [user|].
  - rewrite bind_lift. eexists; split; [reflexivity | exact I].
  - eexists; split; [reflexivity | simpl; auto].
Qed.

(** X12.  No request to the reply webhook succeeds and none writes: whatever the
    payload and the database, the handler ends in an [HTTPException] with
    status 400, 404 or 500 and returns the session as it received it. *)
Theorem reply_webhook_never_stores
        (cfg : Config) (env : ReplyEnv) (payload : Payload.t) (s : Session) :
  exists status detail,
    handle_email_reply cfg env payload s
    = (s, Raise (HTTPException status detail))
    /\ (status = 400 \/ status = 404 \/ status = 500).
Proof.
  unfold handle_email_reply, try_except.
  destruct (try_block_raises cfg env payload s) as (e & -> & He).
  destruct e; cbn; eexists _, _; (split; [reflexivity|]); auto.
  simpl in He. tauto.
Qed.

(** ** Weekdays *)

Lemma weekday_range (d : date) : 0 <= weekday d < 7.
Proof. unfold weekday. apply Z.mod_pos_bound. lia. Qed.

Lemma weekday_shift (d k : Z) :
  weekday (d + k) = (weekday d + k) mod 7.
Proof.
  unfold weekday. replace (d + k + 3) with ((d + 3) + k) by lia.
  rewrite Z.add_mod_idemp_l by lia. reflexivity.
Qed.

(** X13.  Weekdays repeat every seven days, and of any seven consecutive days
    exactly five are weekdays. *)
Theorem five_weekdays_in_seven (cfg : Config) (now0 : Z) (d : date)
        (tz_name : option string) :
  is_weekday cfg now0 (Some (d + 7)) tz_name = is_weekday cfg now0 (Some d) tz_name
  /\ List.length
       (filter (fun x => is_weekday cfg now0 (Some x) tz_name)
               [d; d + 1; d + 2; d + 3; d + 4; d + 5; d + 6]) = 5%nat.
Proof.
  unfold is_weekday. split.
  - rewrite weekday_shift. f_equal.
    pose proof (weekday_range d) as Hr.
    replace (weekday d + 7) with (weekday d + 1 * 7) by lia.
    rewrite Z.mod_add by lia. apply Z.mod_small. lia.
  - cbn [filter]. rewrite !weekday_shift.
    pose proof (weekday_range d) as Hr.
    assert (Hcases : weekday d = 0 \/ weekday d = 1 \/ weekday d = 2
                     \/ weekday d = 3 \/ weekday d = 4 \/ weekday d = 5
                     \/ weekday d = 6) by lia.
    destruct Hcases as [E|[E|[E|[E|[E|[E|E]]]]]]; rewrite E; reflexivity.
Qed.




(** Monday 2024-01-15 is a weekday, Saturday 2024-01-13 is not, and the
    weekday before that Monday is Friday 2024-01-12. *)
Example weekdays_of_january_2024 :
  is_weekday sample_cfg 0 (Some jan15) (Some "America/New_York") = true
  /\ is_weekday sample_cfg 0 (Some (jan15 - 2)) (Some "America/New_York") = false
  /\ get_previous_weekday 3 sample_cfg 0 (Some jan15) None = Some (jan15 - 3).
Proof. repeat apply conj; vm_compute; reflexivity. Qed.

(** ** The day window and the current date *)

(** X15.  In a zone of constant offset the window of the current date contains
    the present instant, begins and ends on that date's wall clock, and
    lasts a day less one microsecond. *)
Theorem now_lies_in_todays_window
        (cfg : Config) (now0 : Z) (tz_name : option string) (o : Z) :
  constant_offset (get_timezone cfg tz_name) o ->
  let today := get_current_date cfg now0 tz_name in
  let start_dt := get_start_of_day cfg now0 (Some today) tz_name in
  let end_dt := get_end_of_day cfg now0 (Some today) tz_name in
  instant start_dt <= now0 <= instant end_dt
  /\ date_of start_dt = today /\ date_of end_dt = today
  /\ instant end_dt - instant start_dt = MICROS_PER_DAY - 1.
Proof.
  intros [Hi Hw]. cbv zeta.
  unfold get_start_of_day, get_end_of_day, get_current_date,
    get_current_datetime, datetime_now, localize, instant, date_of,
    combine_min, combine_max.
  cbn [wall utcoffset]. rewrite !Hi, !Hw.
  set (w := now0 + o). unfold MICROS_PER_DAY.
  pose proof (Z.div_mod w 86400000000 ltac:(lia)) as Hdm.
  pose proof (Z.mod_pos_bound w 86400000000 ltac:(lia)) as Hb.
  repeat split; try lia.
  - rewrite Z.div_mul by lia. reflexivity.
  - symmetry. apply Z.div_unique with (r := 86400000000 - 1); lia.
Qed.

Lemma now_lies_in_todays_window_witness :
  instant (get_start_of_day sample_cfg jan15_evening
             (Some (get_current_date sample_cfg jan15_evening (Some "Asia/Tokyo")))
             (Some "Asia/Tokyo"))
  <= jan15_evening
  <= instant (get_end_of_day sample_cfg jan15_evening
                (Some (get_current_date sample_cfg jan15_evening (Some "Asia/Tokyo")))
                (Some "Asia/Tokyo"))
  /\ date_of (get_start_of_day sample_cfg jan15_evening
                (Some (get_current_date sample_cfg jan15_evening (Some "Asia/Tokyo")))
                (Some "Asia/Tokyo"))
     = get_current_date sample_cfg jan15_evening (Some "Asia/Tokyo")
  /\ date_of (get_end_of_day sample_cfg jan15_evening
                (Some (get_current_date sample_cfg jan15_evening (Some "Asia/Tokyo")))
                (Some "Asia/Tokyo"))
     = get_current_date sample_cfg jan15_evening (Some "Asia/Tokyo")
  /\ instant (get_end_of_day sample_cfg jan15_evening
                (Some (get_current_date sample_cfg jan15_evening (Some "Asia/Tokyo")))
                (Some "Asia/Tokyo"))
     - instant (get_start_of_day sample_cfg jan15_evening
                  (Some (get_current_date sample_cfg jan15_evening (Some "Asia/Tokyo")))
                  (Some "Asia/Tokyo"))
     = MICROS_PER_DAY - 1.
Proof.
  apply (@now_lies_in_todays_window sample_cfg jan15_evening
           (Some "Asia/Tokyo") (9 * HOUR)).
  split; intros; reflexivity.
Defined.

(** X16.  An unknown zone name does not fail the caller: the current date is then
    the UTC date, whatever the settings say. *)
Theorem unknown_zone_means_utc (cfg : Config) (now0 : Z) (name : string) :
  pytz_timezone cfg name = None ->
  get_current_date cfg now0 (Some name) = now0 / MICROS_PER_DAY
  /\ instant (get_start_of_day cfg now0 (Some (now0 / MICROS_PER_DAY)) (Some name))
     = now0 / MICROS_PER_DAY * MICROS_PER_DAY.
Proof.
  intros Hn. unfold get_current_date, get_current_datetime, get_start_of_day,
    get_timezone. rewrite Hn. unfold datetime_now, date_of, localize, instant.
  simpl. split; [f_equal; lia | unfold combine_min; lia].
Qed.

Lemma unknown_zone_means_utc_witness :
  get_current_date sample_cfg jan15_evening (Some "West African Time (WAT)")
  = jan15_evening / MICROS_PER_DAY
  /\ instant (get_start_of_day sample_cfg jan15_evening
                (Some (jan15_evening / MICROS_PER_DAY))
                (Some "West African Time (WAT)"))
     = jan15_evening / MICROS_PER_DAY * MICROS_PER_DAY.
Proof.
  apply (@unknown_zone_means_utc sample_cfg jan15_evening
           "West African Time (WAT)").
  reflexivity.
Defined.

(** ** Recent logs *)

Lemma insert_desc_in (log x : DailyLog.t) (l : list DailyLog.t) :
  In x (insert_desc log l) <-> x = log \/ In x l.
Proof.
  induction l as [|y l IH]; simpl; [intuition|].
  destruct (DailyLog.log_date y <? DailyLog.log_date log); simpl;
    [intuition|]. rewrite IH. intuition.
Qed.

Lemma insert_desc_length (log : DailyLog.t) (l : list DailyLog.t) :
  List.length (insert_desc log l) = S (List.length l).
Proof.
  induction l as [|y l IH]; simpl; [reflexivity|].
  destruct (DailyLog.log_date y <? DailyLog.log_date log); simpl; congruence.
Qed.

Lemma insert_desc_descending (log : DailyLog.t) (l : list DailyLog.t) :
  descending l -> descending (insert_desc log l).
Proof.
  induction l as [|y l IH]; simpl; [auto|].
  intros [Hy Hl].
  destruct (DailyLog.log_date y <? DailyLog.log_date log) eqn:E.
  - apply Z.ltb_lt in E. simpl. split; [|auto].
    constructor; [lia|]. eapply Forall_impl; [|exact Hy]. simpl. intros; lia.
  - apply Z.ltb_ge in E. simpl. split; [|auto].
    apply Forall_forall. intros x Hx. apply insert_desc_in in Hx as [->|Hx];
      [exact E | exact (proj1 (Forall_forall _ _) Hy x Hx)].
Qed.

Lemma order_by_spec (rows : list DailyLog.t) :
  descending (order_by_log_date_desc rows)
  /\ (forall x, In x (order_by_log_date_desc rows) <-> In x rows)
  /\ List.length (order_by_log_date_desc rows) = List.length rows.
Proof.
  unfold order_by_log_date_desc.
  induction rows as [|r rows (H1 & H2 & H3)]; simpl.
  - repeat split; auto; tauto.
  - split; [now apply insert_desc_descending|]. split.
    + intros x. rewrite insert_desc_in, H2. intuition.
    + rewrite insert_desc_length. congruence.
Qed.

Lemma in_firstn {A} (n : nat) (l : list A) (x : A) :
  In x (firstn n l) -> In x l.
Proof.
  revert l. induction n as [|n IH]; intros [|y l]; simpl; try tauto.
  intros [->|H]; auto.
Qed.

Lemma in_skipn {A} (n : nat) (l : list A) (x : A) :
  In x (skipn n l) -> In x l.
Proof.
  revert l. induction n as [|n IH]; intros [|y l]; simpl; try tauto.
  intros H. right. now apply IH.
Qed.

Lemma descending_firstn (n : nat) (l : list DailyLog.t) :
  descending l ->
  descending (firstn n l)
  /\ forall x y, In x (firstn n l) -> In y (skipn n l) ->
                 DailyLog.log_date y <= DailyLog.log_date x.
Proof.
  revert l. induction n as [|n IH]; intros l Hl.
  - simpl. split; [exact I | tauto].
  - destruct l as [|z l]; simpl; [split; [exact I | tauto]|].
    destruct Hl as [Hz Hl]. destruct (IH l Hl) as [H1 H2]. split.
    + split; [|exact H1]. apply Forall_forall. intros x Hx.
      apply (proj1 (Forall_forall _ _) Hz). eapply in_firstn. exact Hx.
    + intros x y [<-|Hx] Hy.
      * apply (proj1 (Forall_forall _ _) Hz). eapply in_skipn. exact Hy.
      * now apply H2.
Qed.

(** X17.  On a clean session and for a limit that is not negative,
    [get_recent_logs] returns committed records of that user only, no more
    than the limit and as many as the limit when the user has that many,
    most recent first, and none it leaves out is more recent than one it
    returns. *)
Theorem recent_logs_are_the_most_recent
        (s : Session) (uid : Z) (days : Z) :
  dirty s = [] ->
  0 <= days ->
  exists logs,
    get_recent_logs s uid days = Some logs
    /\ Forall (fun log => In log (daily_logs s) /\ DailyLog.user_id log = uid) logs
    /\ len logs
       = Z.min days
           (len (filter (fun log => DailyLog.user_id log =? uid) (daily_logs s)))
    /\ descending logs
    /\ forall log x,
         In log (daily_logs s) -> DailyLog.user_id log = uid ->
         ~ In log logs -> In x logs ->
         DailyLog.log_date log <= DailyLog.log_date x.
Proof.
  intros Hd Hdays. unfold get_recent_logs.
  assert (E : (days <? 0) = false) by (apply Z.ltb_ge; lia). rewrite E.
  assert (Hmap : map (identity s)
                     (filter (fun log => DailyLog.user_id log =? uid) (daily_logs s))
                 = filter (fun log => DailyLog.user_id log =? uid) (daily_logs s)).
  { rewrite <- (map_id (filter _ _)) at 2. apply map_ext.
    intros r. now apply identity_clean. }
  rewrite Hmap.
  set (mine := filter (fun log => DailyLog.user_id log =? uid) (daily_logs s)).
  destruct (order_by_spec mine) as (Hs & Hin & Hlen).
  destruct (descending_firstn (Z.to_nat days) _ Hs) as [Hf Hle].
  eexists. split; [reflexivity|]. split; [|split; [|split; [exact Hf|]]].
  - apply Forall_forall. intros x Hx. apply in_firstn in Hx.
    apply Hin in Hx. unfold mine in Hx. apply filter_In in Hx as [Hx Hu].
    split; [exact Hx | now apply Z.eqb_eq].
  - unfold len. rewrite length_firstn, Hlen. lia.
  - intros log x Hlog Hu Hnot Hx. apply Hle; [exact Hx|].
    assert (Hmine : In log (order_by_log_date_desc mine)).
    { apply Hin. unfold mine. apply filter_In. split; [exact Hlog|].
      now apply Z.eqb_eq. }
    rewrite <- (firstn_skipn (Z.to_nat days)) in Hmine.
    apply in_app_or in Hmine as [Hm|Hm]; [contradiction | exact Hm].
Qed.

Lemma recent_logs_are_the_most_recent_witness :
  exists logs,
    get_recent_logs (fst run_two_commits_after) (User.id alice) 7 = Some logs
    /\ Forall (fun log => In log (daily_logs (fst run_two_commits_after))
                          /\ DailyLog.user_id log = User.id alice) logs
    /\ len logs
       = Z.min 7
           (len (filter (fun log => DailyLog.user_id log =? User.id alice)
                        (daily_logs (fst run_two_commits_after))))
    /\ descending logs
    /\ forall log x,
         In log (daily_logs (fst run_two_commits_after)) ->
         DailyLog.user_id log = User.id alice ->
         ~ In log logs -> In x logs ->
         DailyLog.log_date log <= DailyLog.log_date x.
Proof.
  apply (@recent_logs_are_the_most_recent
           (fst run_two_commits_after) (User.id alice) 7).
  - vm_compute. reflexivity.
  - lia.
Defined.

(** ** Looking users up *)

(** X18.  Under the unique constraints of [users], a lookup by email or by GitHub
    username returns exactly the stored user with that value, active or
    not, and nothing when no user has it. *)
Theorem user_lookups_are_exact (s : Session) :
  NoDup (map User.email (users s)) ->
  NoDup (map User.github_username (users s)) ->
  (forall u, In u (users s) ->
     get_by_email s (User.email u) = Some u
     /\ get_by_github_username s (User.github_username u) = Some u)
  /\ (forall e, get_by_email s e = None
                <-> forall u, In u (users s) -> User.email u <> e).
Proof.
  unfold get_by_email, get_by_github_username.
  intros He Hg. split.
  - induction (users s) as [|v us IH]; intros u Hu; [destruct Hu|].
    simpl in He, Hg. inversion He as [|? ? Hev Hes]; subst.
    inversion Hg as [|? ? Hgv Hgs]; subst.
    destruct Hu as [->|Hu].
    + simpl. now rewrite !String.eqb_refl.
    + specialize (IH Hes Hgs u Hu) as [IH1 IH2]. simpl.
      destruct (String.eqb (User.email v) (User.email u)) eqn:E1.
      { apply String.eqb_eq in E1. exfalso. apply Hev. rewrite E1.
        now apply in_map. }
      destruct (String.eqb (User.github_username v) (User.github_username u))
        eqn:E2.
      { apply String.eqb_eq in E2. exfalso. apply Hgv. rewrite E2.
        now apply in_map. }
      auto.
  - intros e. split.
    + intros Hn u Hu Heq.
      apply (find_none _ _ Hn) in Hu. simpl in Hu.
      rewrite Heq, String.eqb_refl in Hu. discriminate.
    + intros Hall. apply (@get_by_email_unknown s e Hall).
Qed.

Lemma user_lookups_are_exact_witness :
  (forall u, In u (users sample_session) ->
     get_by_email sample_session (User.email u) = Some u
     /\ get_by_github_username sample_session (User.github_username u) = Some u)
  /\ (forall e, get_by_email sample_session e = None
                <-> forall u, In u (users sample_session) -> User.email u <> e).
Proof.
  apply (@user_lookups_are_exact sample_session).
  - simpl. repeat constructor; simpl; intuition discriminate.
  - simpl. repeat constructor; simpl; intuition discriminate.
Defined.

(** ** The check-in job *)

(** X19.  A check-in is sent once per user and local date.  When an iteration of
    the job, started on a session with nothing unflushed, counts a mail as
    sent, the record of the user's local date carries the send time; and
    from then on an iteration for the same user and local date whose lookup
    of the record works, whatever the mail service would answer, sends
    nothing and changes neither the counters nor the session. *)
Theorem checkin_is_sent_once
        (cfg : Config) (env1 env2 : CheckinEnv) (user : User.t)
        (r r' : CheckinResults.t) (s s1 : Session) (r1 : CheckinResults.t) :
  clean s ->
  checkin_body cfg env1 user r s = (s1, r1) ->
  CheckinResults.emails_sent r1 = CheckinResults.emails_sent r + 1 ->
  lookup_fault (checkin_create_env env2) = None ->
  get_current_date cfg (checkin_clock env2) (Some (User.time_zone user))
  = get_current_date cfg (checkin_clock env1) (Some (User.time_zone user)) ->
  (exists row,
     record_of s1 (User.id user)
       (get_current_date cfg (checkin_clock env1) (Some (User.time_zone user)))
     = Some row
     /\ DailyLog.checkin_sent_at row = Some (utc_datetime (checkin_clock env1)))
  /\ checkin_body cfg env2 user r' s1 = (s1, r').
Proof.
  intros Hc H Hsent Hl Hdate. unfold checkin_body in H.
  set (today := get_current_date cfg (checkin_clock env1)
                                 (Some (User.time_zone user))) in *.
  destruct (checkin_try cfg env1 user s) as [s1' [[| |]|e]] eqn:Ht;
    injection H as <- <-; simpl in Hsent; try lia.
  unfold checkin_try in Ht. fold today in Ht. unfold bind at 1 in Ht.
  destruct (get_or_create (checkin_create_env env1) (User.id user) today s)
    as [s0 [log0|e]] eqn:Hg; [|discriminate].
  destruct (@get_or_create_ok _ _ _ _ _ _ Hc Hg) as [[Hp0 Hd0] Hrec0].
  destruct (DailyLog.checkin_sent_at log0) eqn:Hsent0; [discriminate|].
  unfold bind at 1, lift at 1 in Ht.
  destruct (send_daily_checkin env1) as [[|]|e]; try discriminate.
  unfold bind, assign, commit, ret in Ht. cbn in Ht.
  rewrite Hd0, Hp0 in Ht. cbn in Ht.
  destruct (checkin_commit_fault env1) as [e|]; [discriminate|].
  cbn in Ht. injection Ht as <-.
  set (obj := set_checkin_sent_at (Some (utc_datetime (checkin_clock env1))) log0).
  assert (Hfind : find (same_key (User.id user) today)
                       (update_all [obj] (daily_logs s0)) = Some obj).
  { apply find_update_all with (log0 := log0); [exact Hrec0| |reflexivity].
    now apply (find_some _ _ Hrec0). }
  split.
  - exists obj. unfold record_of. cbn. split; [exact Hfind | reflexivity].
  - unfold checkin_body, checkin_try. rewrite Hdate. fold today.
    unfold bind at 1, get_or_create, bind at 1. rewrite Hl.
    unfold query_first. cbn. fold obj. rewrite Hfind. cbn.
    reflexivity.
Qed.

Lemma checkin_is_sent_once_witness :
  (exists row,
     record_of (fst first_checkin) (User.id alice)
       (get_current_date sample_cfg (checkin_clock (checkin_env jan15_evening))
          (Some (User.time_zone alice)))
     = Some row
     /\ DailyLog.checkin_sent_at row
        = Some (utc_datetime (checkin_clock (checkin_env jan15_evening))))
  /\ checkin_body sample_cfg (checkin_env (jan15_evening + HOUR)) alice
       (snd first_checkin) (fst first_checkin)
     = (fst first_checkin, snd first_checkin).
Proof.
  apply (@checkin_is_sent_once
           sample_cfg (checkin_env jan15_evening)
           (checkin_env (jan15_evening + HOUR)) alice
           {| CheckinResults.total_users := 1; CheckinResults.emails_sent := 0;
              CheckinResults.errors := 0; CheckinResults.date := jan15 |}
           (snd first_checkin) sample_session (fst first_checkin)
           (snd first_checkin)).
  - split; reflexivity.
  - vm_compute. reflexivity.
  - vm_compute. reflexivity.
  - reflexivity.
  - vm_compute. reflexivity.
Defined.

Lemma checkin_loop_counters (cfg : Config) (envs : User.t -> CheckinEnv)
      (users : list User.t) (r : CheckinResults.t) (s : Session) :
  let r' := snd (checkin_loop cfg envs users r s) in
  CheckinResults.emails_sent r <= CheckinResults.emails_sent r'
  /\ CheckinResults.errors r <= CheckinResults.errors r'
  /\ CheckinResults.emails_sent r' + CheckinResults.errors r'
     <= CheckinResults.emails_sent r + CheckinResults.errors r + len users
  /\ CheckinResults.total_users r' = CheckinResults.total_users r
  /\ CheckinResults.date r' = CheckinResults.date r.
Proof.
  revert r s. induction users as [|user rest IH]; intros r s.
  - unfold len. cbn. lia.
  - assert (Hlen : len (user :: rest) = len rest + 1).
    { unfold len. cbn [List.length]. lia. }
    rewrite Hlen. cbn [checkin_loop].
    assert (Hb : let r1 := snd (checkin_body cfg (envs user) user r s) in
                 CheckinResults.emails_sent r <= CheckinResults.emails_sent r1
                 /\ CheckinResults.errors r <= CheckinResults.errors r1
                 /\ CheckinResults.emails_sent r1 + CheckinResults.errors r1
                    <= CheckinResults.emails_sent r + CheckinResults.errors r + 1
                 /\ CheckinResults.total_users r1 = CheckinResults.total_users r
                 /\ CheckinResults.date r1 = CheckinResults.date r).
    { unfold checkin_body.
      destruct (checkin_try cfg (envs user) user s) as [s1 [[| |]|e]]; cbn; lia. }
    destruct (checkin_body cfg (envs user) user r s) as [s1 r1].
    cbn [snd] in Hb. pose proof (IH r1 s1) as IH'.
    cbv zeta in IH', Hb |- *. lia.
Qed.

(** X20.  On a weekend day of the server's zone the job does nothing and returns
    nothing.  On a weekday it returns its counters.  When the query for the
    active users works, they report the number of active users, at most one
    mail per active user, and at most one error per user plus one for the
    final commit.  When that query fails in the database, no user is
    processed: the counters report no users, no mail and one error. *)
Theorem checkin_job_counters
        (cfg : Config) (now0 : Z) (envs : User.t -> CheckinEnv)
        (uf cf rf : option exn) (s : Session) :
  let today := get_current_date cfg now0 None in
  (5 <= weekday today ->
   send_daily_checkins cfg now0 envs uf cf rf s = (s, None))
  /\ (weekday today < 5 ->
      exists r,
        snd (send_daily_checkins cfg now0 envs uf cf rf s) = Some r
        /\ CheckinResults.date r = today
        /\ match uf with
           | None => CheckinResults.total_users r = len (get_active_users s)
           | Some _ =>
               CheckinResults.total_users r = 0
               /\ CheckinResults.emails_sent r = 0
               /\ CheckinResults.errors r = 1
           end
        /\ 0 <= CheckinResults.emails_sent r <= CheckinResults.total_users r
        /\ 0 <= CheckinResults.errors r
        /\ CheckinResults.emails_sent r + CheckinResults.errors r
           <= CheckinResults.total_users r + 1).
Proof.
  intros today. unfold send_daily_checkins, is_weekday. fold today. split.
  - intros Hw. assert (E : (weekday today <? 5) = false) by (apply Z.ltb_ge; lia).
    rewrite E. reflexivity.
  - intros Hw. assert (E : (weekday today <? 5) = true) by (apply Z.ltb_lt; lia).
    rewrite E. cbn [negb]. unfold query_active_users.
    destruct uf as [e|].
    + destruct (db_context_except rf e s) as [s1 r1]. cbn.
      eexists. split; [reflexivity|]. cbn. repeat split; lia.
    + match goal with
      | |- context [checkin_loop cfg envs ?us ?r0 s] =>
          pose proof (checkin_loop_counters cfg envs us r0 s) as Hl;
          destruct (checkin_loop cfg envs us r0 s) as [s1 r1]
      end.
      cbn in Hl. destruct Hl as (H1 & H2 & H3 & H4 & H5).
      pose proof (Zle_0_nat (List.length (get_active_users s))) as Hlen.
      fold (len (get_active_users s)) in Hlen.
      destruct (db_context_exit cf rf s1) as [s2 [[]|e]]; cbn;
        eexists; (split; [reflexivity|]); cbn; repeat split; lia.
Qed.

(** A weekday on which the query for the active users fails: nothing is
    sent although Alice and Bob are active, and the job reports no users
    and one error. *)
Example failed_user_query_reports_no_users :
  snd (send_daily_checkins sample_cfg jan15_evening
         (fun _ => checkin_env jan15_evening)
         (Some (OperationalError "server closed the connection")) None None
         sample_session)
  = Some {| CheckinResults.total_users := 0; CheckinResults.emails_sent := 0;
            CheckinResults.errors := 1; CheckinResults.date := jan15 |}
  /\ len (get_active_users sample_session) = 2.
Proof. apply conj; vm_compute; reflexivity. Qed.
